(** * The alerting system: audience resolution, the per-recipient
      notification state machine and the reminder sweep of [alerting.py]

    The Python classes are embedded one module per class.  Calls of
    [datetime.now()] read a clock, exceptions are results [Raise e], and the
    objects that the code mutates in place are threaded explicitly and
    written back to the store that references them. *)

From Stdlib Require Import ZArith Lia.
From stdpp Require Import base gmap strings pretty list fin_maps.

(** ** Enumerations *)

Inductive Severity := INFO | WARNING | CRITICAL.
Inductive DeliveryType := IN_APP | EMAIL | SMS.
Inductive AlertStatus := ACTIVE | EXPIRED | ARCHIVED.
Inductive NotificationStatus := UNREAD | READ | SNOOZED.

#[global] Instance Severity_eq_dec : EqDecision Severity.
Proof. solve_decision. Defined.
#[global] Instance DeliveryType_eq_dec : EqDecision DeliveryType.
Proof. solve_decision. Defined.
#[global] Instance AlertStatus_eq_dec : EqDecision AlertStatus.
Proof. solve_decision. Defined.
#[global] Instance NotificationStatus_eq_dec : EqDecision NotificationStatus.
Proof. solve_decision. Defined.

(** ** Durations and naive timestamps of Python's [datetime] module *)

Module timedelta.
Local Open Scope Z_scope.

(** A duration is kept normalised by its constructor:
    [0 <= seconds < 86400] and [0 <= microseconds < 1000000].  The limit of
    999999999 days on a duration is left out: the sums and differences of
    timestamps that the code forms stay below 3652060 days. *)
Record t := mk { days : Z; seconds : Z; microseconds : Z }.

(** [timedelta(days, seconds, microseconds)]: the carries of the
    constructor, with Python's flooring [divmod]. *)
Definition make (d s us : Z) : t :=
  let s' := s + us / 1000000 in
  {| days := d + s' / 86400;
     seconds := s' mod 86400;
     microseconds := us mod 1000000 |}.

(** [timedelta(hours=h)] and [timedelta(days=d)]. *)
Definition of_hours (h : Z) : t := make 0 (h * 3600) 0.
Definition of_days (d : Z) : t := make d 0 0.

Definition add (a b : t) : t :=
  make (days a + days b) (seconds a + seconds b)
       (microseconds a + microseconds b).

(** Comparison of the states [(days, seconds, microseconds)] as tuples. *)
Definition cmp (a b : t) : comparison :=
  match days a ?= days b with
  | Eq => match seconds a ?= seconds b with
          | Eq => microseconds a ?= microseconds b
          | c => c
          end
  | c => c
  end.

Definition ge (a b : t) : bool :=
  match cmp a b with Lt => false | _ => true end.
Definition gt (a b : t) : bool :=
  match cmp a b with Gt => true | _ => false end.

Definition wf (a : t) : Prop :=
  0 <= seconds a < 86400 /\ 0 <= microseconds a < 1000000.

(** The duration as a number of microseconds. *)
Definition to_us (a : t) : Z :=
  (days a * 86400 + seconds a) * 1000000 + microseconds a.
End timedelta.

Module datetime.
Local Open Scope Z_scope.

(** A naive [datetime].  The calendar date is held as its proleptic
    Gregorian ordinal ([date.toordinal()], day 1 is 0001-01-01), on which
    the module's own arithmetic and ordering work. *)
Record t := mk {
  ordinal : Z;
  hour : Z;
  minute : Z;
  second : Z;
  microsecond : Z
}.

Definition MAXORDINAL : Z := 3652059.

Definition wf (a : t) : Prop :=
  1 <= ordinal a <= MAXORDINAL /\ 0 <= hour a < 24 /\ 0 <= minute a < 60 /\
  0 <= second a < 60 /\ 0 <= microsecond a < 1000000.

Definition cmp (a b : t) : comparison :=
  match ordinal a ?= ordinal b with
  | Eq =>
    match hour a ?= hour b with
    | Eq =>
      match minute a ?= minute b with
      | Eq =>
        match second a ?= second b with
        | Eq => microsecond a ?= microsecond b
        | c => c
        end
      | c => c
      end
    | c => c
    end
  | c => c
  end.

Definition lt (a b : t) : bool :=
  match cmp a b with Lt => true | _ => false end.
Definition gt (a b : t) : bool :=
  match cmp a b with Gt => true | _ => false end.
Definition le (a b : t) : bool :=
  match cmp a b with Gt => false | _ => true end.

(** [a + d]: [None] stands for [OverflowError("result out of range")]. *)
Definition add (a : t) (d : timedelta.t) : option t :=
  let delta :=
    timedelta.add
      (timedelta.make (ordinal a)
         (hour a * 3600 + minute a * 60 + second a) (microsecond a)) d in
  let h := timedelta.seconds delta / 3600 in
  let rem := timedelta.seconds delta mod 3600 in
  if bool_decide (0 < timedelta.days delta <= MAXORDINAL) then
    Some {| ordinal := timedelta.days delta;
            hour := h;
            minute := rem / 60;
            second := rem mod 60;
            microsecond := timedelta.microseconds delta |}
  else None.

(** [a - b] for two timestamps. *)
Definition sub (a b : t) : timedelta.t :=
  timedelta.make
    (ordinal a - ordinal b)
    ((second a + minute a * 60 + hour a * 3600) -
     (second b + minute b * 60 + hour b * 3600))
    (microsecond a - microsecond b).

(** [a.replace(hour=h, minute=m, second=s)]: the date and the
    microsecond are kept. *)
Definition replace_hms (a : t) (h m s : Z) : t :=
  {| ordinal := ordinal a; hour := h; minute := m; second := s;
     microsecond := microsecond a |}.

(** Microseconds elapsed since the start of day 0. *)
Definition to_us (a : t) : Z :=
  (ordinal a * 86400 + hour a * 3600 + minute a * 60 + second a) * 1000000
  + microsecond a.

(** The first instant of a calendar day. *)
Definition midnight (ord : Z) : t :=
  {| ordinal := ord; hour := 0; minute := 0; second := 0; microsecond := 0 |}.
End datetime.

(** ** Results, exceptions and the state monad the methods run in *)

Inductive Exn := OverflowError | KeyError.

Inductive Res (A : Type) : Type :=
| Ok (a : A)
| Raise (e : Exn).
Arguments Ok {A} a.
Arguments Raise {A} e.

Definition M (St A : Type) : Type := St -> Res A * St.

Definition ret {St A : Type} (a : A) : M St A := fun s => (Ok a, s).

Definition raise {St A : Type} (e : Exn) : M St A := fun s => (Raise e, s).

Definition bind {St A B : Type} (m : M St A) (k : A -> M St B) : M St B :=
  fun s =>
    match m s with
    | (Ok a, s') => k a s'
    | (Raise e, s') => (Raise e, s')
    end.

(** stdpp's monad notations: [x ← m; k] and [m;; k]. *)
#[global] Instance M_ret {St : Type} : MRet (M St) := fun A => @ret St A.
#[global] Instance M_bind {St : Type} : MBind (M St) :=
  fun A B k m => @bind St A B m k.

(** [for x in xs: body(x)] *)
Fixpoint for_each {St A : Type} (body : A -> M St unit) (xs : list A)
  : M St unit :=
  match xs with
  | [] => mret tt
  | x :: xs' => body x;; for_each body xs'
  end.

(** [[x for x in xs if p(x)]] with an effectful test. *)
Fixpoint filter_m {St A : Type} (p : A -> M St bool) (xs : list A)
  : M St (list A) :=
  match xs with
  | [] => mret []
  | x :: xs' =>
    b ← p x;
    rest ← filter_m p xs';
    mret (if (b : bool) then x :: rest else rest)
  end.

(** The wall clock: [clock n] is what the [n]-th call of [datetime.now()]
    returns; the number of calls made so far is the state. *)
Definition Clock : Type := nat -> datetime.t.

Definition now (clock : Clock) : M nat datetime.t :=
  fun n => (Ok (clock n), S n).

(** ** The directory: users and teams *)

Module User.
Record t := mk { id : string; name : string; email : string;
                 team_id : string }.
End User.

Module Team.
Record t := mk { id : string; name : string; member_ids : gset string }.
End Team.

Module UserRepository.
Record t := mk {
  users : gmap string User.t;
  teams : gmap string Team.t
}.

(** The directory that [__init__] builds. *)
Definition init : t :=
  {| users :=
       <["user1" := User.mk "user1" "Admin User" "admin@company.com" "team1"]>
       (<["user2" :=
            User.mk "user2" "Engineering User" "eng@company.com" "team1"]>
        (<["user3" :=
             User.mk "user3" "Marketing User" "marketing@company.com"
                     "team2"]> ∅));
     teams :=
       <["team1" := Team.mk "team1" "Engineering" {["user1"; "user2"]}]>
       (<["team2" := Team.mk "team2" "Marketing" {["user3"]}]> ∅) |}.

Definition get_user (self : t) (user_id : string) : option User.t :=
  users self !! user_id.

Definition get_team (self : t) (team_id : string) : option Team.t :=
  teams self !! team_id.

Definition get_all_user_ids (self : t) : gset string := dom (users self).
End UserRepository.

(** ** Visibility rules *)

Module VisibilityConfig.
(** The three subclasses of the abstract [VisibilityConfig]. *)
Inductive t :=
| OrganizationVisibility
| TeamVisibility (team_ids : gset string)
| UserVisibility (user_ids : gset string).

(** One step of the loop of [TeamVisibility.get_target_users]:
    [target_users.update(team.member_ids)] when the team exists. *)
Definition add_team (user_repository : UserRepository.t)
    (target_users : gset string) (team_id : string) : gset string :=
  match UserRepository.get_team user_repository team_id with
  | Some team => target_users ∪ Team.member_ids team
  | None => target_users
  end.

(** A Python set is iterated in an order of its own; [elements] fixes
    one. *)
Definition get_target_users (self : t) (user_repository : UserRepository.t)
  : gset string :=
  match self with
  | OrganizationVisibility =>
    UserRepository.get_all_user_ids user_repository
  | TeamVisibility team_ids =>
    foldl (add_team user_repository) ∅ (elements team_ids)
  | UserVisibility user_ids => user_ids
  end.
End VisibilityConfig.

(** ** Alerts *)

Module Alert.
Record t := mk {
  id : string;
  title : string;
  message : string;
  severity : Severity;
  delivery_type : DeliveryType;
  created_by : string;
  visibility_config : VisibilityConfig.t;
  start_time : datetime.t;
  expiry_time : option datetime.t;
  reminder_frequency : timedelta.t;
  status : AlertStatus;
  reminders_enabled : bool
}.

(** The three tests of [is_active] on a clock reading [now].  A
    [datetime] is always truthy, so [self.expiry_time and ...] tests that
    the expiry is set. *)
Definition is_active_at (self : t) (now : datetime.t) : bool :=
  if bool_decide (status self ≠ ACTIVE) then false
  else if datetime.lt now (start_time self) then false
  else
    match expiry_time self with
    | Some expiry => if datetime.gt now expiry then false else true
    | None => true
    end.

Definition is_active (clock : Clock) (self : t) : M nat bool :=
  now ← now clock;
  mret (is_active_at self now).
End Alert.

(** ** The per-recipient notification state *)

Module UserAlertState.
Record t := mk {
  user_id : string;
  alert_id : string;
  status : NotificationStatus;
  last_reminder_sent : option datetime.t;
  snoozed_until : option datetime.t;
  read_at : option datetime.t
}.

(** [UserAlertState(user_id=..., alert_id=..., status=UNREAD)] *)
Definition fresh (user_id alert_id : string) : t :=
  {| user_id := user_id; alert_id := alert_id; status := UNREAD;
     last_reminder_sent := None; snoozed_until := None; read_at := None |}.

(** [self.status = UNREAD; self.snoozed_until = None] *)
Definition expire_snooze (self : t) : t :=
  {| user_id := user_id self; alert_id := alert_id self; status := UNREAD;
     last_reminder_sent := last_reminder_sent self;
     snoozed_until := None; read_at := read_at self |}.

(** [self.last_reminder_sent = now] *)
Definition set_last_reminder_sent (self : t) (now : datetime.t) : t :=
  {| user_id := user_id self; alert_id := alert_id self;
     status := status self; last_reminder_sent := Some now;
     snoozed_until := snoozed_until self; read_at := read_at self |}.

(** The methods mutate [self]; each returns the object as it leaves it. *)
Section Methods.
Context (clock : Clock).

(** Lines 86-93 of [should_receive_reminder]: the read test and the
    throttle on the time since the last reminder. *)
Definition reminder_due (self : t) (alert : Alert.t) : M nat (bool * t) :=
  if bool_decide (status self = READ) then mret (false, self)
  else
    match last_reminder_sent self with
    | None => mret (true, self)
    | Some last =>
      now ← now clock;
      let time_since_last := datetime.sub now last in
      mret (timedelta.ge time_since_last (Alert.reminder_frequency alert),
            self)
    end.

(** [self.snoozed_until and datetime.now() > self.snoozed_until] reads
    the clock only when [snoozed_until] is set. *)
Definition should_receive_reminder (self : t) (alert : Alert.t)
  : M nat (bool * t) :=
  if bool_decide (status self = SNOOZED) then
    match snoozed_until self with
    | Some until =>
      now ← now clock;
      if datetime.gt now until then reminder_due (expire_snooze self) alert
      else mret (false, self)
    | None => mret (false, self)
    end
  else reminder_due self alert.

Definition mark_read (self : t) : M nat t :=
  now ← now clock;
  mret {| user_id := user_id self; alert_id := alert_id self;
          status := READ;
          last_reminder_sent := last_reminder_sent self;
          snoozed_until := snoozed_until self; read_at := Some now |}.

Definition snooze_until_tomorrow (self : t) : M nat t :=
  now ← now clock;
  match datetime.add now (timedelta.of_days 1) with
  | None => raise OverflowError
  | Some tomorrow =>
    mret {| user_id := user_id self; alert_id := alert_id self;
            status := SNOOZED;
            last_reminder_sent := last_reminder_sent self;
            snoozed_until := Some (datetime.replace_hms tomorrow 0 0 0);
            read_at := read_at self |}
  end.
End Methods.
End UserAlertState.

(** ** The store of notification states *)

Module UserAlertStateManager.
(** [user_states: Dict[str, Dict[str, UserAlertState]]] *)
Abbreviation t := (gmap string (gmap string UserAlertState.t)).

Definition init : t := ∅.

Definition lookup (self : t) (user_id alert_id : string)
  : option UserAlertState.t :=
  inner ← self !! user_id; inner !! alert_id.

(** [self.user_states[user_id][alert_id] = state], executed where
    [user_id] is a key of the outer dictionary; also how a mutation of the
    object that the store holds at this place shows in the store. *)
Definition store (user_id alert_id : string) (state : UserAlertState.t)
    (self : t) : t :=
  <[user_id := <[alert_id := state]> (default ∅ (self !! user_id))]> self.

(** [if user_id not in self.user_states: self.user_states[user_id] = {}] *)
Definition with_user (user_id : string) (self : t) : t :=
  match self !! user_id with
  | None => <[user_id := ∅]> self
  | Some _ => self
  end.

Definition get_state (user_id alert_id : string) : M t UserAlertState.t :=
  fun self =>
    let self1 := with_user user_id self in
    let self2 :=
      match lookup self1 user_id alert_id with
      | None =>
        store user_id alert_id (UserAlertState.fresh user_id alert_id) self1
      | Some _ => self1
      end in
    match lookup self2 user_id alert_id with
    | Some state => (Ok state, self2)
    | None => (Raise KeyError, self2)
    end.

Definition update_state (state : UserAlertState.t) : M t unit :=
  fun self =>
    let self1 := with_user (UserAlertState.user_id state) self in
    (Ok tt,
     store (UserAlertState.user_id state) (UserAlertState.alert_id state)
           state self1).
End UserAlertStateManager.

(** ** Alert registry *)

Module AlertManager.
(** [alerts] holds the values of the dictionary in insertion order, the
    order in which [alerts.values()] yields them. *)
Record t := mk {
  alerts : list Alert.t;
  user_repository : UserRepository.t
}.

Definition get_active_alerts (clock : Clock) (self : t)
  : M nat (list Alert.t) :=
  filter_m (Alert.is_active clock) (alerts self).
End AlertManager.

(** ** The state of the running system *)

Module World.
(** The collaborators that [AlertingSystem.__init__] wires together, the
    clock and a trace of the deliveries. *)
Record t := mk {
  alert_manager : AlertManager.t;
  state_manager : UserAlertStateManager.t;
  (** calls of [datetime.now()] made so far *)
  ticks : nat;
  (** calls of [NotificationDelivery.deliver] made so far, latest first:
      alert id, user id and the value returned *)
  deliveries : list (string * string * bool)
}.

Definition with_ticks (n : nat) (w : t) : t :=
  {| alert_manager := alert_manager w; state_manager := state_manager w;
     ticks := n; deliveries := deliveries w |}.

Definition with_state_manager (m : UserAlertStateManager.t) (w : t) : t :=
  {| alert_manager := alert_manager w; state_manager := m;
     ticks := ticks w; deliveries := deliveries w |}.

Definition with_deliveries (d : list (string * string * bool)) (w : t) : t :=
  {| alert_manager := alert_manager w; state_manager := state_manager w;
     ticks := ticks w; deliveries := d |}.

(** A computation on the clock, run inside the system. *)
Definition on_clock {A : Type} (m : M nat A) : M t A :=
  fun w => let (r, n) := m (ticks w) in (r, with_ticks n w).

(** A computation on the state store, run inside the system. *)
Definition on_states {A : Type} (m : M UserAlertStateManager.t A) : M t A :=
  fun w => let (r, s) := m (state_manager w) in (r, with_state_manager s w).

(** A mutation of the state object that the store holds for
    [(user_id, alert_id)]. *)
Definition mutate (user_id alert_id : string) (state : UserAlertState.t)
  : M t unit :=
  on_states (fun s =>
    (Ok tt, UserAlertStateManager.store user_id alert_id state s)).

Definition get_alert_manager : M t AlertManager.t :=
  fun w => (Ok (alert_manager w), w).
End World.

(** ** Delivery *)

Module NotificationDelivery.
Inductive NotificationChannel := InAppChannel | EmailChannel.

(** [self._channels]: there is no channel for [SMS]. *)
Definition channels (delivery_type : DeliveryType)
  : option NotificationChannel :=
  match delivery_type with
  | IN_APP => Some InAppChannel
  | EMAIL => Some EmailChannel
  | SMS => None
  end.

(** Both channels print a line and return [True]. *)
Definition send (channel : NotificationChannel) (alert : Alert.t)
    (user_id : string) : bool := true.

Definition deliver_result (alert : Alert.t) (user_id : string) : bool :=
  match channels (Alert.delivery_type alert) with
  | Some channel => send channel alert user_id
  | None => false
  end.

(** [deliver], with the call recorded in the trace. *)
Definition deliver (alert : Alert.t) (user_id : string) : M World.t bool :=
  fun w =>
    let r := deliver_result alert user_id in
    (Ok r,
     World.with_deliveries
       ((Alert.id alert, user_id, r) :: World.deliveries w) w).
End NotificationDelivery.

(** ** The reminder sweep *)

Module ReminderScheduler.
Import World.

Section Sweep.
Context (clock : Clock).

(** The body of the inner loop of [process_reminders] for one
    recipient.  [user_state] is the object held by the store, so what
    [should_receive_reminder] and the assignment to
    [last_reminder_sent] do to it shows in the store at once. *)
Definition remind (alert : Alert.t) (user_id : string) : M t unit :=
  user_state ← on_states
    (UserAlertStateManager.get_state user_id (Alert.id alert));
  '(due, user_state) ← on_clock
    (UserAlertState.should_receive_reminder clock user_state alert);
  mutate user_id (Alert.id alert) user_state;;
  if (due : bool) then
    delivered ← NotificationDelivery.deliver alert user_id;
    if (delivered : bool) then
      now ← on_clock (now clock);
      let user_state :=
        UserAlertState.set_last_reminder_sent user_state now in
      mutate user_id (Alert.id alert) user_state;;
      on_states (UserAlertStateManager.update_state user_state)
    else mret tt
  else mret tt.

(** The body of the outer loop. *)
Definition remind_audience (user_repository : UserRepository.t)
    (alert : Alert.t) : M t unit :=
  if negb (Alert.reminders_enabled alert) then mret tt
  else
    let target_users :=
      VisibilityConfig.get_target_users (Alert.visibility_config alert)
        user_repository in
    for_each (remind alert) (elements target_users).

Definition process_reminders : M t unit :=
  manager ← get_alert_manager;
  active_alerts ← on_clock (AlertManager.get_active_alerts clock manager);
  for_each (remind_audience (AlertManager.user_repository manager))
    active_alerts.
End Sweep.
End ReminderScheduler.

(** ** The recipient actions *)

Module AlertingSystem.
Import World.

Section Actions.
Context (clock : Clock).

Definition snooze_alert (user_id alert_id : string) : M t unit :=
  state ← on_states (UserAlertStateManager.get_state user_id alert_id);
  state ← on_clock (UserAlertState.snooze_until_tomorrow clock state);
  mutate user_id alert_id state;;
  on_states (UserAlertStateManager.update_state state).

Definition mark_alert_read (user_id alert_id : string) : M t unit :=
  state ← on_states (UserAlertStateManager.get_state user_id alert_id);
  state ← on_clock (UserAlertState.mark_read clock state);
  mutate user_id alert_id state;;
  on_states (UserAlertStateManager.update_state state).

Definition process_reminders : M t unit :=
  ReminderScheduler.process_reminders clock.
End Actions.
End AlertingSystem.

(** ** Histories of one (recipient, alert) state *)

Module History.
(** What can happen to one state object: the two recipient actions and
    the eligibility check of a sweep. *)
Inductive Action :=
| MarkRead
| Snooze
| Check (alert : Alert.t).

#[global] Instance Action_is_snooze_dec (a : Action) : Decision (a = Snooze).
Proof. destruct a; [right | left | right]; congruence. Defined.

Section Run.
Context (clock : Clock).

(** One action; a check also yields its answer. *)
Definition step (a : Action) (state : UserAlertState.t)
  : M nat (list bool * UserAlertState.t) :=
  match a with
  | MarkRead =>
    state ← UserAlertState.mark_read clock state; mret ([], state)
  | Snooze =>
    state ← UserAlertState.snooze_until_tomorrow clock state;
    mret ([], state)
  | Check alert =>
    '(due, state) ← UserAlertState.should_receive_reminder clock state alert;
    mret ([due], state)
  end.

(** The actions in turn, with the answers of the checks in order. *)
Fixpoint run (actions : list Action) (state : UserAlertState.t)
  : M nat (list bool * UserAlertState.t) :=
  match actions with
  | [] => mret ([], state)
  | a :: rest =>
    '(out, state) ← step a state;
    '(outs, state) ← run rest state;
    mret (out ++ outs, state)
  end.
End Run.
End History.

(** ** Properties of states and stores that the theorems speak about *)

(** The audience of a team rule in the words of the specification: the
    union, over the named teams, of the member set of the team, an unknown
    team id contributing the empty set. *)
Definition spec_team_members (directory : UserRepository.t) (team_id : string)
  : gset string :=
  match UserRepository.teams directory !! team_id with
  | Some team => Team.member_ids team
  | None => ∅
  end.

Definition spec_team_audience (directory : UserRepository.t)
    (team_ids : gset string) : gset string :=
  ⋃ (spec_team_members directory <$> elements team_ids).

(** Every state is filed under its own ids, as [get_state] creates it. *)
Definition store_wf (m : UserAlertStateManager.t) : Prop :=
  ∀ user_id alert_id state,
    UserAlertStateManager.lookup m user_id alert_id = Some state →
    UserAlertState.user_id state = user_id ∧
    UserAlertState.alert_id state = alert_id.

(** One half of the invariant of the state machine. *)
Definition snoozed_has_until (state : UserAlertState.t) : Prop :=
  UserAlertState.status state = SNOOZED →
  is_Some (UserAlertState.snoozed_until state).

(** A clock that never runs backwards and reads valid timestamps. *)
Definition clock_ok (clock : Clock) : Prop :=
  (∀ n, datetime.wf (clock n)) ∧
  (∀ i j, (i ≤ j)%nat → datetime.le (clock i) (clock j) = true).

(** The states of the system that its entry points can produce: started
    with an empty store, then any sequence of recipient actions, sweeps and
    changes of the alert registry (creating, updating and archiving
    alerts). *)
Inductive reachable (clock : Clock) : World.t → Prop :=
| reachable_init manager n :
    reachable clock
      (World.mk manager UserAlertStateManager.init n [])
| reachable_snooze w user_id alert_id :
    reachable clock w →
    reachable clock (snd (AlertingSystem.snooze_alert clock user_id alert_id w))
| reachable_mark_read w user_id alert_id :
    reachable clock w →
    reachable clock
      (snd (AlertingSystem.mark_alert_read clock user_id alert_id w))
| reachable_sweep w :
    reachable clock w →
    reachable clock (snd (AlertingSystem.process_reminders clock w))
| reachable_registry w manager :
    reachable clock w →
    reachable clock
      (World.mk manager (World.state_manager w) (World.ticks w)
         (World.deliveries w)).

(** The conditions under which an alert is not live at [now]. *)
Definition outside_window (alert : Alert.t) (now : datetime.t) : Prop :=
  Alert.status alert ≠ ACTIVE ∨
  datetime.lt now (Alert.start_time alert) = true ∨
  ∃ expiry, Alert.expiry_time alert = Some expiry ∧
            datetime.gt now expiry = true.

(** What a part of a sweep that works on the alerts whose id satisfies
    [touched] may do between two states of the system: it records
    deliveries of those alerts only, leaves the states of every other alert
    as they are, the registry alone, the store well-formed, and the clock
    never goes back. *)
Definition sweep_frame (touched : string → Prop) (w w' : World.t) : Prop :=
  store_wf (World.state_manager w') ∧
  World.alert_manager w' = World.alert_manager w ∧
  (World.ticks w ≤ World.ticks w')%nat ∧
  (∃ new,
     World.deliveries w' = new ++ World.deliveries w ∧
     ∀ alert_id user_id r, (alert_id, user_id, r) ∈ new → touched alert_id) ∧
  (∀ user_id alert_id,
     ¬ touched alert_id →
     UserAlertStateManager.lookup (World.state_manager w') user_id alert_id =
     UserAlertStateManager.lookup (World.state_manager w) user_id alert_id).

(** ** Sample data *)

Module Sample.
(** 2024-01-01 10:30:00.123456 *)
Definition T0 : datetime.t := datetime.mk 738886 10 30 0 123456.

(** One second per reading from [T0], up to 10:30:59. *)
Definition clock : Clock :=
  fun n => datetime.mk 738886 10 30 (Z.min (Z.of_nat n) 59) 123456.

(** One day per reading from [T0], up to the last day of the
    calendar. *)
Definition days : Clock :=
  fun n =>
    datetime.mk (Z.min (738886 + Z.of_nat n) datetime.MAXORDINAL)
                10 30 0 123456.

Definition alert (delivery_type : DeliveryType)
    (reminder_frequency : timedelta.t) : Alert.t :=
  {| Alert.id := "1"; Alert.title := "Outage"; Alert.message := "Down";
     Alert.severity := WARNING; Alert.delivery_type := delivery_type;
     Alert.created_by := "user1";
     Alert.visibility_config := VisibilityConfig.OrganizationVisibility;
     Alert.start_time := datetime.midnight 738886;
     Alert.expiry_time := None;
     Alert.reminder_frequency := reminder_frequency;
     Alert.status := ACTIVE; Alert.reminders_enabled := true |}.

Definition in_app_alert : Alert.t := alert IN_APP (timedelta.of_hours 2).
Definition sms_alert : Alert.t := alert SMS (timedelta.of_hours 2).
Definition eager_alert : Alert.t := alert IN_APP (timedelta.of_hours 0).

Definition archived_alert : Alert.t :=
  {| Alert.id := "2"; Alert.title := "Old"; Alert.message := "Gone";
     Alert.severity := INFO; Alert.delivery_type := IN_APP;
     Alert.created_by := "user1";
     Alert.visibility_config :=
       VisibilityConfig.TeamVisibility {["team1"]};
     Alert.start_time := datetime.midnight 738886;
     Alert.expiry_time := None;
     Alert.reminder_frequency := timedelta.of_hours 2;
     Alert.status := ARCHIVED; Alert.reminders_enabled := true |}.

Definition world (alerts : list Alert.t) : World.t :=
  {| World.alert_manager := AlertManager.mk alerts UserRepository.init;
     World.state_manager := UserAlertStateManager.init;
     World.ticks := 0;
     World.deliveries := [] |}.

Definition unread : UserAlertState.t := UserAlertState.fresh "user1" "1".

(** A state that breaks the invariant: snoozed without a deadline. *)
Definition snoozed_without_until : UserAlertState.t :=
  {| UserAlertState.user_id := "user1"; UserAlertState.alert_id := "1";
     UserAlertState.status := SNOOZED;
     UserAlertState.last_reminder_sent := None;
     UserAlertState.snoozed_until := None;
     UserAlertState.read_at := None |}.

(** Snoozed the day before [T0] until the midnight that starts [T0]'s
    day. *)
Definition snoozed_expired : UserAlertState.t :=
  {| UserAlertState.user_id := "user1"; UserAlertState.alert_id := "1";
     UserAlertState.status := SNOOZED;
     UserAlertState.last_reminder_sent := None;
     UserAlertState.snoozed_until := Some (datetime.midnight 738886);
     UserAlertState.read_at := None |}.
End Sample.

(** ** Building visibility rules *)

(** What a call that may raise [ValueError] gives. *)
Inductive Outcome (A : Type) : Type :=
| Returned (a : A)
| ValueError (message : string).
Arguments Returned {A} a.
Arguments ValueError {A} message.

Module VisibilityFactory.
Definition create_visibility (visibility_type : string)
    (target_ids : gset string) : Outcome VisibilityConfig.t :=
  if bool_decide (visibility_type = "organization") then
    Returned VisibilityConfig.OrganizationVisibility
  else if bool_decide (visibility_type = "team") then
    Returned (VisibilityConfig.TeamVisibility target_ids)
  else if bool_decide (visibility_type = "user") then
    Returned (VisibilityConfig.UserVisibility target_ids)
  else ValueError ("Unknown visibility type: " +:+ visibility_type).
End VisibilityFactory.

(** ** The alert registry with its keys *)

Module AlertRegistry.
(** [AlertManager] with [alerts: Dict[str, Alert]] as the list of its items
    in insertion order. *)
Record t := mk {
  alerts : list (string * Alert.t);
  user_repository : UserRepository.t
}.

(** [AlertManager(user_repository)] *)
Definition init (user_repository : UserRepository.t) : t :=
  {| alerts := []; user_repository := user_repository |}.

(** [self.alerts.values()], and the registry as the sweep reads it. *)
Definition values (self : t) : list Alert.t := snd <$> alerts self.

Definition manager (self : t) : AlertManager.t :=
  AlertManager.mk (values self) (user_repository self).

(** [d.get(key)] *)
Fixpoint dict_get (key : string) (d : list (string * Alert.t))
  : option Alert.t :=
  match d with
  | [] => None
  | (k, v) :: rest => if bool_decide (k = key) then Some v else dict_get key rest
  end.

(** [d[key] = v]: an existing key keeps its place, a new one goes last. *)
Fixpoint dict_set (key : string) (v : Alert.t) (d : list (string * Alert.t))
  : list (string * Alert.t) :=
  match d with
  | [] => [(key, v)]
  | (k, x) :: rest =>
    if bool_decide (k = key) then (k, v) :: rest
    else (k, x) :: dict_set key v rest
  end.

(** [str(len(self.alerts) + 1)] *)
Definition next_id (self : t) : string := pretty (length (alerts self) + 1)%nat.

(** [status] and [reminders_enabled] take the defaults of the dataclass. *)
Definition create_alert (title message : string) (severity : Severity)
    (delivery_type : DeliveryType) (created_by visibility_type : string)
    (target_ids : gset string) (start_time : datetime.t)
    (expiry_time : option datetime.t) (reminder_frequency : timedelta.t)
    (self : t) : Outcome Alert.t * t :=
  match VisibilityFactory.create_visibility visibility_type target_ids with
  | ValueError message => (ValueError message, self)
  | Returned visibility_config =>
    let alert :=
      {| Alert.id := next_id self; Alert.title := title;
         Alert.message := message; Alert.severity := severity;
         Alert.delivery_type := delivery_type;
         Alert.created_by := created_by;
         Alert.visibility_config := visibility_config;
         Alert.start_time := start_time; Alert.expiry_time := expiry_time;
         Alert.reminder_frequency := reminder_frequency;
         Alert.status := ACTIVE; Alert.reminders_enabled := true |} in
    (Returned alert,
     {| alerts := dict_set (Alert.id alert) alert (alerts self);
        user_repository := user_repository self |})
  end.

(** One item of [**kwargs]: a field of the dataclass with a value of its
    type, or a key that is no attribute of an alert. *)
Inductive Kwarg :=
| kw_id (v : string)
| kw_title (v : string)
| kw_message (v : string)
| kw_severity (v : Severity)
| kw_delivery_type (v : DeliveryType)
| kw_created_by (v : string)
| kw_visibility_config (v : VisibilityConfig.t)
| kw_start_time (v : datetime.t)
| kw_expiry_time (v : option datetime.t)
| kw_reminder_frequency (v : timedelta.t)
| kw_status (v : AlertStatus)
| kw_reminders_enabled (v : bool)
| kw_other (key : string).

(** [if hasattr(alert, key): setattr(alert, key, value)] *)
Definition setattr (alert : Alert.t) (kwarg : Kwarg) : Alert.t :=
  let '(Alert.mk id title message severity delivery_type created_by
          visibility_config start_time expiry_time reminder_frequency
          status reminders_enabled) := alert in
  match kwarg with
  | kw_id v =>
    Alert.mk v title message severity delivery_type created_by
      visibility_config start_time expiry_time reminder_frequency status
      reminders_enabled
  | kw_title v =>
    Alert.mk id v message severity delivery_type created_by
      visibility_config start_time expiry_time reminder_frequency status
      reminders_enabled
  | kw_message v =>
    Alert.mk id title v severity delivery_type created_by
      visibility_config start_time expiry_time reminder_frequency status
      reminders_enabled
  | kw_severity v =>
    Alert.mk id title message v delivery_type created_by
      visibility_config start_time expiry_time reminder_frequency status
      reminders_enabled
  | kw_delivery_type v =>
    Alert.mk id title message severity v created_by
      visibility_config start_time expiry_time reminder_frequency status
      reminders_enabled
  | kw_created_by v =>
    Alert.mk id title message severity delivery_type v
      visibility_config start_time expiry_time reminder_frequency status
      reminders_enabled
  | kw_visibility_config v =>
    Alert.mk id title message severity delivery_type created_by
      v start_time expiry_time reminder_frequency status reminders_enabled
  | kw_start_time v =>
    Alert.mk id title message severity delivery_type created_by
      visibility_config v expiry_time reminder_frequency status
      reminders_enabled
  | kw_expiry_time v =>
    Alert.mk id title message severity delivery_type created_by
      visibility_config start_time v reminder_frequency status
      reminders_enabled
  | kw_reminder_frequency v =>
    Alert.mk id title message severity delivery_type created_by
      visibility_config start_time expiry_time v status reminders_enabled
  | kw_status v =>
    Alert.mk id title message severity delivery_type created_by
      visibility_config start_time expiry_time reminder_frequency v
      reminders_enabled
  | kw_reminders_enabled v =>
    Alert.mk id title message severity delivery_type created_by
      visibility_config start_time expiry_time reminder_frequency status v
  | kw_other _ => alert
  end.

(** The alert is changed in place, so the dictionary shows the change
    under the same key. *)
Definition update_alert (alert_id : string) (kwargs : list Kwarg) (self : t)
  : option Alert.t * t :=
  match dict_get alert_id (alerts self) with
  | None => (None, self)
  | Some alert =>
    let alert := foldl setattr alert kwargs in
    (Some alert,
     {| alerts := dict_set alert_id alert (alerts self);
        user_repository := user_repository self |})
  end.

Definition archive_alert (alert_id : string) (self : t) : bool * t :=
  match dict_get alert_id (alerts self) with
  | Some alert =>
    (true,
     {| alerts := dict_set alert_id (setattr alert (kw_status ARCHIVED))
                   (alerts self);
        user_repository := user_repository self |})
  | None => (false, self)
  end.

Definition get_active_alerts (clock : Clock) (self : t)
  : M nat (list Alert.t) :=
  AlertManager.get_active_alerts clock (manager self).

Definition get_alerts_for_user (clock : Clock) (self : t) (user_id : string)
  : M nat (list Alert.t) :=
  active ← get_active_alerts clock self;
  mret (filter
          (λ alert,
             user_id ∈ VisibilityConfig.get_target_users
                         (Alert.visibility_config alert)
                         (user_repository self))
          active).
End AlertRegistry.

(** ** The remaining methods of [AlertingSystem] *)

Module AlertingSystemAdmin.
(** [create_alert]: every alert is delivered in the app. *)
Definition create_alert (title message : string) (severity : Severity)
    (created_by visibility_type : string) (target_ids : gset string)
    (start_time : datetime.t) (expiry_time : option datetime.t)
    (reminder_frequency : timedelta.t) (registry : AlertRegistry.t)
  : Outcome Alert.t * AlertRegistry.t :=
  AlertRegistry.create_alert title message severity IN_APP created_by
    visibility_type target_ids start_time expiry_time reminder_frequency
    registry.

(** The [.value] of a status. *)
Definition AlertStatus_value (status : AlertStatus) : string :=
  match status with
  | ACTIVE => "active"
  | EXPIRED => "expired"
  | ARCHIVED => "archived"
  end.

(** The [filters] dictionary with the two keys that are looked at. *)
Record Filters := mk_filters {
  filter_severity : option Severity;
  filter_status : option string
}.

(** The body of the loop of [list_alerts]. *)
Definition matches (filters : Filters) (alert : Alert.t) : bool :=
  let matches := true in
  let matches :=
    match filter_severity filters with
    | Some severity =>
      if bool_decide (Alert.severity alert ≠ severity) then false else matches
    | None => matches
    end in
  let matches :=
    match filter_status filters with
    | Some status =>
      if bool_decide (AlertStatus_value (Alert.status alert) ≠ status)
      then false else matches
    | None => matches
    end in
  matches.

(** [if filters:] holds for a dictionary with a key. *)
Definition list_alerts (filters : option Filters) (registry : AlertRegistry.t)
  : list Alert.t :=
  let alerts := AlertRegistry.values registry in
  match filters with
  | Some (mk_filters None None) | None => alerts
  | Some filters => filter (λ alert, matches filters alert = true) alerts
  end.

Definition get_user_alerts (clock : Clock) (registry : AlertRegistry.t)
    (user_id : string) : M nat (list Alert.t) :=
  AlertRegistry.get_alerts_for_user clock registry user_id.
End AlertingSystemAdmin.

(** ** Analytics *)

Module AnalyticsEngine.




(** The states in the order of the two nested loops over [.values()]. *)
Definition all_states (user_states : UserAlertStateManager.t)
  : list UserAlertState.t :=
  user_states_of ← (snd <$> map_to_list user_states);
  snd <$> map_to_list user_states_of.

End AnalyticsEngine.

(** ** Properties of registries, traces and stores used further on *)

(** The keys of a registry count up from "1", and every alert is filed
    under its own id. *)
Definition registry_wf (registry : AlertRegistry.t) : Prop :=
  fst <$> AlertRegistry.alerts registry =
    (pretty <$> seq 1 (length (AlertRegistry.alerts registry))) ∧
  ∀ key alert,
    (key, alert) ∈ AlertRegistry.alerts registry → Alert.id alert = key.

(** The registries that the admin operations build, [update_alert] being
    called as the [PUT] handler calls it, never with the key [id]. *)
Inductive built : AlertRegistry.t → Prop :=
| built_init user_repository :
    built (AlertRegistry.init user_repository)
| built_create title message severity delivery_type created_by
    visibility_type target_ids start_time expiry_time reminder_frequency
    registry :
    built registry →
    built (snd (AlertRegistry.create_alert title message severity
                  delivery_type created_by visibility_type target_ids
                  start_time expiry_time reminder_frequency registry))
| built_update alert_id kwargs registry :
    built registry →
    (∀ v, AlertRegistry.kw_id v ∉ kwargs) →
    built (snd (AlertRegistry.update_alert alert_id kwargs registry))
| built_archive alert_id registry :
    built registry →
    built (snd (AlertRegistry.archive_alert alert_id registry)).

(** The alerts that one pass of [get_active_alerts] keeps when it starts
    at reading [n]: the [i]-th alert is tested at reading [n + i]. *)
Fixpoint live_alerts (clock : Clock) (n : nat) (alerts : list Alert.t)
  : list Alert.t :=
  match alerts with
  | [] => []
  | alert :: rest =>
    if Alert.is_active_at alert (clock n)
    then alert :: live_alerts clock (S n) rest
    else live_alerts clock (S n) rest
  end.

(** The value that a list of keyword arguments gives for one field: [get]
    picks the value out of an item that names the field. *)
Definition kwarg_id (kwarg : AlertRegistry.Kwarg) : option string :=
  match kwarg with AlertRegistry.kw_id v => Some v | _ => None end.
Definition kwarg_title (kwarg : AlertRegistry.Kwarg) : option string :=
  match kwarg with AlertRegistry.kw_title v => Some v | _ => None end.
Definition kwarg_message (kwarg : AlertRegistry.Kwarg) : option string :=
  match kwarg with AlertRegistry.kw_message v => Some v | _ => None end.
Definition kwarg_severity (kwarg : AlertRegistry.Kwarg) : option Severity :=
  match kwarg with AlertRegistry.kw_severity v => Some v | _ => None end.
Definition kwarg_delivery_type (kwarg : AlertRegistry.Kwarg)
  : option DeliveryType :=
  match kwarg with AlertRegistry.kw_delivery_type v => Some v | _ => None end.
Definition kwarg_created_by (kwarg : AlertRegistry.Kwarg) : option string :=
  match kwarg with AlertRegistry.kw_created_by v => Some v | _ => None end.
Definition kwarg_visibility_config (kwarg : AlertRegistry.Kwarg)
  : option VisibilityConfig.t :=
  match kwarg with
  | AlertRegistry.kw_visibility_config v => Some v
  | _ => None
  end.
Definition kwarg_start_time (kwarg : AlertRegistry.Kwarg)
  : option datetime.t :=
  match kwarg with AlertRegistry.kw_start_time v => Some v | _ => None end.
Definition kwarg_expiry_time (kwarg : AlertRegistry.Kwarg)
  : option (option datetime.t) :=
  match kwarg with AlertRegistry.kw_expiry_time v => Some v | _ => None end.
Definition kwarg_reminder_frequency (kwarg : AlertRegistry.Kwarg)
  : option timedelta.t :=
  match kwarg with
  | AlertRegistry.kw_reminder_frequency v => Some v
  | _ => None
  end.
Definition kwarg_status (kwarg : AlertRegistry.Kwarg) : option AlertStatus :=
  match kwarg with AlertRegistry.kw_status v => Some v | _ => None end.
Definition kwarg_reminders_enabled (kwarg : AlertRegistry.Kwarg)
  : option bool :=
  match kwarg with
  | AlertRegistry.kw_reminders_enabled v => Some v
  | _ => None
  end.

(** The field after an update: the value of the last item that names it,
    or the old value when no item names it. *)
Definition given {A : Type} (get : AlertRegistry.Kwarg → option A)
    (kwargs : list AlertRegistry.Kwarg) (old : A) : A :=
  default old (last (omap get kwargs)).

(** The (alert id, user id) of a recorded delivery. *)
Definition delivery_pair (d : string * string * bool) : string * string :=
  fst d.

(** As [sweep_frame], for a part of a sweep that works on the
    (alert id, user id) pairs that satisfy [touched]. *)
Definition pair_frame (touched : string → string → Prop) (w w' : World.t)
  : Prop :=
  store_wf (World.state_manager w') ∧
  World.alert_manager w' = World.alert_manager w ∧
  (World.ticks w ≤ World.ticks w')%nat ∧
  (∃ new,
     World.deliveries w' = new ++ World.deliveries w ∧
     ∀ d, d ∈ new → touched (delivery_pair d).1 (delivery_pair d).2) ∧
  (∀ user_id alert_id,
     ¬ touched alert_id user_id →
     UserAlertStateManager.lookup (World.state_manager w') user_id alert_id =
     UserAlertStateManager.lookup (World.state_manager w) user_id alert_id).

(** Since the system was in [w0], nothing has been delivered to the pair
    and its state has not been touched. *)
Definition pair_untouched (w0 : World.t) (alert_id user_id : string)
    (w : World.t) : Prop :=
  store_wf (World.state_manager w) ∧
  (World.ticks w0 ≤ World.ticks w)%nat ∧
  UserAlertStateManager.lookup (World.state_manager w) user_id alert_id =
    UserAlertStateManager.lookup (World.state_manager w0) user_id alert_id ∧
  ∃ new,
    World.deliveries w = new ++ World.deliveries w0 ∧
    ∀ r, (alert_id, user_id, r) ∉ new.

(** Since the system was in [w0], the pair got exactly one delivery, a
    successful one, and [state] stamped with the clock reading [clock k]
    taken for it is what the store holds for the pair. *)
Definition pair_reminded (clock : Clock) (w0 : World.t)
    (alert_id user_id : string) (state : UserAlertState.t) (w : World.t)
  : Prop :=
  store_wf (World.state_manager w) ∧
  ∃ k,
    (World.ticks w0 ≤ k < World.ticks w)%nat ∧
    UserAlertStateManager.lookup (World.state_manager w) user_id alert_id =
      Some (UserAlertState.set_last_reminder_sent state (clock k)) ∧
    ∃ before after,
      World.deliveries w =
        after ++ (alert_id, user_id, true) :: before ++ World.deliveries w0 ∧
      (∀ r, (alert_id, user_id, r) ∉ before) ∧
      (∀ r, (alert_id, user_id, r) ∉ after).

(** Every stored state satisfies [P]. *)
Definition states_ok (P : UserAlertState.t → Prop)
    (m : UserAlertStateManager.t) : Prop :=
  ∀ user_id alert_id state,
    UserAlertStateManager.lookup m user_id alert_id = Some state → P state.

(** ** More sample data *)

Module Scenario.
(** A registry with an organization-wide alert "1" and a team alert "2",
    created through the system. *)
Definition registry1 : AlertRegistry.t :=
  snd (AlertingSystemAdmin.create_alert "Outage" "Down" WARNING "user1"
         "organization" ∅ (datetime.midnight 738886) None
         (timedelta.of_hours 2) (AlertRegistry.init UserRepository.init)).

Definition registry2 : AlertRegistry.t :=
  snd (AlertingSystemAdmin.create_alert "Deploy" "Tonight" INFO "user2"
         "team" {["team2"]} (datetime.midnight 738886) None
         (timedelta.of_hours 2) registry1).

Definition world (registry : AlertRegistry.t)
    (states : UserAlertStateManager.t) : World.t :=
  {| World.alert_manager := AlertRegistry.manager registry;
     World.state_manager := states;
     World.ticks := 0;
     World.deliveries := [] |}.

(** The store after "user1" marked alert "1" read, and after snoozing it,
    at the first reading of [Sample.clock]. *)
Definition read_store : UserAlertStateManager.t :=
  World.state_manager
    (snd (AlertingSystem.mark_alert_read Sample.clock "user1" "1"
            (world registry2 UserAlertStateManager.init))).

Definition snoozed_store : UserAlertStateManager.t :=
  World.state_manager
    (snd (AlertingSystem.snooze_alert Sample.clock "user1" "1"
            (world registry2 UserAlertStateManager.init))).

(** The store after one sweep. *)
Definition swept_store : UserAlertStateManager.t :=
  World.state_manager
    (snd (AlertingSystem.process_reminders Sample.clock
            (world registry2 UserAlertStateManager.init))).

(** The state of "user1" for alert "1" in each of these stores. *)
Definition read_state : UserAlertState.t :=
  UserAlertState.mk "user1" "1" READ None None (Some (Sample.clock 0)).

Definition snoozed_state : UserAlertState.t :=
  UserAlertState.mk "user1" "1" SNOOZED None
    (Some (datetime.mk 738887 0 0 0 123456)) None.

Definition swept_state : UserAlertState.t :=
  UserAlertState.mk "user1" "1" UNREAD (Some (Sample.clock 3)) None None.

(** A state last reminded at 08:00, two and a half hours before
    [Sample.T0], and a store that holds only it. *)
Definition stale_state : UserAlertState.t :=
  UserAlertState.mk "user1" "1" UNREAD
    (Some (datetime.mk 738886 8 0 0 0)) None None.

Definition stale_store : UserAlertStateManager.t :=
  UserAlertStateManager.store "user1" "1" stale_state
    UserAlertStateManager.init.

(** A store that holds only a snooze of "user1" for alert "1" that has
    expired by [Sample.T0]. *)
Definition expired_store : UserAlertStateManager.t :=
  UserAlertStateManager.store "user1" "1" Sample.snoozed_expired
    UserAlertStateManager.init.

(** A system with the one alert [Sample.sms_alert], which has no channel,
    or with the one alert [Sample.in_app_alert]. *)
Definition sms_world (states : UserAlertStateManager.t) : World.t :=
  {| World.alert_manager :=
       AlertManager.mk [Sample.sms_alert] UserRepository.init;
     World.state_manager := states;
     World.ticks := 0;
     World.deliveries := [] |}.

Definition in_app_world (states : UserAlertStateManager.t) : World.t :=
  {| World.alert_manager :=
       AlertManager.mk [Sample.in_app_alert] UserRepository.init;
     World.state_manager := states;
     World.ticks := 0;
     World.deliveries := [] |}.

(** A clock that is set back: 10:30 at its first two readings, 09:00 from
    then on. *)
Definition set_back : Clock :=
  fun n =>
    if (n <? 2)%nat then datetime.mk 738886 10 30 0 0
    else datetime.mk 738886 9 0 0 0.

(** A clock stuck on the last day that a [datetime] can hold. *)
Definition last_day : Clock :=
  fun _ => datetime.mk datetime.MAXORDINAL 10 30 0 0.
End Scenario.

(** * Lemmas on durations and timestamps *)

Section Time.
Local Open Scope Z_scope.

Lemma timedelta_make_wf d s us : timedelta.wf (timedelta.make d s us).
Proof.
  unfold timedelta.wf, timedelta.make; simpl.
  split; apply Z.mod_pos_bound; lia.
Qed.

Lemma timedelta_to_us_make d s us :
  timedelta.to_us (timedelta.make d s us) = (d * 86400 + s) * 1000000 + us.
Proof.
  unfold timedelta.to_us, timedelta.make; simpl.
  pose proof (Z_div_mod_eq_full us 1000000).
  pose proof (Z_div_mod_eq_full (s + us / 1000000) 86400).
  lia.
Qed.

(** On normalised durations the tuple order is the order of lengths. *)
Lemma timedelta_cmp_to_us a b :
  timedelta.wf a → timedelta.wf b →
  timedelta.cmp a b = (timedelta.to_us a ?= timedelta.to_us b).
Proof.
  intros [Hsa Hua] [Hsb Hub]. unfold timedelta.cmp, timedelta.to_us.
  symmetry.
  destruct (Z.compare_spec (timedelta.days a) (timedelta.days b));
    [destruct (Z.compare_spec (timedelta.seconds a) (timedelta.seconds b));
     [destruct (Z.compare_spec (timedelta.microseconds a)
                               (timedelta.microseconds b)) | |] | |];
    first [apply Z.compare_eq_iff | apply Z.compare_lt_iff
          | apply Z.compare_gt_iff]; lia.
Qed.

Lemma timedelta_ge_to_us a b :
  timedelta.wf a → timedelta.wf b →
  timedelta.ge a b = true ↔ timedelta.to_us b <= timedelta.to_us a.
Proof.
  intros Ha Hb. unfold timedelta.ge. rewrite timedelta_cmp_to_us by done.
  destruct (Z.compare_spec (timedelta.to_us a) (timedelta.to_us b));
    split; intros; try done; lia.
Qed.

Lemma datetime_sub_wf a b : timedelta.wf (datetime.sub a b).
Proof. apply timedelta_make_wf. Qed.

Lemma datetime_to_us_sub a b :
  timedelta.to_us (datetime.sub a b) = datetime.to_us a - datetime.to_us b.
Proof.
  unfold datetime.sub. rewrite timedelta_to_us_make.
  unfold datetime.to_us. lia.
Qed.

(** On valid timestamps the field-wise order is the order in time. *)
Lemma datetime_cmp_to_us a b :
  datetime.wf a → datetime.wf b →
  datetime.cmp a b = (datetime.to_us a ?= datetime.to_us b).
Proof.
  intros (Hoa & Hha & Hma & Hsa & Hua) (Hob & Hhb & Hmb & Hsb & Hub).
  unfold datetime.cmp, datetime.to_us. symmetry.
  destruct (Z.compare_spec (datetime.ordinal a) (datetime.ordinal b));
    [destruct (Z.compare_spec (datetime.hour a) (datetime.hour b));
     [destruct (Z.compare_spec (datetime.minute a) (datetime.minute b));
      [destruct (Z.compare_spec (datetime.second a) (datetime.second b));
       [destruct (Z.compare_spec (datetime.microsecond a)
                                 (datetime.microsecond b)) | |] | |] | |]
    | |];
    first [apply Z.compare_eq_iff | apply Z.compare_lt_iff
          | apply Z.compare_gt_iff]; lia.
Qed.

Lemma datetime_le_to_us a b :
  datetime.wf a → datetime.wf b →
  datetime.le a b = true ↔ datetime.to_us a <= datetime.to_us b.
Proof.
  intros Ha Hb. unfold datetime.le. rewrite datetime_cmp_to_us by done.
  destruct (Z.compare_spec (datetime.to_us a) (datetime.to_us b));
    split; intros; try done; lia.
Qed.

Lemma datetime_gt_to_us a b :
  datetime.wf a → datetime.wf b →
  datetime.gt a b = true ↔ datetime.to_us b < datetime.to_us a.
Proof.
  intros Ha Hb. unfold datetime.gt. rewrite datetime_cmp_to_us by done.
  destruct (Z.compare_spec (datetime.to_us a) (datetime.to_us b));
    split; intros; try done; lia.
Qed.

(** Adding one day to a valid timestamp moves the date and nothing else;
    it overflows on the last day that a [datetime] can hold. *)
Lemma datetime_add_one_day a :
  datetime.wf a →
  datetime.add a (timedelta.of_days 1) =
    if bool_decide (datetime.ordinal a < datetime.MAXORDINAL) then
      Some {| datetime.ordinal := datetime.ordinal a + 1;
              datetime.hour := datetime.hour a;
              datetime.minute := datetime.minute a;
              datetime.second := datetime.second a;
              datetime.microsecond := datetime.microsecond a |}
    else None.
Proof.
  intros (Ho & Hh & Hm & Hs & Hu).
  unfold datetime.add, timedelta.add, timedelta.of_days.
  set (secs := datetime.hour a * 3600 + datetime.minute a * 60
               + datetime.second a).
  assert (Hsecs : 0 <= secs < 86400) by (unfold secs; lia).
  assert (Hus : datetime.microsecond a / 1000000 = 0)
    by (apply Z.div_small; lia).
  assert (Hum : datetime.microsecond a mod 1000000 = datetime.microsecond a)
    by (apply Z.mod_small; lia).
  assert (H1 : timedelta.make (datetime.ordinal a) secs
                 (datetime.microsecond a)
               = timedelta.mk (datetime.ordinal a) secs
                   (datetime.microsecond a)).
  { unfold timedelta.make. rewrite Hus, Hum, Z.add_0_r.
    rewrite (Z.div_small secs), (Z.mod_small secs) by lia.
    f_equal; lia. }
  rewrite H1.
  assert (H2 : timedelta.make 1 0 0 = timedelta.mk 1 0 0) by reflexivity.
  rewrite H2. cbn [timedelta.days timedelta.seconds timedelta.microseconds].
  assert (H3 : timedelta.make (datetime.ordinal a + 1) (secs + 0)
                 (datetime.microsecond a + 0)
               = timedelta.mk (datetime.ordinal a + 1) secs
                   (datetime.microsecond a)).
  { unfold timedelta.make. rewrite !Z.add_0_r, Hus, Hum, Z.add_0_r.
    rewrite (Z.div_small secs), (Z.mod_small secs) by lia.
    f_equal; lia. }
  rewrite H3. cbn [timedelta.days timedelta.seconds timedelta.microseconds].
  assert (Hhour : secs / 3600 = datetime.hour a).
  { unfold secs. symmetry.
    apply (Z.div_unique _ _ _ (datetime.minute a * 60 + datetime.second a));
      lia. }
  assert (Hrem : secs mod 3600
                 = datetime.minute a * 60 + datetime.second a).
  { unfold secs. symmetry.
    apply (Z.mod_unique _ _ (datetime.hour a)); lia. }
  rewrite Hhour, Hrem.
  assert (Hmin : (datetime.minute a * 60 + datetime.second a) / 60
                 = datetime.minute a).
  { symmetry. apply (Z.div_unique _ _ _ (datetime.second a)); lia. }
  assert (Hsec : (datetime.minute a * 60 + datetime.second a) mod 60
                 = datetime.second a).
  { symmetry. apply (Z.mod_unique _ _ (datetime.minute a)); lia. }
  rewrite Hmin, Hsec.
  unfold datetime.MAXORDINAL in *.
  repeat case_bool_decide; try reflexivity; lia.
Qed.
End Time.

(** * The notification state machine *)

(** Unfolds the monadic plumbing of a method call. *)
Ltac run_m :=
  unfold mbind, mret, M_bind, M_ret, bind, ret, raise, now; cbn beta iota.

Section StateMachine.
Context (clock : Clock).

Import UserAlertState.

(** The throttle of lines 86-93, case by case. *)
Lemma reminder_due_read self alert n :
  status self = READ →
  reminder_due clock self alert n = (Ok (false, self), n).
Proof.
  intros H. unfold reminder_due. by rewrite bool_decide_eq_true_2.
Qed.

Lemma reminder_due_first self alert n :
  status self ≠ READ → last_reminder_sent self = None →
  reminder_due clock self alert n = (Ok (true, self), n).
Proof.
  intros H1 H2. unfold reminder_due.
  rewrite bool_decide_eq_false_2 by done. by rewrite H2.
Qed.

Lemma reminder_due_throttled self alert n last :
  status self ≠ READ → last_reminder_sent self = Some last →
  reminder_due clock self alert n =
    (Ok (timedelta.ge (datetime.sub (clock n) last)
           (Alert.reminder_frequency alert), self), S n).
Proof.
  intros H1 H2. unfold reminder_due.
  rewrite bool_decide_eq_false_2 by done. by rewrite H2.
Qed.

Lemma should_receive_reminder_not_snoozed self alert n :
  status self ≠ SNOOZED →
  should_receive_reminder clock self alert n = reminder_due clock self alert n.
Proof.
  intros H. unfold should_receive_reminder.
  by rewrite bool_decide_eq_false_2.
Qed.

(** The check never raises and never changes the ids or the time of the
    last reminder. *)
Lemma should_receive_reminder_total self alert n :
  ∃ due self' n',
    should_receive_reminder clock self alert n = (Ok (due, self'), n') ∧
    (n ≤ n')%nat ∧
    user_id self' = user_id self ∧ alert_id self' = alert_id self ∧
    last_reminder_sent self' = last_reminder_sent self ∧
    (self' = self ∨ self' = expire_snooze self).
Proof.
  assert (Hdue : ∀ s m, ∃ due m',
    reminder_due clock s alert m = (Ok (due, s), m') ∧ (m ≤ m')%nat).
  { intros s m. unfold reminder_due. case_bool_decide.
    - exists false, m. done.
    - destruct (last_reminder_sent s).
      + eexists _, (S m). run_m. split; [done | lia].
      + exists true, m. done. }
  unfold should_receive_reminder. case_bool_decide.
  - destruct (snoozed_until self) as [until|].
    + run_m. destruct (datetime.gt (clock n) until).
      * destruct (Hdue (expire_snooze self) (S n)) as (due & m' & -> & Hle).
        exists due, (expire_snooze self), m'.
        repeat split; auto; lia.
      * exists false, self, (S n). repeat split; auto.
    + exists false, self, n. repeat split; auto.
  - destruct (Hdue self n) as (due & m' & -> & Hle).
    exists due, self, m'. repeat split; auto.
Qed.

(** What [snooze_until_tomorrow] stores on a valid clock reading: the
    next day at 00:00:00 with the microsecond of the reading. *)
Lemma snooze_until_tomorrow_result self n :
  datetime.wf (clock n) →
  (datetime.ordinal (clock n) < datetime.MAXORDINAL)%Z →
  snooze_until_tomorrow clock self n =
    (Ok {| user_id := user_id self; alert_id := alert_id self;
           status := SNOOZED;
           last_reminder_sent := last_reminder_sent self;
           snoozed_until :=
             Some {| datetime.ordinal := datetime.ordinal (clock n) + 1;
                     datetime.hour := 0; datetime.minute := 0;
                     datetime.second := 0;
                     datetime.microsecond :=
                       datetime.microsecond (clock n) |};
           read_at := read_at self |}, S n).
Proof.
  intros Hwf Hlt. unfold snooze_until_tomorrow. run_m.
  rewrite datetime_add_one_day by done.
  by rewrite bool_decide_eq_true_2.
Qed.

(** On the last day of the calendar the action raises and stores
    nothing. *)
Lemma snooze_until_tomorrow_overflow self n :
  datetime.wf (clock n) →
  datetime.ordinal (clock n) = datetime.MAXORDINAL →
  snooze_until_tomorrow clock self n = (Raise OverflowError, S n).
Proof.
  intros Hwf Heq. unfold snooze_until_tomorrow. run_m.
  rewrite datetime_add_one_day by done.
  rewrite bool_decide_eq_false_2 by lia. done.
Qed.

(** Each method keeps [snoozed_has_until]. *)
Lemma mark_read_snoozed_has_until self n self' n' :
  mark_read clock self n = (Ok self', n') → snoozed_has_until self'.
Proof.
  unfold mark_read. run_m. intros [= <- <-]. by intros ?.
Qed.

Lemma snooze_snoozed_has_until self n self' n' :
  snooze_until_tomorrow clock self n = (Ok self', n') →
  snoozed_has_until self'.
Proof.
  unfold snooze_until_tomorrow. run_m.
  destruct (datetime.add _ _); [|done].
  intros [= <- <-]. intros _. by eexists.
Qed.

Lemma check_snoozed_has_until self alert n due self' n' :
  snoozed_has_until self →
  should_receive_reminder clock self alert n = (Ok (due, self'), n') →
  snoozed_has_until self'.
Proof.
  intros Hinv Hrun.
  destruct (should_receive_reminder_total self alert n)
    as (d & s & m & Heq & _ & _ & _ & _ & [-> | ->]);
    rewrite Heq in Hrun; injection Hrun as <- <- <-; [done|].
  by intros ?.
Qed.

Lemma set_last_reminder_sent_snoozed_has_until self t :
  snoozed_has_until self →
  snoozed_has_until (set_last_reminder_sent self t).
Proof. done. Qed.
End StateMachine.

Section StateMachineClaims.
Import UserAlertState.

(** C3 (lazy snooze expiry).  On a snoozed state with a deadline, a check
    whose clock reading is past the deadline first makes the state unread
    and clears the deadline, and then decides eligibility on that state in
    the same call: the state left behind is the expired one and the answer
    is that of the throttle, so a state never reminded before is eligible
    at once.  A check whose reading is not past the deadline answers
    "not eligible" and leaves the state as it was, still snoozed. *)
Theorem lazy_snooze_expiry (clock : Clock) (self : t) (alert : Alert.t)
    (n : nat) (until : datetime.t) :
  status self = SNOOZED → snoozed_until self = Some until →
  (datetime.gt (clock n) until = true →
     status (expire_snooze self) = UNREAD ∧
     snoozed_until (expire_snooze self) = None ∧
     should_receive_reminder clock self alert n =
       reminder_due clock (expire_snooze self) alert (S n) ∧
     ∃ n',
       should_receive_reminder clock self alert n =
         (Ok (match last_reminder_sent self with
              | None => true
              | Some last =>
                timedelta.ge (datetime.sub (clock (S n)) last)
                  (Alert.reminder_frequency alert)
              end, expire_snooze self), n')) ∧
  (datetime.gt (clock n) until = false →
     should_receive_reminder clock self alert n = (Ok (false, self), S n) ∧
     status self = SNOOZED).
Proof.
  intros Hst Hun. split; intros Hgt.
  - assert (Heq : should_receive_reminder clock self alert n =
                  reminder_due clock (expire_snooze self) alert (S n)).
    { unfold should_receive_reminder.
      rewrite bool_decide_eq_true_2, Hun by done. run_m. by rewrite Hgt. }
    repeat split; try done.
    rewrite Heq.
    destruct (last_reminder_sent self) as [last|] eqn:Hlast.
    + exists (S (S n)). by apply reminder_due_throttled.
    + exists (S n). by apply reminder_due_first.
  - split; [|done]. unfold should_receive_reminder.
    rewrite bool_decide_eq_true_2, Hun by done. run_m. by rewrite Hgt.
Qed.

Lemma lazy_snooze_expiry_witness :
  status Sample.snoozed_expired = SNOOZED ∧
  snoozed_until Sample.snoozed_expired = Some (datetime.midnight 738886) ∧
  datetime.gt (Sample.clock 0) (datetime.midnight 738886) = true ∧
  should_receive_reminder Sample.clock Sample.snoozed_expired
    Sample.in_app_alert 0 =
    reminder_due Sample.clock (expire_snooze Sample.snoozed_expired)
      Sample.in_app_alert 1.
Proof.
  split; [reflexivity | split; [reflexivity | split; [reflexivity |]]].
  exact (proj1 (proj2 (proj2
    (proj1 (lazy_snooze_expiry Sample.clock Sample.snoozed_expired
              Sample.in_app_alert 0 (datetime.midnight 738886)
              eq_refl eq_refl) eq_refl)))).
Defined.

(** C4, as stated, fails when the reminder frequency is zero: the state
    that a delivery has just stamped is eligible again at the very next
    reading of the clock. *)
Lemma throttle_open_at_zero_frequency :
  let w := snd (ReminderScheduler.remind Sample.clock Sample.eager_alert
                  "user1" (Sample.world [Sample.eager_alert])) in
  let stamped := set_last_reminder_sent Sample.unread (Sample.clock 0) in
  World.deliveries w = [("1", "user1", true)] ∧
  UserAlertStateManager.lookup (World.state_manager w) "user1" "1" =
    Some stamped ∧
  should_receive_reminder Sample.clock stamped Sample.eager_alert
    (World.ticks w) = (Ok (true, stamped), S (World.ticks w)).
Proof. vm_compute. done. Qed.

(** C4 (throttling gate, amended).  On a state that is neither snoozed
    nor read the check answers "eligible" when no reminder was sent yet,
    and otherwise answers whether [now - last_reminder_sent >=
    reminder_frequency], which for a normalised frequency compares the
    elapsed time with it.  When the frequency is positive the answer is
    "not eligible" from the instant a delivery stamps the state until the
    frequency has elapsed. *)
Theorem throttling_gate (clock : Clock) (self : t) (alert : Alert.t)
    (n : nat) :
  status self ≠ SNOOZED → status self ≠ READ →
  (last_reminder_sent self = None →
     should_receive_reminder clock self alert n = (Ok (true, self), n)) ∧
  (∀ last, last_reminder_sent self = Some last →
     should_receive_reminder clock self alert n =
       (Ok (timedelta.ge (datetime.sub (clock n) last)
              (Alert.reminder_frequency alert), self), S n) ∧
     (timedelta.wf (Alert.reminder_frequency alert) →
      timedelta.ge (datetime.sub (clock n) last)
        (Alert.reminder_frequency alert) = true ↔
      (timedelta.to_us (Alert.reminder_frequency alert) <=
       datetime.to_us (clock n) - datetime.to_us last)%Z)) ∧
  (∀ sent,
     timedelta.wf (Alert.reminder_frequency alert) →
     (0 <= datetime.to_us (clock n) - datetime.to_us sent <
      timedelta.to_us (Alert.reminder_frequency alert))%Z →
     should_receive_reminder clock (set_last_reminder_sent self sent)
       alert n = (Ok (false, set_last_reminder_sent self sent), S n)).
Proof.
  intros Hsn Hrd. split; [|split].
  - intros Hnone. rewrite should_receive_reminder_not_snoozed by done.
    by apply reminder_due_first.
  - intros last Hlast. split.
    + rewrite should_receive_reminder_not_snoozed by done.
      by apply reminder_due_throttled.
    + intros Hwf.
      rewrite timedelta_ge_to_us by (done || apply datetime_sub_wf).
      by rewrite datetime_to_us_sub.
  - intros sent Hwf Hel.
    rewrite should_receive_reminder_not_snoozed by done.
    rewrite (reminder_due_throttled clock _ alert n sent) by done.
    destruct (timedelta.ge _ _) eqn:Hge; [|done].
    apply timedelta_ge_to_us in Hge; [|apply datetime_sub_wf|done].
    rewrite datetime_to_us_sub in Hge. lia.
Qed.

Lemma throttling_gate_witness :
  status Sample.unread ≠ SNOOZED ∧ status Sample.unread ≠ READ ∧
  last_reminder_sent Sample.unread = None ∧
  should_receive_reminder Sample.clock Sample.unread Sample.in_app_alert 0 =
    (Ok (true, Sample.unread), 0).
Proof.
  assert (H1 : status Sample.unread ≠ SNOOZED) by (intros [=]).
  assert (H2 : status Sample.unread ≠ READ) by (intros [=]).
  split; [exact H1 | split; [exact H2 | split; [reflexivity |]]].
  exact (proj1 (throttling_gate Sample.clock Sample.unread
                  Sample.in_app_alert 0 H1 H2) eq_refl).
Defined.

(** C9, as stated, fails: the check on a state that is snoozed without a
    deadline returns normally, answering "not eligible"; nothing is
    raised. *)
Lemma snoozed_without_until_is_tolerated :
  should_receive_reminder Sample.clock Sample.snoozed_without_until
    Sample.in_app_alert 0 = (Ok (false, Sample.snoozed_without_until), 0) ∧
  ¬ ∃ e n',
      should_receive_reminder Sample.clock Sample.snoozed_without_until
        Sample.in_app_alert 0 = (Raise e, n').
Proof. split; [done|]. by intros (e & n' & ?). Qed.

(** C9 (amended).  A state that is snoozed with no deadline set is
    tolerated by the check: it answers "not eligible" without reading the
    clock, raises nothing and leaves the state as it is. *)
Theorem snoozed_without_until_not_eligible (clock : Clock) (self : t)
    (alert : Alert.t) (n : nat) :
  status self = SNOOZED → snoozed_until self = None →
  should_receive_reminder clock self alert n = (Ok (false, self), n).
Proof.
  intros Hst Hun. unfold should_receive_reminder.
  by rewrite bool_decide_eq_true_2, Hun.
Qed.

Lemma snoozed_without_until_not_eligible_witness :
  status Sample.snoozed_without_until = SNOOZED ∧
  snoozed_until Sample.snoozed_without_until = None ∧
  should_receive_reminder Sample.days Sample.snoozed_without_until
    Sample.sms_alert 7 = (Ok (false, Sample.snoozed_without_until), 7).
Proof.
  split; [reflexivity | split; [reflexivity |]].
  exact (snoozed_without_until_not_eligible Sample.days
           Sample.snoozed_without_until Sample.sms_alert 7
           eq_refl eq_refl).
Defined.

(** C7 (the code misses the claim).  Snoozing at 2024-01-01
    10:30:00.123456 stores 2024-01-02 00:00:00.123456: the microsecond of
    the clock reading survives [replace(hour=0, minute=0, second=0)], so
    the deadline is not the start of the next day. *)
Theorem snooze_keeps_microsecond :
  Sample.clock 0 = Sample.T0 ∧
  snooze_until_tomorrow Sample.clock Sample.unread 0 =
    (Ok {| user_id := "user1"; alert_id := "1"; status := SNOOZED;
           last_reminder_sent := None;
           snoozed_until := Some (datetime.mk 738887 0 0 0 123456);
           read_at := None |}, 1) ∧
  datetime.mk 738887 0 0 0 123456 ≠ datetime.midnight 738887.
Proof. repeat split. by intros [=]. Qed.
End StateMachineClaims.

Section Histories.
Context (clock : Clock).

Import UserAlertState History.

(** On a read state, marking read again and checking keep the state read,
    and every check answers "not eligible". *)
Lemma run_read_without_snooze actions : ∀ self n,
  status self = READ →
  Forall (λ a, a ≠ Snooze) actions →
  ∃ outs self' n',
    run clock actions self n = (Ok (outs, self'), n') ∧
    status self' = READ ∧ Forall (λ due, due = false) outs.
Proof.
  induction actions as [|a rest IH]; intros self n Hread Hno.
  - exists [], self, n. done.
  - apply Forall_cons in Hno as [Ha Hrest].
    destruct a as [| |alert]; [|done|].
    + destruct (IH (mk (user_id self) (alert_id self) READ
                      (last_reminder_sent self) (snoozed_until self)
                      (Some (clock n))) (S n) eq_refl Hrest)
        as (outs & self' & n' & Hrun & Hst & Hall).
      exists outs, self', n'. split; [|done].
      cbn [run step]. unfold mark_read. run_m.
      unfold mbind, M_bind, bind in Hrun. by rewrite Hrun.
    + destruct (IH self n Hread Hrest)
        as (outs & self' & n' & Hrun & Hst & Hall).
      exists (false :: outs), self', n'. split; [|split; [done|]].
      * cbn [run step]. run_m.
        rewrite should_receive_reminder_not_snoozed by congruence.
        rewrite reminder_due_read by done.
        unfold mbind, M_bind, bind in Hrun. by rewrite Hrun.
      * by constructor.
Qed.

(** Every history keeps the half of the invariant that holds:
    a snoozed state has its deadline. *)
Lemma run_snoozed_has_until actions : ∀ self n outs self' n',
  snoozed_has_until self →
  run clock actions self n = (Ok (outs, self'), n') →
  snoozed_has_until self'.
Proof.
  induction actions as [|a rest IH]; intros self n outs self' n' Hinv.
  - by intros [= _ <- _].
  - cbn [run]. run_m.
    destruct (step clock a self n) as [[[out s1]|e] n1] eqn:Hstep; [|done].
    destruct (run clock rest s1 n1) as [[[outs1 s2]|e] n2] eqn:Hrun; [|done].
    intros [= _ <- _]. refine (IH _ _ _ _ _ _ Hrun).
    destruct a as [| |alert]; cbn [step] in Hstep; revert Hstep; run_m.
    + destruct (mark_read clock self n) as [[s|e] m] eqn:Hm; [|done].
      intros [= _ <- _]. by eapply mark_read_snoozed_has_until.
    + destruct (snooze_until_tomorrow clock self n) as [[s|e] m] eqn:Hm;
        [|done].
      intros [= _ <- _]. by eapply snooze_snoozed_has_until.
    + destruct (should_receive_reminder clock self alert n)
        as [[[due s]|e] m] eqn:Hm; [|done].
      intros [= _ <- _]. by eapply check_snoozed_has_until.
Qed.
End Histories.

Section HistoryClaims.
Import UserAlertState History.

(** C1, as stated, fails: a snooze after mark-read moves the status from
    read to snoozed, and once that snooze has expired the check answers
    "eligible" again. *)
Lemma read_reopened_by_snooze :
  (∃ self n,
     run Sample.days [MarkRead; Snooze] Sample.unread 0 = (Ok ([], self), n) ∧
     status self = SNOOZED) ∧
  (∃ self n,
     run Sample.days [MarkRead; Snooze; Check Sample.in_app_alert]
       Sample.unread 0 = (Ok ([true], self), n) ∧
     status self = UNREAD).
Proof. split; eexists _, _; (split; [vm_compute; reflexivity | done]). Qed.

(** C1 (amended).  After mark-read, for as long as snooze is not called
    on the pair, further mark-read calls leave the status read and every
    check answers "not eligible".  A snooze on the read state does take
    effect: it sets the status to snoozed. *)
Theorem read_sticky_until_snoozed (clock : Clock) (actions : list Action)
    (self : t) (n : nat) :
  Forall (λ a, a ≠ Snooze) actions →
  ∃ outs self' n',
    run clock (MarkRead :: actions) self n = (Ok (outs, self'), n') ∧
    status self' = READ ∧
    Forall (λ due, due = false) outs ∧
    (∀ tomorrow,
       datetime.add (clock n') (timedelta.of_days 1) = Some tomorrow →
       ∃ snoozed,
         snooze_until_tomorrow clock self' n' = (Ok snoozed, S n') ∧
         status snoozed = SNOOZED).
Proof.
  intros Hno.
  destruct (run_read_without_snooze clock actions
              (mk (user_id self) (alert_id self) READ
                  (last_reminder_sent self) (snoozed_until self)
                  (Some (clock n))) (S n) eq_refl Hno)
    as (outs & self' & n' & Hrun & Hst & Hall).
  exists outs, self', n'. repeat split; try done.
  - cbn [run step]. unfold mark_read. run_m.
    unfold mbind, M_bind, bind in Hrun. by rewrite Hrun.
  - intros tomorrow Hadd. unfold snooze_until_tomorrow. run_m.
    rewrite Hadd. by eexists.
Qed.

Lemma read_sticky_until_snoozed_witness :
  Forall (λ a, a ≠ Snooze)
    [Check Sample.in_app_alert; MarkRead; Check Sample.eager_alert] ∧
  ∃ outs self' n',
    run Sample.days
      (MarkRead ::
       [Check Sample.in_app_alert; MarkRead; Check Sample.eager_alert])
      Sample.unread 0 = (Ok (outs, self'), n') ∧
    status self' = READ ∧
    Forall (λ due, due = false) outs ∧
    (∀ tomorrow,
       datetime.add (Sample.days n') (timedelta.of_days 1) = Some tomorrow →
       ∃ snoozed,
         snooze_until_tomorrow Sample.days self' n' = (Ok snoozed, S n') ∧
         status snoozed = SNOOZED).
Proof.
  assert (H : Forall (λ a, a ≠ Snooze)
    [Check Sample.in_app_alert; MarkRead; Check Sample.eager_alert])
    by (repeat constructor; intros [=]).
  split; [exact H |].
  exact (read_sticky_until_snoozed Sample.days _ Sample.unread 0 H).
Defined.

(** C2 (the code misses the claim).  A recipient who snoozes alert "1"
    and then marks it read is left with a state whose status is read
    while snoozed-until is still set: [mark_read] does not clear the
    deadline, as the expiry inside the check does. *)
Theorem mark_read_keeps_snoozed_until :
  let w := Sample.world [Sample.in_app_alert] in
  let w1 := snd (AlertingSystem.snooze_alert Sample.clock "user1" "1" w) in
  let w2 := snd (AlertingSystem.mark_alert_read Sample.clock "user1" "1" w1)
  in
  ∃ self,
    UserAlertStateManager.lookup (World.state_manager w2) "user1" "1" =
      Some self ∧
    status self = READ ∧
    snoozed_until self = Some (datetime.mk 738887 0 0 0 123456) ∧
    ¬ (is_Some (snoozed_until self) ↔ status self = SNOOZED).
Proof.
  eexists. split; [vm_compute; reflexivity |].
  split; [done | split; [done |]].
  intros [H _]. by specialize (H (mk_is_Some _ _ eq_refl)).
Qed.
End HistoryClaims.

(** * Audience resolution *)

Section Audience.
Import VisibilityConfig.

(** The loop of [TeamVisibility.get_target_users] adds to what it has
    the members of each team it finds. *)
Lemma foldl_add_team (directory : UserRepository.t) (team_ids : list string) :
  ∀ target_users : gset string,
    foldl (add_team directory) target_users team_ids =
    target_users ∪ ⋃ (spec_team_members directory <$> team_ids).
Proof.
  induction team_ids as [|team_id rest IH]; intros target_users.
  - cbn. set_solver.
  - cbn [foldl fmap list_fmap union_list]. rewrite IH.
    unfold add_team, spec_team_members, UserRepository.get_team.
    destruct (UserRepository.teams directory !! team_id); set_solver.
Qed.

(** C8 (team audience).  The audience of a team rule is the union, over
    the team ids it names, of the member set that the directory holds for
    the id, an unknown id adding nothing; resolution is a total function,
    so a missing team raises nothing.  Member by member: a recipient is
    in the audience exactly when a named team that the directory knows
    has it as a member. *)
Theorem team_audience (directory : UserRepository.t)
    (team_ids : gset string) :
  get_target_users (TeamVisibility team_ids) directory =
    spec_team_audience directory team_ids ∧
  (∀ team_id,
     UserRepository.get_team directory team_id = None →
     spec_team_members directory team_id = ∅) ∧
  (∀ user_id,
     user_id ∈ get_target_users (TeamVisibility team_ids) directory ↔
     ∃ team_id team,
       team_id ∈ team_ids ∧
       UserRepository.get_team directory team_id = Some team ∧
       user_id ∈ Team.member_ids team).
Proof.
  assert (Heq : get_target_users (TeamVisibility team_ids) directory =
                spec_team_audience directory team_ids).
  { cbn [get_target_users]. rewrite foldl_add_team.
    unfold spec_team_audience. set_solver. }
  split; [done | split].
  - intros team_id Hnone. unfold spec_team_members.
    unfold UserRepository.get_team in Hnone. by rewrite Hnone.
  - intros user_id. rewrite Heq. unfold spec_team_audience.
    rewrite elem_of_union_list. split.
    + intros (members & Hin & Hu).
      apply list_elem_of_fmap in Hin as (team_id & -> & Hid).
      apply elem_of_elements in Hid.
      unfold spec_team_members in Hu.
      destruct (UserRepository.teams directory !! team_id) as [team|] eqn:Ht;
        [|set_solver].
      by exists team_id, team.
    + intros (team_id & team & Hid & Hteam & Hu).
      exists (Team.member_ids team). split; [|done].
      apply list_elem_of_fmap. exists team_id. split.
      * unfold spec_team_members.
        unfold UserRepository.get_team in Hteam. by rewrite Hteam.
      * by apply elem_of_elements.
Qed.
End Audience.

(** * The store of notification states *)

Section Store.
Import UserAlertStateManager.

Implicit Types (m : gmap string (gmap string UserAlertState.t)).

Lemma lookup_store_eq m user_id alert_id state :
  lookup (store user_id alert_id state m) user_id alert_id = Some state.
Proof.
  unfold lookup, store. rewrite lookup_insert_eq. cbn.
  by rewrite lookup_insert_eq.
Qed.

Lemma lookup_store_ne m user_id alert_id state user_id' alert_id' :
  (user_id, alert_id) ≠ (user_id', alert_id') →
  lookup (store user_id alert_id state m) user_id' alert_id' =
  lookup m user_id' alert_id'.
Proof.
  intros Hne. unfold lookup, store.
  destruct (decide (user_id = user_id')) as [<-|Hu].
  - rewrite lookup_insert_eq. cbn.
    rewrite lookup_insert_ne by congruence.
    by destruct (m !! user_id).
  - by rewrite lookup_insert_ne.
Qed.

(** Creating the inner dictionary of a new user shows no state. *)
Lemma lookup_insert_empty m user_id user_id' alert_id' :
  m !! user_id = None →
  lookup (<[user_id := ∅]> m) user_id' alert_id' = lookup m user_id' alert_id'.
Proof.
  intros Hnone. unfold lookup.
  destruct (decide (user_id = user_id')) as [<-|Hu].
  - by rewrite lookup_insert_eq, Hnone.
  - by rewrite lookup_insert_ne.
Qed.

Lemma lookup_with_user m user_id user_id' alert_id' :
  lookup (with_user user_id m) user_id' alert_id' = lookup m user_id' alert_id'.
Proof.
  unfold with_user. destruct (m !! user_id) eqn:Hu; [done|].
  by apply lookup_insert_empty.
Qed.

Lemma get_state_existing m user_id alert_id state :
  lookup m user_id alert_id = Some state →
  get_state user_id alert_id m = (Ok state, m).
Proof.
  intros Hl. unfold get_state. cbv zeta.
  assert (Hu : with_user user_id m = m).
  { unfold with_user. unfold lookup in Hl.
    by destruct (m !! user_id). }
  rewrite Hu, Hl. cbn beta iota. by rewrite Hl.
Qed.

Lemma get_state_new m user_id alert_id :
  lookup m user_id alert_id = None →
  get_state user_id alert_id m =
    (Ok (UserAlertState.fresh user_id alert_id),
     store user_id alert_id (UserAlertState.fresh user_id alert_id)
       (with_user user_id m)).
Proof.
  intros Hl. unfold get_state. cbv zeta.
  rewrite lookup_with_user, Hl. by rewrite lookup_store_eq.
Qed.

(** [get_state] always returns a state, the one then found in the store,
    and touches no other pair. *)
Lemma get_state_total m user_id alert_id :
  ∃ state m',
    get_state user_id alert_id m = (Ok state, m') ∧
    lookup m' user_id alert_id = Some state ∧
    (∀ user_id' alert_id',
       (user_id, alert_id) ≠ (user_id', alert_id') →
       lookup m' user_id' alert_id' = lookup m user_id' alert_id').
Proof.
  destruct (lookup m user_id alert_id) as [state|] eqn:Hl.
  - exists state, m. rewrite (get_state_existing _ _ _ _ Hl).
    split; [done | split; [done | by intros]].
  - eexists _, _. rewrite (get_state_new _ _ _ Hl).
    split; [done | split; [apply lookup_store_eq |]].
    intros u' a' Hne. by rewrite lookup_store_ne, lookup_with_user.
Qed.

Lemma update_state_result m state :
  update_state state m =
    (Ok tt,
     store (UserAlertState.user_id state) (UserAlertState.alert_id state)
       state (with_user (UserAlertState.user_id state) m)).
Proof. reflexivity. Qed.

(** Storing a state twice at one place keeps the later one. *)
Lemma store_store m user_id alert_id state1 state2 :
  store user_id alert_id state2 (store user_id alert_id state1 m) =
  store user_id alert_id state2 m.
Proof.
  unfold store. rewrite lookup_insert_eq. cbn.
  by rewrite insert_insert_eq, insert_insert_eq.
Qed.

Lemma with_user_store m user_id alert_id state :
  with_user user_id (store user_id alert_id state m) =
  store user_id alert_id state m.
Proof. unfold with_user, store. by rewrite lookup_insert_eq. Qed.

(** Well-formed stores stay well-formed. *)
Lemma store_wf_empty : store_wf init.
Proof. intros u a s. unfold lookup, init. by rewrite lookup_empty. Qed.

Lemma store_wf_with_user m user_id :
  store_wf m → store_wf (with_user user_id m).
Proof. intros Hwf u a s. rewrite lookup_with_user. apply Hwf. Qed.

Lemma store_wf_store m user_id alert_id state :
  UserAlertState.user_id state = user_id →
  UserAlertState.alert_id state = alert_id →
  store_wf m → store_wf (store user_id alert_id state m).
Proof.
  intros Hu Ha Hwf u a s.
  destruct (decide ((user_id, alert_id) = (u, a))) as [[= <- <-]|Hne].
  - rewrite lookup_store_eq. by intros [= <-].
  - rewrite lookup_store_ne by done. apply Hwf.
Qed.

Lemma get_state_wf m user_id alert_id state m' :
  store_wf m →
  get_state user_id alert_id m = (Ok state, m') →
  store_wf m' ∧
  UserAlertState.user_id state = user_id ∧
  UserAlertState.alert_id state = alert_id.
Proof.
  intros Hwf.
  destruct (lookup m user_id alert_id) as [s|] eqn:Hl.
  - rewrite (get_state_existing _ _ _ _ Hl). intros [= <- <-].
    split; [done | by apply Hwf].
  - rewrite (get_state_new _ _ _ Hl). intros [= <- <-].
    split; [|done].
    by apply store_wf_store, store_wf_with_user.
Qed.

(** C10 (get-or-create).  The first [get_state] for a pair creates, files
    and returns a state that is unread with last-reminder-sent,
    snoozed-until and read-at unset, and changes the state of no other
    pair: the other states of the same user and the dicts of the other
    users are as before.  A call for a pair that has a state returns that
    state with every field as it is and leaves the whole store as it is,
    so no call resets a state that was changed in between; in particular
    a second call returns what the first returned and changes nothing. *)
Theorem get_state_idempotent m (user_id alert_id : string) :
  (lookup m user_id alert_id = None →
     ∃ m',
       get_state user_id alert_id m =
         (Ok (UserAlertState.mk user_id alert_id UNREAD None None None), m') ∧
       lookup m' user_id alert_id =
         Some (UserAlertState.mk user_id alert_id UNREAD None None None) ∧
       (∀ user_id' alert_id',
          (user_id, alert_id) ≠ (user_id', alert_id') →
          lookup m' user_id' alert_id' = lookup m user_id' alert_id') ∧
       (∀ user_id', user_id' ≠ user_id → m' !! user_id' = m !! user_id')) ∧
  (∀ state,
     lookup m user_id alert_id = Some state →
     get_state user_id alert_id m = (Ok state, m)) ∧
  (∃ state m',
     get_state user_id alert_id m = (Ok state, m') ∧
     get_state user_id alert_id m' = (Ok state, m') ∧
     lookup m' user_id alert_id = Some state ∧
     (∀ user_id' alert_id',
        (user_id, alert_id) ≠ (user_id', alert_id') →
        lookup m' user_id' alert_id' = lookup m user_id' alert_id')).
Proof.
  split; [|split].
  - intros Hl.
    destruct (get_state_total m user_id alert_id)
      as (state & m' & Heq & Hl' & Hframe).
    exists m'. rewrite (get_state_new _ _ _ Hl) in Heq.
    injection Heq as <- <-. rewrite (get_state_new _ _ _ Hl).
    split; [done | split; [done | split; [done |]]].
    intros user_id' Hne. unfold store, with_user.
    destruct (m !! user_id) eqn:Hu; cbn;
      rewrite ?lookup_insert_eq; cbn; by rewrite !lookup_insert_ne.
  - intros state. apply get_state_existing.
  - destruct (get_state_total m user_id alert_id)
      as (state & m' & Heq & Hl & Hframe).
    exists state, m'.
    split; [done | split; [by apply get_state_existing | done]].
Qed.

Lemma get_state_idempotent_witness :
  lookup Scenario.read_store "user1" "2" = None ∧
  ∃ m',
    get_state "user1" "2" Scenario.read_store =
      (Ok (UserAlertState.mk "user1" "2" UNREAD None None None), m') ∧
    lookup m' "user1" "2" =
      Some (UserAlertState.mk "user1" "2" UNREAD None None None) ∧
    lookup m' "user1" "1" = Some Scenario.read_state ∧
    UserAlertState.status Scenario.read_state = READ.
Proof.
  split; [reflexivity |].
  destruct (proj1 (get_state_idempotent Scenario.read_store "user1" "2")
              eq_refl) as (m' & Hrun & Hl & Hframe & _).
  exists m'. split; [exact Hrun | split; [exact Hl | split]].
  - rewrite (Hframe "user1" "1"); [reflexivity | discriminate].
  - reflexivity.
Defined.
End Store.

(** * The reminder sweep *)

Section Remind.
Context (clock : Clock).

Import World UserAlertStateManager.

(** The system after [remind], from the state that [get_state] returns
    and the outcome of the check on it. *)
Lemma remind_run (w : World.t) alert user_id state0 m1 due state1 n1 :
  get_state user_id (Alert.id alert) (state_manager w) = (Ok state0, m1) →
  UserAlertState.should_receive_reminder clock state0 alert (ticks w) =
    (Ok (due, state1), n1) →
  ReminderScheduler.remind clock alert user_id w =
    (Ok tt,
     if due then
       if NotificationDelivery.deliver_result alert user_id then
         let stamped :=
           UserAlertState.set_last_reminder_sent state1 (clock n1) in
         {| alert_manager := alert_manager w;
            state_manager :=
              store (UserAlertState.user_id state1)
                (UserAlertState.alert_id state1) stamped
                (with_user (UserAlertState.user_id state1)
                   (store user_id (Alert.id alert) stamped
                      (store user_id (Alert.id alert) state1 m1)));
            ticks := S n1;
            deliveries :=
              (Alert.id alert, user_id, true) :: deliveries w |}
       else
         {| alert_manager := alert_manager w;
            state_manager := store user_id (Alert.id alert) state1 m1;
            ticks := n1;
            deliveries :=
              (Alert.id alert, user_id, false) :: deliveries w |}
     else
       {| alert_manager := alert_manager w;
          state_manager := store user_id (Alert.id alert) state1 m1;
          ticks := n1;
          deliveries := deliveries w |}).
Proof.
  intros Hget Hcheck. unfold ReminderScheduler.remind. run_m.
  unfold on_states at 1. rewrite Hget.
  unfold on_clock at 1. cbn [ticks with_state_manager]. rewrite Hcheck.
  unfold mutate, on_states, on_clock, NotificationDelivery.deliver.
  cbn -[store with_user].
  destruct due; [|done].
  destruct (NotificationDelivery.deliver_result alert user_id); done.
Qed.
End Remind.

Section Retry.
Context (clock : Clock).

Import World UserAlertStateManager UserAlertState.

(** The tuple order on durations is transitive. *)
Lemma timedelta_ge_trans a b c :
  timedelta.ge a b = true → timedelta.ge b c = true →
  timedelta.ge a c = true.
Proof.
  unfold timedelta.ge, timedelta.cmp.
  destruct (Z.compare_spec (timedelta.days a) (timedelta.days b));
    destruct (Z.compare_spec (timedelta.days b) (timedelta.days c));
    destruct (Z.compare_spec (timedelta.days a) (timedelta.days c));
    destruct (Z.compare_spec (timedelta.seconds a) (timedelta.seconds b));
    destruct (Z.compare_spec (timedelta.seconds b) (timedelta.seconds c));
    destruct (Z.compare_spec (timedelta.seconds a) (timedelta.seconds c));
    destruct (Z.compare_spec (timedelta.microseconds a)
                             (timedelta.microseconds b));
    destruct (Z.compare_spec (timedelta.microseconds b)
                             (timedelta.microseconds c));
    destruct (Z.compare_spec (timedelta.microseconds a)
                             (timedelta.microseconds c));
    intros; try done; lia.
Qed.

(** Time elapsed since a fixed instant grows with the clock. *)
Lemma elapsed_mono last i j :
  clock_ok clock → (i ≤ j)%nat →
  timedelta.ge (datetime.sub (clock j) last) (datetime.sub (clock i) last)
  = true.
Proof.
  intros [Hwf Hmono] Hle.
  apply timedelta_ge_to_us; [apply datetime_sub_wf..|].
  rewrite !datetime_to_us_sub.
  specialize (Hmono i j Hle).
  apply datetime_le_to_us in Hmono; [lia | done..].
Qed.

(** Once the throttle lets a state through, it lets the same state
    through at every later reading. *)
Lemma reminder_due_again self alert k self' k' :
  clock_ok clock →
  reminder_due clock self alert k = (Ok (true, self'), k') →
  self' = self ∧ (k ≤ k')%nat ∧
  ∀ m, (k ≤ m)%nat →
    ∃ m', reminder_due clock self alert m = (Ok (true, self), m').
Proof.
  intros Hok. unfold reminder_due. case_bool_decide; [done|].
  destruct (last_reminder_sent self) as [last|].
  - run_m. intros [= Hge <- <-]. split; [done | split; [lia|]].
    intros m Hle. exists (S m). do 2 f_equal. f_equal.
    eapply timedelta_ge_trans; [|exact Hge]. by apply elapsed_mono.
  - intros [= <- <-]. split; [done | split; [lia|]]. by eexists.
Qed.

Lemma should_receive_reminder_again self alert n self' n' :
  clock_ok clock →
  should_receive_reminder clock self alert n = (Ok (true, self'), n') →
  ∀ m, (n' ≤ m)%nat →
    ∃ m', should_receive_reminder clock self' alert m = (Ok (true, self'), m').
Proof.
  intros Hok. unfold should_receive_reminder at 1. case_bool_decide.
  - destruct (snoozed_until self) as [until|]; [|done]. run_m.
    destruct (datetime.gt (clock n) until); [|done].
    intros Hdue m Hle.
    apply reminder_due_again in Hdue as (-> & Hk & Hagain); [|done].
    rewrite should_receive_reminder_not_snoozed by done.
    apply Hagain. lia.
  - intros Hdue m Hle.
    apply reminder_due_again in Hdue as (-> & Hk & Hagain); [|done].
    rewrite should_receive_reminder_not_snoozed by done.
    apply Hagain. lia.
Qed.

Lemma store_id (m : gmap string (gmap string UserAlertState.t))
    user_id alert_id state :
  lookup m user_id alert_id = Some state →
  store user_id alert_id state m = m.
Proof.
  unfold lookup, store. intros Hl.
  destruct (m !! user_id) as [inner|] eqn:Hu; [|done]. cbn in *.
  rewrite (insert_id inner) by done. by apply insert_id.
Qed.
End Retry.

Section DeliveryClaims.
Import World UserAlertStateManager UserAlertState.

Lemma sample_clock_ok : clock_ok Sample.clock.
Proof.
  split.
  - intros n. unfold datetime.wf, datetime.MAXORDINAL, Sample.clock. cbn. lia.
  - intros i j Hle. unfold datetime.le, datetime.cmp, Sample.clock. cbn.
    destruct (Z.compare_spec (Z.of_nat i `min` 59) (Z.of_nat j `min` 59));
      try done.
    lia.
Qed.

Lemma expired_store_wf : store_wf Scenario.expired_store.
Proof. by apply store_wf_store; [..|apply store_wf_empty]. Qed.

Lemma stale_store_wf : store_wf Scenario.stale_store.
Proof. by apply store_wf_store; [..|apply store_wf_empty]. Qed.

(** C6, as stated, fails in two ways.  A sweep at [Sample.T0] over an
    alert without a channel meets a snooze of "user1" that has expired: the
    delivery fails, and the state stored for the pair is no longer the
    snoozed one but an unread one with snoozed-until cleared.  And when the
    clock is set back between two sweeps, a pair that was eligible in the
    first sweep, whose delivery failed, is not eligible in the second: the
    second sweep records no delivery attempt for it. *)
Lemma failed_delivery_not_always_neutral :
  (let w := Scenario.sms_world Scenario.expired_store in
   let w1 := snd (ReminderScheduler.process_reminders Sample.clock w) in
   lookup (state_manager w) "user1" "1" = Some Sample.snoozed_expired ∧
   deliveries w1 =
     [("1", "user2", false); ("1", "user1", false); ("1", "user3", false)] ∧
   lookup (state_manager w1) "user1" "1" =
     Some (mk "user1" "1" UNREAD None None None) ∧
   status Sample.snoozed_expired = SNOOZED ∧
   is_Some (snoozed_until Sample.snoozed_expired)) ∧
  (let w := Scenario.sms_world Scenario.stale_store in
   let w1 := snd (ReminderScheduler.process_reminders Scenario.set_back w) in
   let w2 := snd (ReminderScheduler.process_reminders Scenario.set_back w1) in
   deliveries w1 =
     [("1", "user2", false); ("1", "user1", false); ("1", "user3", false)] ∧
   lookup (state_manager w1) "user1" "1" = Some Scenario.stale_state ∧
   deliveries w2 =
     [("1", "user2", false); ("1", "user3", false)] ++ deliveries w1).
Proof.
  split; repeat (split; [by vm_compute |]).
  - by eexists.
  - by vm_compute.
Qed.

(** C6 (delivery failure, amended).  Take a recipient of an alert whose
    state the check of a sweep finds eligible.  The check leaves the
    fetched state as it is, unless the state was snoozed: then the snooze
    had expired and the check has made the state unread and cleared
    snoozed-until.  When the delivery fails, the sweep stores nothing
    beyond that: the state filed for the pair is the checked one, with
    last-reminder-sent as before the sweep, and for a state that was not
    snoozed the store is exactly the one that the fetch returned; provided
    the clock does not run backwards, that state is eligible again at
    every later check, so also on the next sweep.  When the delivery
    succeeds, the state filed for the pair is the checked one with
    last-reminder-sent set to the clock reading taken after the delivery
    and every other field as the check left it. *)
Theorem delivery_failure_keeps_state (clock : Clock) (w : World.t)
    (alert : Alert.t) (user_id : string) (state0 state1 : UserAlertState.t)
    (m1 : gmap string (gmap string UserAlertState.t)) (n1 : nat) :
  store_wf (state_manager w) →
  get_state user_id (Alert.id alert) (state_manager w) = (Ok state0, m1) →
  should_receive_reminder clock state0 alert (ticks w) =
    (Ok (true, state1), n1) →
  (state1 = state0 ∧ status state0 ≠ SNOOZED ∨
   status state0 = SNOOZED ∧
   state1 = mk (UserAlertState.user_id state0) (alert_id state0) UNREAD
              (last_reminder_sent state0) None (read_at state0)) ∧
  (NotificationDelivery.deliver_result alert user_id = false →
     ∃ w',
       ReminderScheduler.remind clock alert user_id w = (Ok tt, w') ∧
       deliveries w' = (Alert.id alert, user_id, false) :: deliveries w ∧
       ticks w' = n1 ∧
       lookup (state_manager w') user_id (Alert.id alert) = Some state1 ∧
       state_manager w' = store user_id (Alert.id alert) state1 m1 ∧
       last_reminder_sent state1 = last_reminder_sent state0 ∧
       (status state0 ≠ SNOOZED → state1 = state0 ∧ state_manager w' = m1) ∧
       (clock_ok clock →
        ∀ m, (n1 ≤ m)%nat →
          ∃ m', should_receive_reminder clock state1 alert m =
                  (Ok (true, state1), m'))) ∧
  (NotificationDelivery.deliver_result alert user_id = true →
     ∃ w',
       ReminderScheduler.remind clock alert user_id w = (Ok tt, w') ∧
       deliveries w' = (Alert.id alert, user_id, true) :: deliveries w ∧
       ticks w' = S n1 ∧
       lookup (state_manager w') user_id (Alert.id alert) =
         Some (mk user_id (Alert.id alert) (status state1)
                 (Some (clock n1)) (snoozed_until state1)
                 (read_at state1))).
Proof.
  intros Hwf Hget Hcheck.
  destruct (get_state_wf _ _ _ _ _ Hwf Hget) as (Hwf1 & Hu0 & Ha0).
  destruct (get_state_total (state_manager w) user_id (Alert.id alert))
    as (s & m' & Hget' & Hl1 & _).
  rewrite Hget in Hget'. injection Hget' as <- <-.
  destruct (should_receive_reminder_total clock state0 alert (ticks w))
    as (d & s & n' & Hcheck' & _ & Hu1 & Ha1 & Hlast & Hcase).
  rewrite Hcheck in Hcheck'. injection Hcheck' as <- <- <-.
  assert (Hns : status state0 ≠ SNOOZED → state1 = state0).
  { intros Hne.
    rewrite should_receive_reminder_not_snoozed in Hcheck by done.
    unfold reminder_due in Hcheck. case_bool_decide; [done|].
    destruct (last_reminder_sent state0); revert Hcheck; run_m; congruence. }
  split; [|split; intros Hdel; eexists;
    rewrite (remind_run clock w alert user_id _ _ _ _ _ Hget Hcheck), Hdel;
    (split; [reflexivity |]); cbn [deliveries state_manager ticks]].
  - destruct (decide (status state0 = SNOOZED)) as [Hs|Hne].
    + right. split; [done|].
      unfold should_receive_reminder in Hcheck.
      rewrite bool_decide_eq_true_2 in Hcheck by done.
      destruct (snoozed_until state0) as [until|]; [|done].
      revert Hcheck. run_m.
      destruct (datetime.gt (clock (ticks w)) until); [|done].
      unfold reminder_due. rewrite bool_decide_eq_false_2 by (cbn; congruence).
      cbn [last_reminder_sent expire_snooze].
      assert (Hexp : expire_snooze state0 =
                mk (UserAlertState.user_id state0) (alert_id state0) UNREAD
                  (last_reminder_sent state0) None (read_at state0)) by done.
      rewrite <- Hexp.
      destruct (last_reminder_sent state0); run_m; congruence.
    + left. by split; [apply Hns|].
  - split; [done | split; [done | split; [apply lookup_store_eq |]]].
    split; [done | split; [done | split]].
    + intros Hne. rewrite (Hns Hne). split; [done|]. by apply store_id.
    + intros Hok.
      by apply (should_receive_reminder_again clock state0 alert (ticks w)).
  - split; [done | split; [done|]].
    cbv zeta. unfold set_last_reminder_sent.
    rewrite Hu1, Ha1, Hu0, Ha0. apply lookup_store_eq.
Qed.

Lemma delivery_failure_keeps_state_witness :
  store_wf Scenario.expired_store ∧
  store_wf Scenario.stale_store ∧
  NotificationDelivery.deliver_result Sample.sms_alert "user1" = false ∧
  NotificationDelivery.deliver_result Sample.in_app_alert "user1" = true ∧
  (∃ w',
     ReminderScheduler.remind Sample.clock Sample.sms_alert "user1"
       (Scenario.sms_world Scenario.expired_store) = (Ok tt, w') ∧
     deliveries w' = [("1", "user1", false)] ∧
     ticks w' = 1%nat ∧
     lookup (state_manager w') "user1" "1" =
       Some (mk "user1" "1" UNREAD None None None)) ∧
  (∃ w',
     ReminderScheduler.remind Sample.clock Sample.in_app_alert "user1"
       (Scenario.in_app_world Scenario.stale_store) = (Ok tt, w') ∧
     deliveries w' = [("1", "user1", true)] ∧
     ticks w' = 2%nat ∧
     lookup (state_manager w') "user1" "1" =
       Some (mk "user1" "1" UNREAD (Some (Sample.clock 1)) None None)).
Proof.
  split; [exact expired_store_wf |].
  split; [exact stale_store_wf |].
  split; [reflexivity | split; [reflexivity | split]].
  - destruct (proj1 (proj2 (delivery_failure_keeps_state Sample.clock
                (Scenario.sms_world Scenario.expired_store)
                Sample.sms_alert "user1" Sample.snoozed_expired
                (mk "user1" "1" UNREAD None None None)
                Scenario.expired_store 1
                expired_store_wf eq_refl eq_refl)) eq_refl)
      as (w' & Hrun & Hdel & Ht & Hl & _).
    exists w'.
    split; [exact Hrun | split; [exact Hdel | split; [exact Ht | exact Hl]]].
  - exact (proj2 (proj2 (delivery_failure_keeps_state Sample.clock
             (Scenario.in_app_world Scenario.stale_store)
             Sample.in_app_alert "user1" Scenario.stale_state
             Scenario.stale_state Scenario.stale_store 1
             stale_store_wf eq_refl eq_refl)) eq_refl).
Defined.
End DeliveryClaims.

Section Frame.
Context (clock : Clock).

Import World UserAlertStateManager.

Lemma sweep_frame_refl touched w :
  store_wf (state_manager w) → sweep_frame touched w w.
Proof.
  intros Hwf. split; [done | split; [done | split; [done | split]]].
  - exists []. split; [done|]. intros a u r Hin. by apply elem_of_nil in Hin.
  - done.
Qed.

Lemma sweep_frame_trans touched w1 w2 w3 :
  sweep_frame touched w1 w2 → sweep_frame touched w2 w3 →
  sweep_frame touched w1 w3.
Proof.
  intros (_ & Hm12 & Ht12 & (new1 & Hd12 & Hn1) & Hl12)
         (Hwf & Hm23 & Ht23 & (new2 & Hd23 & Hn2) & Hl23).
  split; [done | split; [congruence | split; [lia | split]]].
  - exists (new2 ++ new1). split.
    + by rewrite Hd23, Hd12, (assoc (++)).
    + intros a u r [Hin|Hin]%elem_of_app; eauto.
  - intros u a Hna. by rewrite Hl23, Hl12.
Qed.

Lemma sweep_frame_weaken (touched touched' : string → Prop) w w' :
  (∀ a, touched a → touched' a) →
  sweep_frame touched w w' → sweep_frame touched' w w'.
Proof.
  intros Himp (Hwf & Hm & Ht & (new & Hd & Hn) & Hl).
  split; [done | split; [done | split; [done | split]]].
  - exists new. split; [done|]. eauto.
  - intros u a Hna. apply Hl. eauto.
Qed.

(** A loop whose body stays within a frame stays within it. *)
Lemma for_each_frame {A : Type} (body : A → M World.t unit)
    (touched : string → Prop) (xs : list A) :
  (∀ x w, x ∈ xs → store_wf (state_manager w) →
     ∃ w', body x w = (Ok tt, w') ∧ sweep_frame touched w w') →
  ∀ w, store_wf (state_manager w) →
    ∃ w', for_each body xs w = (Ok tt, w') ∧ sweep_frame touched w w'.
Proof.
  induction xs as [|x rest IH]; intros Hbody w Hwf.
  - exists w. split; [done | by apply sweep_frame_refl].
  - destruct (Hbody x w) as (w1 & Hrun1 & Hf1); [left | done |].
    destruct (IH (λ y v Hy, Hbody y v (list_elem_of_further _ _ _ Hy))
                w1 (proj1 Hf1)) as (w2 & Hrun2 & Hf2).
    exists w2. split; [|by eapply sweep_frame_trans].
    cbn [for_each]. run_m. by rewrite Hrun1.
Qed.

(** One recipient of one alert: only that alert is touched. *)
Lemma remind_frame alert user_id w :
  store_wf (state_manager w) →
  ∃ w',
    ReminderScheduler.remind clock alert user_id w = (Ok tt, w') ∧
    sweep_frame (λ a, a = Alert.id alert) w w'.
Proof.
  intros Hwf.
  destruct (get_state_total (state_manager w) user_id (Alert.id alert))
    as (state0 & m1 & Hget & Hl1 & Hother).
  destruct (get_state_wf _ _ _ _ _ Hwf Hget) as (Hwf1 & Hu0 & Ha0).
  destruct (should_receive_reminder_total clock state0 alert (ticks w))
    as (due & state1 & n1 & Hcheck & Hn & Hu1 & Ha1 & _).
  eexists. rewrite (remind_run clock w alert user_id _ _ _ _ _ Hget Hcheck).
  split; [reflexivity |].
  assert (Hwf2 : store_wf (store user_id (Alert.id alert) state1 m1)).
  { apply store_wf_store; [congruence.. | done]. }
  assert (Hframe : ∀ s u a,
    a ≠ Alert.id alert →
    lookup (store user_id (Alert.id alert) s m1) u a =
    lookup (state_manager w) u a).
  { intros s u a Hne. rewrite lookup_store_ne by congruence.
    apply Hother. congruence. }
  destruct due; [destruct (NotificationDelivery.deliver_result _ _)|].
  - cbv zeta. rewrite Hu1, Ha1, Hu0, Ha0, store_store, with_user_store, store_store.
    split; [|split; [done | split; [cbn; lia | split]]].
    + cbn. apply store_wf_store; [cbn; congruence.. | done].
    + exists [(Alert.id alert, user_id, true)]. split; [done|].
      by intros a u r [= -> _ _]%list_elem_of_singleton.
    + intros u a Hne. by apply Hframe.
  - split; [done | split; [done | split; [done | split]]].
    + exists [(Alert.id alert, user_id, false)]. split; [done|].
      by intros a u r [= -> _ _]%list_elem_of_singleton.
    + intros u a Hne. by apply Hframe.
  - split; [done | split; [done | split; [done | split]]].
    + exists []. split; [done|].
      intros a u r Hin. by apply elem_of_nil in Hin.
    + intros u a Hne. by apply Hframe.
Qed.

(** One alert: nothing is touched when its reminders are disabled. *)
Lemma remind_audience_frame user_repository alert w :
  store_wf (state_manager w) →
  ∃ w',
    ReminderScheduler.remind_audience clock user_repository alert w =
      (Ok tt, w') ∧
    sweep_frame
      (λ a, Alert.reminders_enabled alert = true ∧ a = Alert.id alert) w w'.
Proof.
  intros Hwf. unfold ReminderScheduler.remind_audience.
  destruct (Alert.reminders_enabled alert) eqn:Hen; cbn [negb].
  - apply for_each_frame; [|done].
    intros u v _ Hv. destruct (remind_frame alert u v Hv) as (v' & Hrun & Hf).
    exists v'. split; [done|].
    eapply sweep_frame_weaken; [|exact Hf]. by intros a ->.
  - exists w. split; [done | by apply sweep_frame_refl].
Qed.

(** The registry filtered by [is_active]: one clock reading per alert, in
    order. *)
Lemma get_active_alerts_run (alerts : list Alert.t) : ∀ n,
  ∃ active,
    filter_m (Alert.is_active clock) alerts n =
      (Ok active, (n + length alerts)%nat) ∧
    ∀ b, b ∈ active →
      ∃ i, alerts !! i = Some b ∧
           Alert.is_active_at b (clock (n + i)%nat) = true.
Proof.
  induction alerts as [|a rest IH]; intros n.
  - exists []. split; [cbn; do 2 f_equal; lia |].
    intros b Hin. by apply elem_of_nil in Hin.
  - destruct (IH (S n)) as (active & Hrun & Hin).
    exists (if Alert.is_active_at a (clock n) then a :: active else active).
    split.
    + cbn [filter_m]. run_m.
      change (Alert.is_active clock a n)
        with (Ok (Alert.is_active_at a (clock n)), S n).
      cbn beta iota. rewrite Hrun. f_equal. cbn [length]. lia.
    + intros b Hb.
      assert (Hcase : (b = a ∧ Alert.is_active_at a (clock n) = true) ∨
                      b ∈ active).
      { destruct (Alert.is_active_at a (clock n)); [|by right].
        apply elem_of_cons in Hb as [->|Hb]; [by left | by right]. }
      destruct Hcase as [[-> Hact]|Hb'].
      * exists 0%nat. split; [done|]. by rewrite Nat.add_0_r.
      * destruct (Hin b Hb') as (i & Hi & Hact).
        exists (S i). split; [done|].
        by replace (n + S i)%nat with (S n + i)%nat by lia.
Qed.

(** The whole sweep touches only alerts that are live at their reading
    of the clock and have reminders enabled. *)
Lemma process_reminders_frame w :
  store_wf (state_manager w) →
  ∃ w',
    ReminderScheduler.process_reminders clock w = (Ok tt, w') ∧
    sweep_frame
      (λ a, ∃ i b,
         AlertManager.alerts (alert_manager w) !! i = Some b ∧
         Alert.is_active_at b (clock (ticks w + i)%nat) = true ∧
         Alert.reminders_enabled b = true ∧
         Alert.id b = a) w w'.
Proof.
  intros Hwf.
  destruct (get_active_alerts_run (AlertManager.alerts (alert_manager w))
              (ticks w)) as (active & Hrun & Hin).
  set (w1 := with_ticks (ticks w + length (AlertManager.alerts
                                             (alert_manager w))) w).
  assert (Hf1 : ∀ P, sweep_frame P w w1).
  { intros P. split; [done | split; [done | split; [cbn; lia | split]]].
    - exists []. split; [done|].
      intros a u r Hi. by apply elem_of_nil in Hi.
    - done. }
  destruct (for_each_frame
              (ReminderScheduler.remind_audience clock
                 (AlertManager.user_repository (alert_manager w)))
              (λ a, ∃ i b,
                 AlertManager.alerts (alert_manager w) !! i = Some b ∧
                 Alert.is_active_at b (clock (ticks w + i)%nat) = true ∧
                 Alert.reminders_enabled b = true ∧
                 Alert.id b = a) active) with (w := w1)
    as (w2 & Hrun2 & Hf2); [|done|].
  - intros b v Hb Hv.
    destruct (remind_audience_frame
                (AlertManager.user_repository (alert_manager w)) b v Hv)
      as (v' & Hrunb & Hfb).
    exists v'. split; [done|].
    eapply sweep_frame_weaken; [|exact Hfb].
    intros a [Hen ->]. destruct (Hin b Hb) as (i & Hi & Hact).
    by exists i, b.
  - exists w2. split; [|by eapply sweep_frame_trans].
    unfold ReminderScheduler.process_reminders. run_m.
    unfold get_alert_manager, on_clock, AlertManager.get_active_alerts.
    by rewrite Hrun.
Qed.
End Frame.

Section SweepClaims.
Import World UserAlertStateManager.

(** [is_active] answers "no" exactly outside the window. *)
Lemma is_active_at_false alert now :
  outside_window alert now ↔ Alert.is_active_at alert now = false.
Proof.
  unfold outside_window, Alert.is_active_at. case_bool_decide as Hst.
  - split; [done | by left].
  - destruct (datetime.lt now (Alert.start_time alert)).
    + split; [done | by right; left].
    + destruct (Alert.expiry_time alert) as [expiry|].
      * destruct (datetime.gt now expiry) eqn:Hgt.
        -- split; [done |]. intros _. right; right. by exists expiry.
        -- split; [|done].
           intros [?|[?|(e & [= <-] & ?)]]; [done | done | congruence].
      * split; [|done]. by intros [?|[?|(e & ? & ?)]].
Qed.

(** C5 (alerts that are not live, or have reminders disabled).  The
    registry is a dictionary keyed by alert id, so its alerts have distinct
    ids, and the store files every state under its own ids, as every
    reachable store does.  For an alert of the registry whose status is not
    active, or whose start is after the clock reading that the sweep takes
    for it, or whose expiry is set and before that reading, [is_active]
    answers "no"; and for such an alert, as for one with reminders disabled,
    the sweep runs to its end, records no delivery for the alert and leaves
    the state of every recipient for it as it was: none created, none
    changed. *)
Theorem sweep_skips_dead_alerts (clock : Clock) (w : World.t) (i : nat)
    (alert : Alert.t) :
  store_wf (state_manager w) →
  NoDup (Alert.id <$> AlertManager.alerts (alert_manager w)) →
  AlertManager.alerts (alert_manager w) !! i = Some alert →
  outside_window alert (clock (ticks w + i)%nat) ∨
    Alert.reminders_enabled alert = false →
  (outside_window alert (clock (ticks w + i)%nat) →
     Alert.is_active clock alert (ticks w + i)%nat =
       (Ok false, S (ticks w + i))) ∧
  ∃ w',
    ReminderScheduler.process_reminders clock w = (Ok tt, w') ∧
    (∃ new,
       deliveries w' = new ++ deliveries w ∧
       ∀ user_id r, (Alert.id alert, user_id, r) ∉ new) ∧
    (∀ user_id,
       lookup (state_manager w') user_id (Alert.id alert) =
       lookup (state_manager w) user_id (Alert.id alert)).
Proof.
  intros Hwf Hnodup Hi Hskip. split.
  - intros Hout. apply is_active_at_false in Hout.
    unfold Alert.is_active. run_m. by rewrite Hout.
  - destruct (process_reminders_frame clock w Hwf)
      as (w' & Hrun & _ & _ & _ & (new & Hd & Hnew) & Hl).
    assert (Huntouched : ¬ ∃ j b,
      AlertManager.alerts (alert_manager w) !! j = Some b ∧
      Alert.is_active_at b (clock (ticks w + j)%nat) = true ∧
      Alert.reminders_enabled b = true ∧
      Alert.id b = Alert.id alert).
    { intros (j & b & Hj & Hact & Hen & Hid).
      assert (j = i) as ->.
      { eapply NoDup_lookup; [exact Hnodup | |];
          rewrite list_lookup_fmap; [by rewrite Hj | by rewrite Hi, Hid]. }
      assert (b = alert) as -> by congruence.
      destruct Hskip as [Hout|Hoff]; [|congruence].
      apply is_active_at_false in Hout. congruence. }
    exists w'. split; [done | split].
    + exists new. split; [done|]. intros u r Hin.
      apply Huntouched. by eapply Hnew.
    + intros u. by apply Hl.
Qed.

Lemma sweep_skips_dead_alerts_witness :
  store_wf
    (state_manager (Sample.world [Sample.in_app_alert; Sample.archived_alert])) ∧
  NoDup (Alert.id <$> [Sample.in_app_alert; Sample.archived_alert]) ∧
  outside_window Sample.archived_alert (Sample.clock 1) ∧
  ∃ w',
    ReminderScheduler.process_reminders Sample.clock
      (Sample.world [Sample.in_app_alert; Sample.archived_alert]) =
      (Ok tt, w') ∧
    (∃ new,
       deliveries w' = new ++ [] ∧ ∀ user_id r, ("2", user_id, r) ∉ new) ∧
    (∀ user_id, lookup (state_manager w') user_id "2" = None).
Proof.
  assert (Hnodup :
    NoDup (Alert.id <$> [Sample.in_app_alert; Sample.archived_alert])).
  { apply NoDup_cons. split; [|apply NoDup_singleton].
    by intros [=]%list_elem_of_singleton. }
  assert (Hout : outside_window Sample.archived_alert (Sample.clock 1)).
  { left. intros [=]. }
  split; [exact store_wf_empty |].
  split; [exact Hnodup |].
  split; [exact Hout |].
  exact (proj2 (sweep_skips_dead_alerts Sample.clock
                  (Sample.world [Sample.in_app_alert; Sample.archived_alert])
                  1 Sample.archived_alert
                  store_wf_empty Hnodup eq_refl (or_introl Hout))).
Defined.
End SweepClaims.

(** * Reachable states of the system *)

Section Reachable.
Context (clock : Clock).

Import World UserAlertStateManager.

(** A recipient action files its result under the pair it was called
    for. *)
Lemma action_store_wf (method : UserAlertState.t → M nat UserAlertState.t)
    user_id alert_id w :
  (∀ self n self' n',
     method self n = (Ok self', n') →
     UserAlertState.user_id self' = UserAlertState.user_id self ∧
     UserAlertState.alert_id self' = UserAlertState.alert_id self) →
  store_wf (state_manager w) →
  store_wf (state_manager (snd (
    (state ← on_states (get_state user_id alert_id);
     state ← on_clock (method state);
     mutate user_id alert_id state;;
     on_states (update_state state)) w))).
Proof.
  intros Hids Hwf. run_m.
  destruct (get_state_total (state_manager w) user_id alert_id)
    as (state0 & m1 & Hget & _ & _).
  destruct (get_state_wf _ _ _ _ _ Hwf Hget) as (Hwf1 & Hu0 & Ha0).
  unfold on_states at 1. rewrite Hget.
  unfold on_clock. cbn [ticks with_state_manager].
  destruct (method state0 (ticks w)) as [[state1|e] n1] eqn:Hm; [|done].
  destruct (Hids _ _ _ _ Hm) as [Hu1 Ha1].
  unfold mutate, on_states. cbn -[store with_user].
  rewrite Hu1, Ha1, Hu0, Ha0, with_user_store, store_store.
  by apply store_wf_store; [congruence.. |].
Qed.

Lemma reachable_store_wf w : reachable clock w → store_wf (state_manager w).
Proof.
  induction 1 as [manager n| w u a _ IH | w u a _ IH | w _ IH | w manager _ IH].
  - apply store_wf_empty.
  - apply (action_store_wf (UserAlertState.snooze_until_tomorrow clock));
      [|done].
    intros self n self' n'. unfold UserAlertState.snooze_until_tomorrow.
    run_m. destruct (datetime.add _ _); [|done]. by intros [= <- _].
  - apply (action_store_wf (UserAlertState.mark_read clock)); [|done].
    intros self n self' n'. unfold UserAlertState.mark_read.
    run_m. by intros [= <- _].
  - destruct (process_reminders_frame clock w IH) as (w' & Hrun & Hwf & _).
    unfold AlertingSystem.process_reminders. by rewrite Hrun.
  - done.
Qed.
End Reachable.

(** * The alert registry *)

Section Registry.
Import AlertRegistry.

Implicit Types (d : list (string * Alert.t)).

Lemma dict_get_set_eq d key v : dict_get key (dict_set key v d) = Some v.
Proof.
  induction d as [|[k x] rest IH]; cbn.
  - by rewrite bool_decide_eq_true_2.
  - case_bool_decide as Hk; cbn; rewrite ?Hk.
    + by rewrite bool_decide_eq_true_2.
    + by rewrite bool_decide_eq_false_2.
Qed.

Lemma dict_get_set_ne d key key' v :
  key ≠ key' → dict_get key' (dict_set key v d) = dict_get key' d.
Proof.
  intros Hne. induction d as [|[k x] rest IH]; cbn.
  - by rewrite bool_decide_eq_false_2.
  - case_bool_decide as Hk; cbn.
    + subst k. by rewrite !bool_decide_eq_false_2.
    + by rewrite IH.
Qed.

Lemma dict_get_None d key : dict_get key d = None ↔ key ∉ (fst <$> d).
Proof.
  induction d as [|[k x] rest IH]; cbn.
  - split; [intros _; apply not_elem_of_nil | done].
  - rewrite not_elem_of_cons. case_bool_decide as Hk.
    + split; [done | intros [? _]; congruence].
    + rewrite IH. split; [intros ?; split; congruence | by intros [_ ?]].
Qed.

Lemma dict_get_elem_of d key v : dict_get key d = Some v → (key, v) ∈ d.
Proof.
  induction d as [|[k x] rest IH]; cbn; [done|].
  case_bool_decide as Hk.
  - intros [= ->]. subst k. left.
  - intros H. right. by apply IH.
Qed.

(** With distinct keys, an item is what [get] finds. *)
Lemma dict_get_of_elem d key v :
  NoDup (fst <$> d) → (key, v) ∈ d → dict_get key d = Some v.
Proof.
  induction d as [|[k x] rest IH]; cbn; intros Hnd Hin.
  - by apply elem_of_nil in Hin.
  - apply NoDup_cons in Hnd as [Hk Hnd].
    apply elem_of_cons in Hin as [[= <- <-]|Hin].
    + by rewrite bool_decide_eq_true_2.
    + rewrite bool_decide_eq_false_2; [by apply IH|].
      intros ->. apply Hk. apply list_elem_of_fmap. by exists (key, v).
Qed.

(** Setting a new key appends; setting a present key keeps the keys. *)
Lemma dict_set_new d key v :
  dict_get key d = None → dict_set key v d = d ++ [(key, v)].
Proof.
  induction d as [|[k x] rest IH]; cbn; [done|].
  case_bool_decide as Hk; [done|]. intros H. by rewrite IH.
Qed.

Lemma dict_set_keys d key v :
  is_Some (dict_get key d) → fst <$> dict_set key v d = fst <$> d.
Proof.
  induction d as [|[k x] rest IH]; cbn.
  - by intros [? ?].
  - case_bool_decide as Hk; cbn; [done|]. intros H. by rewrite IH.
Qed.

Lemma dict_set_length d key v :
  is_Some (dict_get key d) → length (dict_set key v d) = length d.
Proof.
  intros H. rewrite <- (length_fmap fst), dict_set_keys by done.
  by rewrite length_fmap.
Qed.

(** The items after a set: the new one, or one that was there. *)
Lemma elem_of_dict_set d key v k x :
  (k, x) ∈ dict_set key v d → (k = key ∧ x = v) ∨ (k, x) ∈ d.
Proof.
  induction d as [|[k0 x0] rest IH]; cbn.
  - intros [= -> ->]%list_elem_of_singleton. by left.
  - case_bool_decide as Hk.
    + subst k0. intros [[= -> ->]|Hin]%elem_of_cons; [by left|].
      right. by right.
    + intros [[= -> ->]|Hin]%elem_of_cons; [right; left|].
      destruct (IH Hin) as [?|?]; [by left | right; by right].
Qed.

Lemma registry_wf_init user_repository : registry_wf (init user_repository).
Proof. split; [done|]. intros k a Hin. by apply elem_of_nil in Hin. Qed.

Lemma registry_wf_keys_nodup registry :
  registry_wf registry → NoDup (fst <$> alerts registry).
Proof.
  intros [-> _]. apply (NoDup_fmap_2 _). apply NoDup_seq.
Qed.

Lemma registry_wf_ids registry :
  registry_wf registry →
  Alert.id <$> values registry = fst <$> alerts registry.
Proof.
  intros [_ Hid]. unfold values. rewrite <- list_fmap_compose.
  induction (alerts registry) as [|[k a] rest IH]; [done|]. cbn. f_equal.
  - apply Hid. left.
  - apply IH. intros k' a' Hin. apply Hid. by right.
Qed.

Lemma next_id_fresh registry :
  registry_wf registry → dict_get (next_id registry) (alerts registry) = None.
Proof.
  intros [Hkeys _]. apply dict_get_None. rewrite Hkeys.
  intros (k & Heq & Hk)%list_elem_of_fmap. unfold next_id in Heq.
  apply (inj pretty) in Heq. apply elem_of_seq in Hk. lia.
Qed.

(** A present key is set without touching the shape of the registry. *)
Lemma registry_wf_set registry key alert :
  registry_wf registry →
  is_Some (dict_get key (alerts registry)) →
  Alert.id alert = key →
  registry_wf (mk (dict_set key alert (alerts registry))
                  (user_repository registry)).
Proof.
  intros [Hkeys Hid] Hsome Ha. split; cbn.
  - by rewrite dict_set_keys, dict_set_length.
  - intros k x [[-> ->]|Hin]%elem_of_dict_set; [done | by apply Hid].
Qed.

Lemma setattr_id alert kwarg :
  (∀ v, kwarg ≠ kw_id v) → Alert.id (setattr alert kwarg) = Alert.id alert.
Proof.
  intros Hne. destruct alert, kwarg; try done. by destruct (Hne v).
Qed.

Lemma foldl_setattr_id kwargs : ∀ alert,
  (∀ v, kw_id v ∉ kwargs) →
  Alert.id (foldl setattr alert kwargs) = Alert.id alert.
Proof.
  induction kwargs as [|kw rest IH]; intros alert Hno; [done|]. cbn.
  rewrite IH.
  - apply setattr_id. intros v ->. apply (Hno v). left.
  - intros v Hin. apply (Hno v). by right.
Qed.

Lemma create_alert_wf title message severity delivery_type created_by
    visibility_type target_ids start_time expiry_time reminder_frequency
    registry :
  registry_wf registry →
  registry_wf (snd (create_alert title message severity delivery_type
                      created_by visibility_type target_ids start_time
                      expiry_time reminder_frequency registry)).
Proof.
  intros Hwf. unfold create_alert.
  destruct (VisibilityFactory.create_visibility _ _) as [config|msg]; [|done].
  cbn [snd Alert.id]. rewrite dict_set_new by by apply next_id_fresh.
  destruct Hwf as [Hkeys Hid]. split; cbn.
  - rewrite fmap_app, length_app, Hkeys. cbn.
    rewrite Nat.add_1_r, seq_S, fmap_app. cbn.
    unfold next_id. by rewrite Nat.add_1_r.
  - intros k x [Hin|[= -> ->]%list_elem_of_singleton]%elem_of_app;
      [by apply Hid | done].
Qed.

Lemma built_wf registry : built registry → registry_wf registry.
Proof.
  induction 1 as [repo| | alert_id kwargs registry _ IH Hno
                  | alert_id registry _ IH].
  - apply registry_wf_init.
  - by apply create_alert_wf.
  - unfold update_alert.
    destruct (dict_get alert_id (alerts registry)) as [alert|] eqn:Hget;
      [|done].
    cbn [snd]. apply registry_wf_set; [done | by rewrite Hget |].
    rewrite foldl_setattr_id by done.
    apply (proj2 IH). by apply dict_get_elem_of.
  - unfold archive_alert.
    destruct (dict_get alert_id (alerts registry)) as [alert|] eqn:Hget;
      [|done].
    cbn [snd]. apply registry_wf_set; [done | by rewrite Hget |].
    rewrite setattr_id by done.
    apply (proj2 IH). by apply dict_get_elem_of.
Qed.
End Registry.

Section ActiveAlerts.
Context (clock : Clock).

Lemma get_active_alerts_live (alerts : list Alert.t) : ∀ n,
  filter_m (Alert.is_active clock) alerts n =
    (Ok (live_alerts clock n alerts), (n + length alerts)%nat).
Proof.
  induction alerts as [|a rest IH]; intros n.
  - cbn. by rewrite Nat.add_0_r.
  - cbn [filter_m live_alerts]. run_m.
    change (Alert.is_active clock a n)
      with (Ok (Alert.is_active_at a (clock n)), S n).
    cbn beta iota. rewrite IH. cbn [length].
    replace (S n + length rest)%nat with (n + S (length rest))%nat by lia.
    by destruct (Alert.is_active_at a (clock n)).
Qed.

Lemma elem_of_live_alerts (alerts : list Alert.t) : ∀ n b,
  b ∈ live_alerts clock n alerts ↔
  ∃ i, alerts !! i = Some b ∧ Alert.is_active_at b (clock (n + i)%nat) = true.
Proof.
  induction alerts as [|a rest IH]; intros n b; cbn [live_alerts].
  - split; [by intros ?%elem_of_nil | by intros (i & ? & _)].
  - assert (Hrest : b ∈ live_alerts clock (S n) rest ↔
      ∃ i, (a :: rest) !! S i = Some b ∧
           Alert.is_active_at b (clock (n + S i)%nat) = true).
    { rewrite IH. by setoid_rewrite Nat.add_succ_r. }
    split.
    + intros Hin.
      assert (Hcase : (b = a ∧ Alert.is_active_at a (clock n) = true) ∨
                      b ∈ live_alerts clock (S n) rest).
      { destruct (Alert.is_active_at a (clock n)); [|by right].
        apply elem_of_cons in Hin as [->|Hin]; [by left | by right]. }
      destruct Hcase as [[-> Ha]|Hin'].
      * exists 0%nat. by rewrite Nat.add_0_r.
      * apply Hrest in Hin' as (i & ? & ?). by exists (S i).
    + intros ([|i] & Hi & Hact).
      * injection Hi as ->. rewrite Nat.add_0_r in Hact. rewrite Hact. left.
      * assert (Hin : b ∈ live_alerts clock (S n) rest)
          by (apply Hrest; by exists i).
        destruct (Alert.is_active_at a (clock n)); [by right | done].
Qed.

Lemma live_alerts_sublist (alerts : list Alert.t) : ∀ n,
  live_alerts clock n alerts `sublist_of` alerts.
Proof.
  induction alerts as [|a rest IH]; intros n; cbn [live_alerts]; [done|].
  destruct (Alert.is_active_at a (clock n)).
  - by apply sublist_skip.
  - by apply sublist_cons.
Qed.
End ActiveAlerts.

Section RegistryExtras.
Import AlertRegistry.

(** X1 (alert ids).  In a registry built by creating, updating and
    archiving alerts, the ids of the alerts are "1", "2", ... in the order
    of creation, so no two alerts share an id. *)
Theorem built_ids_count_up (registry : AlertRegistry.t) :
  built registry →
  Alert.id <$> AlertManager.alerts (manager registry) =
    (pretty <$> seq 1 (length (alerts registry))) ∧
  NoDup (Alert.id <$> AlertManager.alerts (manager registry)).
Proof.
  intros Hwf%built_wf. cbn [manager AlertManager.alerts].
  rewrite registry_wf_ids by done. split; [apply Hwf|].
  by apply registry_wf_keys_nodup.
Qed.

Lemma built_registry2 : built Scenario.registry2.
Proof. do 2 apply built_create. apply built_init. Qed.

Lemma built_ids_count_up_witness :
  built Scenario.registry2 ∧
  Alert.id <$> AlertManager.alerts (manager Scenario.registry2) = ["1"; "2"].
Proof.
  split; [exact built_registry2 |].
  exact (proj1 (built_ids_count_up Scenario.registry2 built_registry2)).
Defined.

(** X2 (creating an alert).  A visibility type other than "organization",
    "team" and "user" makes [create_alert] raise [ValueError] with the
    registry as it was.  With one of the three, the new alert goes last in
    the registry under the next number as id, is active with reminders
    enabled, every alert filed before stays as it is, and since the system
    creates it for in-app delivery, delivering it never fails. *)
Theorem create_alert_outcome (title message : string) (severity : Severity)
    (created_by visibility_type : string) (target_ids : gset string)
    (start_time : datetime.t) (expiry_time : option datetime.t)
    (reminder_frequency : timedelta.t) (registry : AlertRegistry.t) :
  built registry →
  (visibility_type ∉ ["organization"; "team"; "user"] →
     AlertingSystemAdmin.create_alert title message severity created_by
       visibility_type target_ids start_time expiry_time reminder_frequency
       registry =
     (ValueError ("Unknown visibility type: " +:+ visibility_type),
      registry)) ∧
  (visibility_type ∈ ["organization"; "team"; "user"] →
     ∃ alert,
       AlertingSystemAdmin.create_alert title message severity created_by
         visibility_type target_ids start_time expiry_time reminder_frequency
         registry =
       (Returned alert,
        mk (alerts registry ++ [(Alert.id alert, alert)])
           (user_repository registry)) ∧
       Alert.id alert = pretty (S (length (alerts registry))) ∧
       dict_get (Alert.id alert) (alerts registry) = None ∧
       Alert.status alert = ACTIVE ∧
       Alert.reminders_enabled alert = true ∧
       Alert.start_time alert = start_time ∧
       Alert.expiry_time alert = expiry_time ∧
       Alert.reminder_frequency alert = reminder_frequency ∧
       ∀ user_id, NotificationDelivery.deliver_result alert user_id = true).
Proof.
  intros Hwf%built_wf.
  unfold AlertingSystemAdmin.create_alert, create_alert,
    VisibilityFactory.create_visibility.
  split.
  - intros Hno. rewrite !not_elem_of_cons in Hno.
    destruct Hno as (H1 & H2 & H3 & _).
    by rewrite !bool_decide_eq_false_2.
  - intros Hin.
    assert (Hfresh := next_id_fresh registry Hwf).
    assert (Hid : next_id registry = pretty (S (length (alerts registry))))
      by (unfold next_id; by rewrite Nat.add_1_r).
    repeat case_bool_decide;
      try (lazymatch goal with
           | |- ∃ _, (Returned ?a, _) = _ ∧ _ => exists a
           end;
           cbn [Alert.id]; rewrite dict_set_new by done;
           split; [reflexivity |]; cbn; by repeat split).
    rewrite !elem_of_cons in Hin.
    destruct Hin as [?|[?|[?|?%elem_of_nil]]]; done.
Qed.

Lemma create_alert_outcome_witness :
  built Scenario.registry1 ∧
  AlertingSystemAdmin.create_alert "Party" "Friday" INFO "user3" "everyone"
    {["user1"]} Sample.T0 None (timedelta.of_hours 2) Scenario.registry1 =
  (ValueError "Unknown visibility type: everyone", Scenario.registry1).
Proof.
  assert (Hb : built Scenario.registry1)
    by (apply built_create, built_init).
  split; [exact Hb |].
  refine (proj1 (create_alert_outcome "Party" "Friday" INFO "user3"
                   "everyone" {["user1"]} Sample.T0 None
                   (timedelta.of_hours 2) Scenario.registry1 Hb) _).
  rewrite !not_elem_of_cons. repeat split; try (intros [=]).
  apply not_elem_of_nil.
Defined.
End RegistryExtras.

Section RegistryUpdates.
Import AlertRegistry.

Lemma dict_set_id (d : list (string * Alert.t)) key v :
  dict_get key d = Some v → dict_set key v d = d.
Proof.
  induction d as [|[k x] rest IH]; cbn; [done|].
  case_bool_decide as Hk.
  - by intros [= ->].
  - intros H. by rewrite IH.
Qed.

Lemma foldl_setattr_other kwargs : ∀ alert,
  (∀ kwarg, kwarg ∈ kwargs → ∃ key, kwarg = kw_other key) →
  foldl setattr alert kwargs = alert.
Proof.
  induction kwargs as [|kw rest IH]; intros alert Hall; [done|]. cbn.
  destruct (Hall kw) as [key ->]; [left|].
  replace (setattr alert (kw_other key)) with alert by by destruct alert.
  apply IH. intros k Hin. apply Hall. by right.
Qed.

Lemma given_cons {A : Type} (get : Kwarg → option A) kwarg kwargs old :
  given get (kwarg :: kwargs) old = given get kwargs (default old (get kwarg)).
Proof.
  unfold given.
  change (omap get (kwarg :: kwargs)) with
    (match get kwarg with
     | Some v => v :: omap get kwargs
     | None => omap get kwargs
     end).
  destruct (get kwarg) as [v|]; cbn [default]; [|done].
  rewrite last_cons. by destruct (last _).
Qed.

(** The fields after the loop over [kwargs.items()]: each field has the
    value of the last item that names it, or else its old value. *)
Lemma foldl_setattr_given kwargs : ∀ alert,
  foldl setattr alert kwargs =
  Alert.mk
    (given kwarg_id kwargs (Alert.id alert))
    (given kwarg_title kwargs (Alert.title alert))
    (given kwarg_message kwargs (Alert.message alert))
    (given kwarg_severity kwargs (Alert.severity alert))
    (given kwarg_delivery_type kwargs (Alert.delivery_type alert))
    (given kwarg_created_by kwargs (Alert.created_by alert))
    (given kwarg_visibility_config kwargs (Alert.visibility_config alert))
    (given kwarg_start_time kwargs (Alert.start_time alert))
    (given kwarg_expiry_time kwargs (Alert.expiry_time alert))
    (given kwarg_reminder_frequency kwargs (Alert.reminder_frequency alert))
    (given kwarg_status kwargs (Alert.status alert))
    (given kwarg_reminders_enabled kwargs (Alert.reminders_enabled alert)).
Proof.
  induction kwargs as [|kw rest IH]; intros alert; [by destruct alert|].
  cbn [foldl]. rewrite IH, !given_cons. by destruct alert, kw.
Qed.

(** X3 (updating an alert).  [update_alert] on an id that the registry
    does not hold returns [None] and changes nothing.  On an id it holds,
    it returns the alert in which every field named by an item of
    [kwargs] has the value of the last such item and every other field
    has its old value, files it under the same key at the same place, and
    leaves every other alert and the order of the registry as they are;
    when every key given is one that an alert does not have, the registry
    is unchanged. *)
Theorem update_alert_outcome (alert_id : string) (kwargs : list Kwarg)
    (registry : AlertRegistry.t) :
  (dict_get alert_id (alerts registry) = None →
     update_alert alert_id kwargs registry = (None, registry)) ∧
  (∀ alert,
     dict_get alert_id (alerts registry) = Some alert →
     ∃ registry' alert',
       update_alert alert_id kwargs registry = (Some alert', registry') ∧
       alert' =
         Alert.mk
           (given kwarg_id kwargs (Alert.id alert))
           (given kwarg_title kwargs (Alert.title alert))
           (given kwarg_message kwargs (Alert.message alert))
           (given kwarg_severity kwargs (Alert.severity alert))
           (given kwarg_delivery_type kwargs (Alert.delivery_type alert))
           (given kwarg_created_by kwargs (Alert.created_by alert))
           (given kwarg_visibility_config kwargs
              (Alert.visibility_config alert))
           (given kwarg_start_time kwargs (Alert.start_time alert))
           (given kwarg_expiry_time kwargs (Alert.expiry_time alert))
           (given kwarg_reminder_frequency kwargs
              (Alert.reminder_frequency alert))
           (given kwarg_status kwargs (Alert.status alert))
           (given kwarg_reminders_enabled kwargs
              (Alert.reminders_enabled alert)) ∧
       dict_get alert_id (alerts registry') = Some alert' ∧
       fst <$> alerts registry' = fst <$> alerts registry ∧
       user_repository registry' = user_repository registry ∧
       (∀ key, key ≠ alert_id →
          dict_get key (alerts registry') = dict_get key (alerts registry)) ∧
       ((∀ kwarg, kwarg ∈ kwargs → ∃ key, kwarg = kw_other key) →
          alert' = alert ∧ registry' = registry)).
Proof.
  unfold update_alert. split.
  - by intros ->.
  - intros alert Hget. rewrite Hget. eexists _, _. split; [reflexivity |].
    cbn [alerts user_repository].
    split; [apply foldl_setattr_given |].
    split; [apply dict_get_set_eq |].
    split; [apply dict_set_keys; by rewrite Hget |].
    split; [done |]. split.
    + intros key Hne. by apply dict_get_set_ne.
    + intros Hother. rewrite foldl_setattr_other by done.
      split; [done|].
      rewrite dict_set_id by done. by destruct registry.
Qed.

Lemma update_alert_outcome_witness :
  (∃ alert,
     dict_get "1" (alerts Scenario.registry2) = Some alert ∧
     Alert.title alert = "Outage" ∧ Alert.message alert = "Down" ∧
     Alert.status alert = ACTIVE) ∧
  ∃ registry' alert',
    update_alert "1" [kw_title "Old"; kw_status EXPIRED; kw_title "New"]
      Scenario.registry2 = (Some alert', registry') ∧
    Alert.id alert' = "1" ∧
    Alert.title alert' = "New" ∧
    Alert.message alert' = "Down" ∧
    Alert.status alert' = EXPIRED ∧
    dict_get "1" (alerts registry') = Some alert' ∧
    dict_get "2" (alerts registry') = dict_get "2" (alerts Scenario.registry2).
Proof.
  split; [eexists; split; [reflexivity | by vm_compute] |].
  destruct (proj2 (update_alert_outcome "1"
              [kw_title "Old"; kw_status EXPIRED; kw_title "New"]
              Scenario.registry2) _ eq_refl)
    as (registry' & alert' & Hrun & Halert & Hget & _ & _ & Hframe & _).
  exists registry', alert'.
  split; [exact Hrun |].
  rewrite Halert at 1 2 3 4.
  split; [reflexivity | split; [reflexivity | split; [reflexivity |]]].
  split; [reflexivity | split; [exact Hget |]].
  apply Hframe. discriminate.
Defined.

(** X4 (archiving an alert).  [archive_alert] on an id that the registry
    does not hold returns [False] and changes nothing.  Once it has
    returned [True] for an alert of a registry built by the admin
    operations, a sweep over that registry records no delivery for the
    alert and leaves the state of every recipient for it as it was,
    whatever the clock reads. *)
Theorem archived_alert_gets_no_reminders (clock : Clock)
    (registry : AlertRegistry.t) (alert_id : string) :
  built registry →
  (dict_get alert_id (alerts registry) = None →
     archive_alert alert_id registry = (false, registry)) ∧
  (∀ registry' w,
     archive_alert alert_id registry = (true, registry') →
     World.alert_manager w = manager registry' →
     store_wf (World.state_manager w) →
     ∃ w',
       ReminderScheduler.process_reminders clock w = (Ok tt, w') ∧
       (∃ new,
          World.deliveries w' = new ++ World.deliveries w ∧
          ∀ user_id r, (alert_id, user_id, r) ∉ new) ∧
       (∀ user_id,
          UserAlertStateManager.lookup (World.state_manager w') user_id
            alert_id =
          UserAlertStateManager.lookup (World.state_manager w) user_id
            alert_id)).
Proof.
  intros Hbuilt. split.
  - unfold archive_alert. by intros ->.
  - intros registry' w Harch Hmgr Hwf.
    assert (Hwf' : registry_wf registry').
    { replace registry' with (snd (archive_alert alert_id registry))
        by by rewrite Harch.
      by apply built_wf, built_archive. }
    unfold archive_alert in Harch.
    destruct (dict_get alert_id (alerts registry)) as [alert|] eqn:Hget;
      [|done].
    injection Harch as <-.
    destruct (process_reminders_frame clock w Hwf)
      as (w' & Hrun & _ & _ & _ & (new & Hd & Hnew) & Hl).
    assert (Huntouched : ¬ ∃ i b,
      AlertManager.alerts (World.alert_manager w) !! i = Some b ∧
      Alert.is_active_at b (clock (World.ticks w + i)%nat) = true ∧
      Alert.reminders_enabled b = true ∧
      Alert.id b = alert_id).
    { intros (i & b & Hi & Hact & _ & Hid). rewrite Hmgr in Hi.
      cbn [manager AlertManager.alerts] in Hi. unfold values in Hi.
      apply list_elem_of_lookup_2, list_elem_of_fmap in Hi
        as ([key b'] & -> & Hin).
      cbn [snd] in *.
      assert (key = alert_id) as ->
        by (rewrite <- Hid; symmetry; by apply (proj2 Hwf')).
      apply dict_get_of_elem in Hin; [|by apply registry_wf_keys_nodup].
      cbn [alerts] in Hin. rewrite dict_get_set_eq in Hin.
      injection Hin as <-.
      unfold Alert.is_active_at in Hact.
      rewrite bool_decide_eq_true_2 in Hact; [done|]. by destruct alert. }
    exists w'. split; [done | split].
    + exists new. split; [done|]. intros u r Hin.
      apply Huntouched. by eapply Hnew.
    + intros u. by apply Hl.
Qed.

Lemma archived_alert_gets_no_reminders_witness :
  built Scenario.registry2 ∧
  ∃ w',
    ReminderScheduler.process_reminders Sample.clock
      (Scenario.world (snd (archive_alert "1" Scenario.registry2))
         UserAlertStateManager.init) = (Ok tt, w') ∧
    (∃ new,
       World.deliveries w' = new ++ [] ∧
       ∀ user_id r, ("1", user_id, r) ∉ new) ∧
    (∀ user_id,
       UserAlertStateManager.lookup (World.state_manager w') user_id "1" =
       None).
Proof.
  split; [exact built_registry2 |].
  exact (proj2 (archived_alert_gets_no_reminders Sample.clock
                  Scenario.registry2 "1" built_registry2)
           (snd (archive_alert "1" Scenario.registry2))
           (Scenario.world (snd (archive_alert "1" Scenario.registry2))
              UserAlertStateManager.init)
           eq_refl eq_refl store_wf_empty).
Defined.

(** X5 (the alerts of a user).  [get_alerts_for_user] reads the clock
    once per alert of the registry and returns, in the order of the
    registry, exactly the alerts that are live at their reading and whose
    resolved audience has the user. *)
Theorem get_alerts_for_user_spec (clock : Clock)
    (registry : AlertRegistry.t) (user_id : string) (n : nat) :
  ∃ result,
    AlertingSystemAdmin.get_user_alerts clock registry user_id n =
      (Ok result, (n + length (alerts registry))%nat) ∧
    result `sublist_of` values registry ∧
    ∀ alert,
      alert ∈ result ↔
      (∃ i, values registry !! i = Some alert ∧
            Alert.is_active_at alert (clock (n + i)%nat) = true) ∧
      user_id ∈ VisibilityConfig.get_target_users
                  (Alert.visibility_config alert) (user_repository registry).
Proof.
  eexists.
  unfold AlertingSystemAdmin.get_user_alerts, get_alerts_for_user,
    get_active_alerts, AlertManager.get_active_alerts.
  run_m. cbn [manager AlertManager.alerts].
  rewrite get_active_alerts_live.
  replace (length (values registry)) with (length (alerts registry))
    by (unfold values; by rewrite length_fmap).
  split; [reflexivity | split].
  - etrans; [apply sublist_filter | apply live_alerts_sublist].
  - intros alert. rewrite list_elem_of_filter, elem_of_live_alerts.
    tauto.
Qed.
End RegistryUpdates.

(** * Sweeps, pair by pair *)

Section Loops.
Context (clock : Clock).

Import World UserAlertStateManager.

(** A loop seen through a property of the elements done so far. *)
Lemma for_each_prefix {A : Type} (body : A → M World.t unit)
    (R : list A → World.t → Prop) (xs : list A) :
  (∀ done x rest w,
     xs = done ++ x :: rest → R done w →
     ∃ w', body x w = (Ok tt, w') ∧ R (done ++ [x]) w') →
  ∀ w, R [] w → ∃ w', for_each body xs w = (Ok tt, w') ∧ R xs w'.
Proof.
  intros Hbody.
  assert (Hgen : ∀ rest done w,
    xs = done ++ rest → R done w →
    ∃ w', for_each body rest w = (Ok tt, w') ∧ R xs w').
  { induction rest as [|x rest IH]; intros done w Hxs HR.
    - exists w. split; [done|]. by rewrite Hxs, app_nil_r.
    - destruct (Hbody done x rest w Hxs HR) as (w1 & Hrun1 & HR1).
      destruct (IH (done ++ [x]) w1) as (w2 & Hrun2 & HR2); [|done|].
      { by rewrite <- (assoc (++)). }
      exists w2. split; [|done]. cbn [for_each]. run_m. by rewrite Hrun1. }
  intros w HR. by apply (Hgen xs []).
Qed.

(** A loop whose body keeps an invariant keeps it. *)
Lemma for_each_inv {A : Type} (body : A → M World.t unit)
    (Inv : World.t → Prop) (xs : list A) :
  (∀ x w, x ∈ xs → Inv w → ∃ w', body x w = (Ok tt, w') ∧ Inv w') →
  ∀ w, Inv w → ∃ w', for_each body xs w = (Ok tt, w') ∧ Inv w'.
Proof.
  intros Hbody. apply (for_each_prefix body (λ _, Inv)).
  intros done x rest w Hxs. apply Hbody. rewrite Hxs.
  apply elem_of_app. right. left.
Qed.

(** A sweep keeps what each [remind] keeps and the clock does not
    break. *)
Lemma process_reminders_inv (Inv : World.t → Prop) w :
  (∀ w1 n, Inv w1 → (ticks w1 ≤ n)%nat → Inv (with_ticks n w1)) →
  (∀ alert user_id w1,
     alert ∈ AlertManager.alerts (alert_manager w) →
     Inv w1 →
     ∃ w2, ReminderScheduler.remind clock alert user_id w1 = (Ok tt, w2) ∧
           Inv w2) →
  Inv w →
  ∃ w', ReminderScheduler.process_reminders clock w = (Ok tt, w') ∧ Inv w'.
Proof.
  intros Htick Hremind Hinv.
  unfold ReminderScheduler.process_reminders. run_m.
  unfold get_alert_manager, on_clock, AlertManager.get_active_alerts.
  rewrite get_active_alerts_live.
  apply for_each_inv; [|apply Htick; [done | lia]].
  intros alert w1 Hin Hw1. unfold ReminderScheduler.remind_audience.
  destruct (Alert.reminders_enabled alert); cbn [negb]; [|by exists w1].
  apply for_each_inv; [|done].
  intros u w2 _ Hw2. apply Hremind; [|done].
  eapply elem_of_sublist; [done | apply live_alerts_sublist].
Qed.

(** One recipient of one alert: only that pair is touched, and at most
    one delivery is recorded, for that pair. *)
Lemma remind_pair_frame alert user_id w :
  store_wf (state_manager w) →
  ∃ w',
    ReminderScheduler.remind clock alert user_id w = (Ok tt, w') ∧
    pair_frame (λ a u, a = Alert.id alert ∧ u = user_id) w w' ∧
    (deliveries w' = deliveries w ∨
     ∃ r, deliveries w' = (Alert.id alert, user_id, r) :: deliveries w).
Proof.
  intros Hwf.
  destruct (get_state_total (state_manager w) user_id (Alert.id alert))
    as (state0 & m1 & Hget & Hl1 & Hother).
  destruct (get_state_wf _ _ _ _ _ Hwf Hget) as (Hwf1 & Hu0 & Ha0).
  destruct (should_receive_reminder_total clock state0 alert (ticks w))
    as (due & state1 & n1 & Hcheck & Hn & Hu1 & Ha1 & _).
  eexists. rewrite (remind_run clock w alert user_id _ _ _ _ _ Hget Hcheck).
  split; [reflexivity |].
  assert (Hwf2 : store_wf (store user_id (Alert.id alert) state1 m1)).
  { apply store_wf_store; [congruence.. | done]. }
  assert (Hframe : ∀ s u a,
    ¬ (a = Alert.id alert ∧ u = user_id) →
    lookup (store user_id (Alert.id alert) s m1) u a =
    lookup (state_manager w) u a).
  { intros s u a Hne.
    assert ((user_id, Alert.id alert) ≠ (u, a))
      by (intros [= <- <-]; by apply Hne).
    rewrite lookup_store_ne by done. by apply Hother. }
  assert (Hone : ∀ r d,
    d ∈ [(Alert.id alert, user_id, r)] →
    (delivery_pair d).1 = Alert.id alert ∧ (delivery_pair d).2 = user_id).
  { by intros r d ->%list_elem_of_singleton. }
  destruct due; [destruct (NotificationDelivery.deliver_result _ _)|].
  - cbv zeta.
    rewrite Hu1, Ha1, Hu0, Ha0, store_store, with_user_store, store_store.
    split; [|right; by eexists].
    split; [|split; [done | split; [cbn; lia | split]]].
    + cbn. apply store_wf_store; [cbn; congruence.. | done].
    + exists [(Alert.id alert, user_id, true)]. split; [done|]. apply Hone.
    + intros u a Hne. by apply Hframe.
  - split; [|right; by eexists].
    split; [done | split; [done | split; [done | split]]].
    + exists [(Alert.id alert, user_id, false)]. split; [done|]. apply Hone.
    + intros u a Hne. by apply Hframe.
  - split; [|by left].
    split; [done | split; [done | split; [done | split]]].
    + exists []. split; [done|]. by intros d ?%elem_of_nil.
    + intros u a Hne. by apply Hframe.
Qed.
End Loops.

Section QuietPairs.
Context (clock : Clock).

Import World UserAlertStateManager UserAlertState.

(** A pair whose stored state every check of the sweep finds not eligible
    and leaves alone gets no delivery and keeps its state. *)
Lemma sweep_quiet_pair w user_id alert_id state :
  store_wf (state_manager w) →
  lookup (state_manager w) user_id alert_id = Some state →
  (∀ alert n,
     alert ∈ AlertManager.alerts (alert_manager w) →
     Alert.id alert = alert_id → (ticks w ≤ n)%nat →
     ∃ n', should_receive_reminder clock state alert n =
             (Ok (false, state), n')) →
  ∃ w',
    ReminderScheduler.process_reminders clock w = (Ok tt, w') ∧
    lookup (state_manager w') user_id alert_id = Some state ∧
    ∃ new,
      deliveries w' = new ++ deliveries w ∧
      ∀ r, (alert_id, user_id, r) ∉ new.
Proof.
  intros Hwf Hl Hquiet.
  set (Inv := λ w1 : World.t,
    store_wf (state_manager w1) ∧ (ticks w ≤ ticks w1)%nat ∧
    lookup (state_manager w1) user_id alert_id = Some state ∧
    ∃ new, deliveries w1 = new ++ deliveries w ∧
           ∀ r, (alert_id, user_id, r) ∉ new).
  destruct (process_reminders_inv clock Inv w) as (w' & Hrun & HI).
  - intros w1 n (H1 & H2 & H3 & H4) Hle.
    split; [done | split; [cbn; lia | done]].
  - intros alert u w1 Hin (Hwf1 & Ht1 & Hl1 & new & Hd1 & Hnew).
    destruct (decide (Alert.id alert = alert_id ∧ u = user_id))
      as [[Hid ->]|Hne].
    + destruct (Hquiet alert (ticks w1) Hin Hid Ht1) as (n' & Hcheck).
      destruct (should_receive_reminder_total clock state alert (ticks w1))
        as (d & s & m & Hcheck' & Hle & _).
      rewrite Hcheck in Hcheck'. injection Hcheck' as <- <- <-.
      rewrite <- Hid in Hl1.
      eexists.
      rewrite (remind_run clock w1 alert user_id _ _ _ _ _
                 (get_state_existing _ _ _ _ Hl1) Hcheck).
      split; [reflexivity |]. rewrite store_id by done.
      split; [done | split; [cbn; lia | split; [by rewrite <- Hid |]]].
      by exists new.
    + destruct (remind_pair_frame clock alert u w1 Hwf1)
        as (w2 & Hrun2 & (Hwf2 & _ & Ht2 & (new2 & Hd2 & Hnew2) & Hl2) & _).
      exists w2. split; [done|].
      split; [done | split; [lia | split]].
      * rewrite Hl2; [done|]. intros [-> ->]. by apply Hne.
      * exists (new2 ++ new). split; [by rewrite Hd2, Hd1, (assoc (++)) |].
        intros r [Hin2|Hin1]%elem_of_app; [|by eapply Hnew].
        apply Hnew2 in Hin2. cbn in Hin2. destruct Hin2 as [-> ->].
        by apply Hne.
  - split; [done | split; [done | split; [done |]]].
    exists []. split; [done|]. by intros r ?%elem_of_nil.
  - exists w'. destruct HI as (_ & _ & Hl' & Hnew). by split.
Qed.
End QuietPairs.

Section QuietExtras.
Import World UserAlertStateManager UserAlertState.

(** X6 (read stops reminders).  When the state stored for a recipient and
    an alert is read, a sweep records no delivery for the pair and leaves
    the state as it is, whatever the clock reads and whatever the registry
    holds. *)
Theorem sweep_skips_read_pair (clock : Clock) (w : World.t)
    (user_id alert_id : string) (state : UserAlertState.t) :
  store_wf (state_manager w) →
  lookup (state_manager w) user_id alert_id = Some state →
  status state = READ →
  ∃ w',
    ReminderScheduler.process_reminders clock w = (Ok tt, w') ∧
    lookup (state_manager w') user_id alert_id = Some state ∧
    ∃ new,
      deliveries w' = new ++ deliveries w ∧
      ∀ r, (alert_id, user_id, r) ∉ new.
Proof.
  intros Hwf Hl Hread. apply sweep_quiet_pair; [done.. |].
  intros alert n _ _ _. exists n.
  rewrite should_receive_reminder_not_snoozed by congruence.
  by apply reminder_due_read.
Qed.

(** X7 (snooze defers reminders).  When the state stored for a pair is
    snoozed and no reading of the clock from the start of the sweep on is
    past the deadline, the sweep records no delivery for the pair and
    leaves the state as it is, still snoozed. *)
Theorem sweep_skips_snoozed_pair (clock : Clock) (w : World.t)
    (user_id alert_id : string) (state : UserAlertState.t)
    (until : datetime.t) :
  store_wf (state_manager w) →
  lookup (state_manager w) user_id alert_id = Some state →
  status state = SNOOZED →
  snoozed_until state = Some until →
  (∀ n, (ticks w ≤ n)%nat → datetime.gt (clock n) until = false) →
  ∃ w',
    ReminderScheduler.process_reminders clock w = (Ok tt, w') ∧
    lookup (state_manager w') user_id alert_id = Some state ∧
    ∃ new,
      deliveries w' = new ++ deliveries w ∧
      ∀ r, (alert_id, user_id, r) ∉ new.
Proof.
  intros Hwf Hl Hst Hun Hclock. apply sweep_quiet_pair; [done.. |].
  intros alert n _ _ Hle. exists (S n).
  unfold should_receive_reminder.
  rewrite bool_decide_eq_true_2, Hun by done. run_m.
  by rewrite Hclock.
Qed.

(** X8 (throttle across sweeps).  When the state stored for a pair is
    unread with a reminder sent, and at no reading of the clock from the
    start of the sweep on the time since that reminder reaches the
    reminder frequency of an alert of the registry with that id, the sweep
    records no delivery for the pair and leaves the state as it is. *)
Theorem sweep_skips_throttled_pair (clock : Clock) (w : World.t)
    (user_id alert_id : string) (state : UserAlertState.t)
    (last : datetime.t) :
  store_wf (state_manager w) →
  lookup (state_manager w) user_id alert_id = Some state →
  status state = UNREAD →
  last_reminder_sent state = Some last →
  (∀ alert n,
     alert ∈ AlertManager.alerts (alert_manager w) →
     Alert.id alert = alert_id → (ticks w ≤ n)%nat →
     timedelta.ge (datetime.sub (clock n) last)
       (Alert.reminder_frequency alert) = false) →
  ∃ w',
    ReminderScheduler.process_reminders clock w = (Ok tt, w') ∧
    lookup (state_manager w') user_id alert_id = Some state ∧
    ∃ new,
      deliveries w' = new ++ deliveries w ∧
      ∀ r, (alert_id, user_id, r) ∉ new.
Proof.
  intros Hwf Hl Hst Hlast Hclock. apply sweep_quiet_pair; [done.. |].
  intros alert n Hin Hid Hle. exists (S n).
  rewrite should_receive_reminder_not_snoozed by congruence.
  rewrite (reminder_due_throttled clock _ alert n last) by congruence.
  by rewrite Hclock.
Qed.
End QuietExtras.

Section QuietWitnesses.
Import World UserAlertStateManager UserAlertState.

Lemma read_store_wf : store_wf Scenario.read_store.
Proof.
  apply (reachable_store_wf Sample.clock), reachable_mark_read.
  apply reachable_init.
Qed.

Lemma snoozed_store_wf : store_wf Scenario.snoozed_store.
Proof.
  apply (reachable_store_wf Sample.clock), reachable_snooze.
  apply reachable_init.
Qed.

Lemma swept_store_wf : store_wf Scenario.swept_store.
Proof.
  apply (reachable_store_wf Sample.clock), reachable_sweep.
  apply reachable_init.
Qed.

Lemma sweep_skips_read_pair_witness :
  store_wf Scenario.read_store ∧
  lookup Scenario.read_store "user1" "1" = Some Scenario.read_state ∧
  status Scenario.read_state = READ ∧
  ∃ w',
    ReminderScheduler.process_reminders Sample.clock
      (Scenario.world Scenario.registry2 Scenario.read_store) = (Ok tt, w') ∧
    lookup (state_manager w') "user1" "1" = Some Scenario.read_state ∧
    ∃ new, deliveries w' = new ++ [] ∧ ∀ r, ("1", "user1", r) ∉ new.
Proof.
  split; [exact read_store_wf |].
  split; [reflexivity | split; [reflexivity |]].
  exact (sweep_skips_read_pair Sample.clock
           (Scenario.world Scenario.registry2 Scenario.read_store)
           "user1" "1" Scenario.read_state read_store_wf eq_refl eq_refl).
Defined.

Lemma sample_clock_before_tomorrow n :
  datetime.gt (Sample.clock n) (datetime.mk 738887 0 0 0 123456) = false.
Proof. reflexivity. Qed.

Lemma sweep_skips_snoozed_pair_witness :
  store_wf Scenario.snoozed_store ∧
  lookup Scenario.snoozed_store "user1" "1" = Some Scenario.snoozed_state ∧
  ∃ w',
    ReminderScheduler.process_reminders Sample.clock
      (Scenario.world Scenario.registry2 Scenario.snoozed_store) =
      (Ok tt, w') ∧
    lookup (state_manager w') "user1" "1" = Some Scenario.snoozed_state ∧
    ∃ new, deliveries w' = new ++ [] ∧ ∀ r, ("1", "user1", r) ∉ new.
Proof.
  split; [exact snoozed_store_wf |].
  split; [reflexivity |].
  exact (sweep_skips_snoozed_pair Sample.clock
           (Scenario.world Scenario.registry2 Scenario.snoozed_store)
           "user1" "1" Scenario.snoozed_state
           (datetime.mk 738887 0 0 0 123456)
           snoozed_store_wf eq_refl eq_refl eq_refl
           (λ n _, sample_clock_before_tomorrow n)).
Defined.

(** Within the minute that [Sample.clock] covers, two hours never pass. *)
Lemma sample_clock_within_frequency alert n :
  alert ∈ AlertManager.alerts
            (alert_manager
               (Scenario.world Scenario.registry2 Scenario.swept_store)) →
  timedelta.ge (datetime.sub (Sample.clock n) (Sample.clock 3))
    (Alert.reminder_frequency alert) = false.
Proof.
  intros Hin.
  assert (Hfreq : Alert.reminder_frequency alert = timedelta.of_hours 2).
  { cbn in Hin.
    apply elem_of_cons in Hin as [->|Hin]; [done|].
    by apply list_elem_of_singleton in Hin as ->. }
  rewrite Hfreq.
  destruct (timedelta.ge _ _) eqn:Hge; [|done].
  apply timedelta_ge_to_us in Hge;
    [|apply datetime_sub_wf | apply timedelta_make_wf].
  rewrite datetime_to_us_sub in Hge.
  unfold datetime.to_us, Sample.clock in Hge. cbn in Hge.
  change (timedelta.to_us (timedelta.of_hours 2)) with 7200000000%Z in Hge.
  lia.
Qed.

Lemma sweep_skips_throttled_pair_witness :
  store_wf Scenario.swept_store ∧
  lookup Scenario.swept_store "user1" "1" = Some Scenario.swept_state ∧
  ∃ w',
    ReminderScheduler.process_reminders Sample.clock
      (Scenario.world Scenario.registry2 Scenario.swept_store) = (Ok tt, w') ∧
    lookup (state_manager w') "user1" "1" = Some Scenario.swept_state ∧
    ∃ new, deliveries w' = new ++ [] ∧ ∀ r, ("1", "user1", r) ∉ new.
Proof.
  split; [exact swept_store_wf |].
  split; [reflexivity |].
  exact (sweep_skips_throttled_pair Sample.clock
           (Scenario.world Scenario.registry2 Scenario.swept_store)
           "user1" "1" Scenario.swept_state (Sample.clock 3)
           swept_store_wf eq_refl eq_refl eq_refl
           (λ alert n Hin _ _, sample_clock_within_frequency alert n Hin)).
Defined.
End QuietWitnesses.

Section DueReminders.
Context (clock : Clock).

Import World UserAlertStateManager UserAlertState.

Lemma sweep_frame_pair touched w w' :
  sweep_frame touched w w' → pair_frame (λ a _, touched a) w w'.
Proof.
  intros (Hwf & Hm & Ht & (new & Hd & Hnew) & Hl).
  split; [done | split; [done | split; [done | split]]].
  - exists new. split; [done|]. intros [[a u] r] Hin. by eapply Hnew.
  - intros u a Hna. by apply Hl.
Qed.

(** What does not touch a pair keeps it untouched, and keeps it
    reminded. *)
Lemma pair_untouched_frame touched w0 alert_id user_id w1 w2 :
  pair_frame touched w1 w2 → ¬ touched alert_id user_id →
  pair_untouched w0 alert_id user_id w1 →
  pair_untouched w0 alert_id user_id w2.
Proof.
  intros (Hwf2 & _ & Ht & (new2 & Hd2 & Hnew2) & Hl2) Hno
         (_ & Ht1 & Hl1 & new & Hd1 & Hnew).
  split; [done | split; [lia | split]].
  - by rewrite Hl2.
  - exists (new2 ++ new). split; [by rewrite Hd2, Hd1, (assoc (++)) |].
    intros r [Hin|Hin]%elem_of_app; [|by eapply Hnew].
    by apply Hnew2 in Hin.
Qed.

Lemma pair_reminded_frame touched w0 alert_id user_id state w1 w2 :
  pair_frame touched w1 w2 → ¬ touched alert_id user_id →
  pair_reminded clock w0 alert_id user_id state w1 →
  pair_reminded clock w0 alert_id user_id state w2.
Proof.
  intros (Hwf2 & _ & Ht & (new2 & Hd2 & Hnew2) & Hl2) Hno
         (_ & k & Hk & Hl1 & before & after & Hd1 & Hb & Ha).
  split; [done|]. exists k. split; [lia | split; [by rewrite Hl2 |]].
  exists before, (new2 ++ after).
  split; [by rewrite Hd2, Hd1, (assoc (++)) | split; [done|]].
  intros r [Hin|Hin]%elem_of_app; [|by eapply Ha].
  by apply Hnew2 in Hin.
Qed.

(** A loop over elements with distinct keys, whose body at [x] takes
    [Pre] to [Post] and at the other keys keeps both. *)
Lemma for_each_once {A K : Type} `{EqDecision K} (key : A → K)
    (body : A → M World.t unit) (Pre Post : World.t → Prop)
    (xs : list A) (x : A) :
  NoDup (key <$> xs) → x ∈ xs →
  (∀ w, Pre w → ∃ w', body x w = (Ok tt, w') ∧ Post w') →
  (∀ y w, y ∈ xs → key y ≠ key x → Pre w →
     ∃ w', body y w = (Ok tt, w') ∧ Pre w') →
  (∀ y w, y ∈ xs → key y ≠ key x → Post w →
     ∃ w', body y w = (Ok tt, w') ∧ Post w') →
  ∀ w, Pre w → ∃ w', for_each body xs w = (Ok tt, w') ∧ Post w'.
Proof.
  intros Hnd Hx Hat Hpre Hpost w HPre.
  destruct (for_each_prefix body
              (λ done v, (key x ∈ key <$> done → Post v) ∧
                         (key x ∉ key <$> done → Pre v)) xs)
    with (w := w) as (w' & Hrun & HR).
  - intros done y rest v Hxs [HPost' HPre'].
    assert (Hy : y ∈ xs).
    { rewrite Hxs. apply elem_of_app. right. left. }
    rewrite Hxs, fmap_app, fmap_cons in Hnd.
    apply NoDup_app in Hnd as (_ & Hdisj & [Hrest _]%NoDup_cons).
    rewrite fmap_app. cbn [fmap list_fmap].
    destruct (decide (key y = key x)) as [Hkey|Hne].
    + assert (y = x) as ->.
      { rewrite Hxs in Hx.
        apply elem_of_app in Hx as [Hin|[->|Hin]%elem_of_cons]; [|done|].
        - destruct (Hdisj (key x)); [by apply list_elem_of_fmap_2 |].
          rewrite <- Hkey. left.
        - destruct Hrest. rewrite Hkey. by apply list_elem_of_fmap_2. }
      assert (Hnot : key x ∉ key <$> done).
      { intros Hin. apply (Hdisj _ Hin). left. }
      destruct (Hat v (HPre' Hnot)) as (v' & Hrun & HP).
      exists v'. split; [done|]. split; [done|].
      intros Hn. destruct Hn. apply elem_of_app. right. left.
    + destruct (decide (key x ∈ key <$> done)) as [Hin|Hnot].
      * destruct (Hpost y v Hy Hne (HPost' Hin)) as (v' & Hrun & HP).
        exists v'. split; [done|]. split; [done|].
        intros Hn. destruct Hn. apply elem_of_app. by left.
      * destruct (Hpre y v Hy Hne (HPre' Hnot)) as (v' & Hrun & HP).
        exists v'. split; [done|]. split; [|done].
        intros [Hin|Hin%list_elem_of_singleton]%elem_of_app; done.
  - split; [by intros ?%elem_of_nil | done].
  - exists w'. split; [done|]. apply HR. by apply list_elem_of_fmap_2.
Qed.

(** The turn of a due pair: delivered and stamped. *)
Lemma remind_due w0 alert user_id state w1 :
  NotificationDelivery.deliver_result alert user_id = true →
  (lookup (state_manager w0) user_id (Alert.id alert) = Some state ∨
   lookup (state_manager w0) user_id (Alert.id alert) = None ∧
   state = fresh user_id (Alert.id alert)) →
  (∀ n, (ticks w0 ≤ n)%nat →
     ∃ n', should_receive_reminder clock state alert n =
             (Ok (true, state), n')) →
  pair_untouched w0 (Alert.id alert) user_id w1 →
  ∃ w2,
    ReminderScheduler.remind clock alert user_id w1 = (Ok tt, w2) ∧
    pair_reminded clock w0 (Alert.id alert) user_id state w2.
Proof.
  intros Hdel Hstate Hdue (Hwf1 & Ht1 & Hl1 & new & Hd1 & Hnew).
  destruct (get_state_total (state_manager w1) user_id (Alert.id alert))
    as (state0 & m1 & Hget & _ & _).
  assert (state0 = state) as ->.
  { destruct Hstate as [Hsome|[Hnone ->]]; rewrite <- Hl1 in *.
    - rewrite (get_state_existing _ _ _ _ Hsome) in Hget. congruence.
    - rewrite (get_state_new _ _ _ Hnone) in Hget. congruence. }
  destruct (get_state_wf _ _ _ _ _ Hwf1 Hget) as (Hwfm & Hu0 & Ha0).
  destruct (Hdue (ticks w1) Ht1) as (n' & Hcheck).
  destruct (should_receive_reminder_total clock state alert (ticks w1))
    as (d & s & m & Hcheck' & Hle & _).
  rewrite Hcheck in Hcheck'. injection Hcheck' as <- <- <-.
  eexists.
  rewrite (remind_run clock w1 alert user_id _ _ _ _ _ Hget Hcheck), Hdel.
  split; [reflexivity |]. cbv zeta.
  rewrite Hu0, Ha0, store_store, with_user_store, store_store.
  split.
  - cbn. by apply store_wf_store.
  - exists n'. cbn [ticks state_manager deliveries].
    split; [lia | split; [apply lookup_store_eq |]].
    exists new, []. split; [by rewrite Hd1 | split; [done |]].
    by intros r ?%elem_of_nil.
Qed.
End DueReminders.

Section DueSweep.
Context (clock : Clock).

Import World UserAlertStateManager UserAlertState.

(** A pair that is due at every reading of the sweep, for a live alert
    with reminders enabled and a working channel, is delivered to once and
    stamped. *)
Lemma sweep_delivers_due w i alert user_id state :
  store_wf (state_manager w) →
  NoDup (Alert.id <$> AlertManager.alerts (alert_manager w)) →
  AlertManager.alerts (alert_manager w) !! i = Some alert →
  Alert.is_active_at alert (clock (ticks w + i)%nat) = true →
  Alert.reminders_enabled alert = true →
  NotificationDelivery.deliver_result alert user_id = true →
  user_id ∈ VisibilityConfig.get_target_users (Alert.visibility_config alert)
              (AlertManager.user_repository (alert_manager w)) →
  (lookup (state_manager w) user_id (Alert.id alert) = Some state ∨
   lookup (state_manager w) user_id (Alert.id alert) = None ∧
   state = fresh user_id (Alert.id alert)) →
  (∀ n, (ticks w ≤ n)%nat →
     ∃ n', should_receive_reminder clock state alert n =
             (Ok (true, state), n')) →
  ∃ w',
    ReminderScheduler.process_reminders clock w = (Ok tt, w') ∧
    pair_reminded clock w (Alert.id alert) user_id state w'.
Proof.
  intros Hwf Hnd Hi Hlive Hen Hdel Hu Hstate Hdue.
  unfold ReminderScheduler.process_reminders. run_m.
  unfold get_alert_manager, on_clock, AlertManager.get_active_alerts.
  rewrite get_active_alerts_live.
  apply (for_each_once Alert.id _
           (pair_untouched w (Alert.id alert) user_id)
           (pair_reminded clock w (Alert.id alert) user_id state)
           _ alert).
  - refine (sublist_NoDup _ _ Hnd _).
    apply (fmap_sublist Alert.id), live_alerts_sublist.
  - apply elem_of_live_alerts. by exists i.
  - intros v HPre. unfold ReminderScheduler.remind_audience.
    rewrite Hen. cbn [negb].
    apply (for_each_once (λ u : string, u) _
             (pair_untouched w (Alert.id alert) user_id)
             (pair_reminded clock w (Alert.id alert) user_id state)
             _ user_id); [| | |..|done].
    + rewrite list_fmap_id. apply NoDup_elements.
    + by apply elem_of_elements.
    + intros v1 HPre1. by apply remind_due.
    + intros y v1 _ Hne HP1.
      destruct (remind_pair_frame clock alert y v1 (proj1 HP1))
        as (v2 & Hrun & Hf & _).
      exists v2. split; [done|].
      eapply pair_untouched_frame; [exact Hf | | done]. by intros [_ ->].
    + intros y v1 _ Hne HP1.
      destruct (remind_pair_frame clock alert y v1 (proj1 HP1))
        as (v2 & Hrun & Hf & _).
      exists v2. split; [done|].
      eapply pair_reminded_frame; [exact Hf | | done]. by intros [_ ->].
  - intros y v _ Hne HP.
    destruct (remind_audience_frame clock
                (AlertManager.user_repository (alert_manager w)) y v
                (proj1 HP)) as (v2 & Hrun & Hf%sweep_frame_pair).
    exists v2. split; [done|].
    eapply pair_untouched_frame; [exact Hf | | done].
    intros [_ Heq]. by apply Hne.
  - intros y v _ Hne HP.
    destruct (remind_audience_frame clock
                (AlertManager.user_repository (alert_manager w)) y v
                (proj1 HP)) as (v2 & Hrun & Hf%sweep_frame_pair).
    exists v2. split; [done|].
    eapply pair_reminded_frame; [exact Hf | | done].
    intros [_ Heq]. by apply Hne.
  - split; [done | split; [cbn; lia | split; [done |]]].
    exists []. split; [done|]. by intros r ?%elem_of_nil.
Qed.
End DueSweep.

Section DueExtras.
Import World UserAlertStateManager UserAlertState.

(** X9 (first reminder).  Take an alert of a registry with distinct ids
    that is live at the reading the sweep takes for it, has reminders
    enabled and a delivery type with a channel, and a recipient in its
    resolved audience whose state is missing, or unread with no reminder
    sent yet.  The sweep records exactly one delivery for the pair, a
    successful one, and leaves the pair's state unread with
    last-reminder-sent set to a clock reading taken during the sweep. *)
Theorem sweep_delivers_first_reminder (clock : Clock) (w : World.t) (i : nat)
    (alert : Alert.t) (user_id : string) :
  store_wf (state_manager w) →
  NoDup (Alert.id <$> AlertManager.alerts (alert_manager w)) →
  AlertManager.alerts (alert_manager w) !! i = Some alert →
  Alert.is_active_at alert (clock (ticks w + i)%nat) = true →
  Alert.reminders_enabled alert = true →
  Alert.delivery_type alert ≠ SMS →
  user_id ∈ VisibilityConfig.get_target_users (Alert.visibility_config alert)
              (AlertManager.user_repository (alert_manager w)) →
  (lookup (state_manager w) user_id (Alert.id alert) = None ∨
   ∃ state,
     lookup (state_manager w) user_id (Alert.id alert) = Some state ∧
     status state = UNREAD ∧ last_reminder_sent state = None) →
  ∃ w' k state',
    ReminderScheduler.process_reminders clock w = (Ok tt, w') ∧
    (ticks w ≤ k < ticks w')%nat ∧
    lookup (state_manager w') user_id (Alert.id alert) = Some state' ∧
    status state' = UNREAD ∧
    last_reminder_sent state' = Some (clock k) ∧
    ∃ before after,
      deliveries w' =
        after ++ (Alert.id alert, user_id, true) :: before ++ deliveries w ∧
      (∀ r, (Alert.id alert, user_id, r) ∉ before) ∧
      (∀ r, (Alert.id alert, user_id, r) ∉ after).
Proof.
  intros Hwf Hnd Hi Hlive Hen Hsms Hu Hstate.
  assert (Hdel : NotificationDelivery.deliver_result alert user_id = true).
  { unfold NotificationDelivery.deliver_result.
    by destruct (Alert.delivery_type alert). }
  assert (∃ state,
    (lookup (state_manager w) user_id (Alert.id alert) = Some state ∨
     lookup (state_manager w) user_id (Alert.id alert) = None ∧
     state = fresh user_id (Alert.id alert)) ∧
    status state = UNREAD ∧ last_reminder_sent state = None)
    as (state & Hcase & Hst & Hlast).
  { destruct Hstate as [Hnone|(state & Hsome & Hst & Hlast)].
    - exists (fresh user_id (Alert.id alert)). split; [by right | done].
    - exists state. split; [by left | done]. }
  destruct (sweep_delivers_due clock w i alert user_id state)
    as (w' & Hrun & _ & k & Hk & Hl & Htrace); try done.
  { intros n _. exists n.
    rewrite should_receive_reminder_not_snoozed by congruence.
    apply reminder_due_first; congruence. }
  by exists w', k, (set_last_reminder_sent state (clock k)).
Qed.

(** X10 (next reminder).  With the alert and the recipient as for the
    first reminder, on a clock that does not run backwards: when the
    pair's state is unread and the time since its last reminder has reached
    the reminder frequency at the start of the sweep, the sweep records
    exactly one delivery for the pair, a successful one, and the state it
    files for the pair is unread with last-reminder-sent equal to a clock
    reading taken during the sweep, at least the reminder frequency after
    the old one, and snoozed-until and read-at as they were. *)
Theorem sweep_repeats_due_reminder (clock : Clock) (w : World.t) (i : nat)
    (alert : Alert.t) (user_id : string) (state : UserAlertState.t)
    (last : datetime.t) :
  clock_ok clock →
  store_wf (state_manager w) →
  NoDup (Alert.id <$> AlertManager.alerts (alert_manager w)) →
  AlertManager.alerts (alert_manager w) !! i = Some alert →
  Alert.is_active_at alert (clock (ticks w + i)%nat) = true →
  Alert.reminders_enabled alert = true →
  Alert.delivery_type alert ≠ SMS →
  user_id ∈ VisibilityConfig.get_target_users (Alert.visibility_config alert)
              (AlertManager.user_repository (alert_manager w)) →
  lookup (state_manager w) user_id (Alert.id alert) = Some state →
  status state = UNREAD →
  last_reminder_sent state = Some last →
  timedelta.ge (datetime.sub (clock (ticks w)) last)
    (Alert.reminder_frequency alert) = true →
  ∃ w' k,
    ReminderScheduler.process_reminders clock w = (Ok tt, w') ∧
    (ticks w ≤ k < ticks w')%nat ∧
    lookup (state_manager w') user_id (Alert.id alert) =
      Some (mk user_id (Alert.id alert) UNREAD (Some (clock k))
              (snoozed_until state) (read_at state)) ∧
    timedelta.ge (datetime.sub (clock k) last)
      (Alert.reminder_frequency alert) = true ∧
    ∃ before after,
      deliveries w' =
        after ++ (Alert.id alert, user_id, true) :: before ++ deliveries w ∧
      (∀ r, (Alert.id alert, user_id, r) ∉ before) ∧
      (∀ r, (Alert.id alert, user_id, r) ∉ after).
Proof.
  intros Hok Hwf Hnd Hi Hlive Hen Hsms Hu Hl Hst Hlast Hge.
  assert (Hdel : NotificationDelivery.deliver_result alert user_id = true).
  { unfold NotificationDelivery.deliver_result.
    by destruct (Alert.delivery_type alert). }
  destruct (sweep_delivers_due clock w i alert user_id state)
    as (w' & Hrun & _ & k & Hk & Hl' & Htrace); try done; [by left | |].
  { intros n Hle. exists (S n).
    rewrite should_receive_reminder_not_snoozed by congruence.
    rewrite (reminder_due_throttled clock _ alert n last) by congruence.
    do 3 f_equal.
    eapply timedelta_ge_trans; [|exact Hge]. by apply elapsed_mono. }
  exists w', k. split; [done | split; [done | split; [|split; [|done]]]].
  - destruct (Hwf _ _ _ Hl) as [Hu0 Ha0].
    rewrite Hl'. unfold set_last_reminder_sent.
    by rewrite Hu0, Ha0, Hst.
  - eapply timedelta_ge_trans; [|exact Hge]. apply elapsed_mono; [done | lia].
Qed.
End DueExtras.

Section DueWitnesses.
Import World UserAlertStateManager UserAlertState.

Lemma registry2_ids_nodup :
  NoDup (Alert.id <$>
         AlertManager.alerts (AlertRegistry.manager Scenario.registry2)).
Proof.
  cbn [AlertRegistry.manager AlertManager.alerts].
  rewrite registry_wf_ids by apply built_wf, built_registry2.
  apply registry_wf_keys_nodup, built_wf, built_registry2.
Qed.

Lemma user1_in_organization :
  "user1" ∈ VisibilityConfig.get_target_users
              VisibilityConfig.OrganizationVisibility UserRepository.init.
Proof. apply elem_of_dom. by eexists. Qed.

Lemma sweep_delivers_first_reminder_witness :
  store_wf UserAlertStateManager.init ∧
  AlertManager.alerts (AlertRegistry.manager Scenario.registry2) !! 0%nat =
    Some Sample.in_app_alert ∧
  Alert.is_active_at Sample.in_app_alert (Sample.clock 0) = true ∧
  lookup UserAlertStateManager.init "user1" "1" = None ∧
  ∃ w' k state',
    ReminderScheduler.process_reminders Sample.clock
      (Scenario.world Scenario.registry2 UserAlertStateManager.init) =
      (Ok tt, w') ∧
    (0 ≤ k < ticks w')%nat ∧
    lookup (state_manager w') "user1" "1" = Some state' ∧
    status state' = UNREAD ∧
    last_reminder_sent state' = Some (Sample.clock k) ∧
    ∃ before after,
      deliveries w' = after ++ ("1", "user1", true) :: before ++ [] ∧
      (∀ r, ("1", "user1", r) ∉ before) ∧
      (∀ r, ("1", "user1", r) ∉ after).
Proof.
  assert (Hsms : Alert.delivery_type Sample.in_app_alert ≠ SMS)
    by (intros [=]).
  split; [exact store_wf_empty |].
  split; [reflexivity | split; [reflexivity | split; [reflexivity |]]].
  exact (sweep_delivers_first_reminder Sample.clock
           (Scenario.world Scenario.registry2 UserAlertStateManager.init)
           0 Sample.in_app_alert "user1"
           store_wf_empty registry2_ids_nodup eq_refl eq_refl eq_refl Hsms
           user1_in_organization (or_introl eq_refl)).
Defined.

Lemma sweep_repeats_due_reminder_witness :
  clock_ok Sample.clock ∧
  store_wf Scenario.stale_store ∧
  lookup Scenario.stale_store "user1" "1" = Some Scenario.stale_state ∧
  timedelta.ge
    (datetime.sub (Sample.clock 0) (datetime.mk 738886 8 0 0 0))
    (Alert.reminder_frequency Sample.in_app_alert) = true ∧
  ∃ w' k,
    ReminderScheduler.process_reminders Sample.clock
      (Scenario.world Scenario.registry2 Scenario.stale_store) = (Ok tt, w') ∧
    (0 ≤ k < ticks w')%nat ∧
    lookup (state_manager w') "user1" "1" =
      Some (mk "user1" "1" UNREAD (Some (Sample.clock k)) None None) ∧
    timedelta.ge
      (datetime.sub (Sample.clock k) (datetime.mk 738886 8 0 0 0))
      (Alert.reminder_frequency Sample.in_app_alert) = true ∧
    ∃ before after,
      deliveries w' = after ++ ("1", "user1", true) :: before ++ [] ∧
      (∀ r, ("1", "user1", r) ∉ before) ∧
      (∀ r, ("1", "user1", r) ∉ after).
Proof.
  assert (Hsms : Alert.delivery_type Sample.in_app_alert ≠ SMS)
    by (intros [=]).
  split; [exact sample_clock_ok |].
  split; [exact stale_store_wf |].
  split; [reflexivity | split; [reflexivity |]].
  exact (sweep_repeats_due_reminder Sample.clock
           (Scenario.world Scenario.registry2 Scenario.stale_store)
           0 Sample.in_app_alert "user1" Scenario.stale_state
           (datetime.mk 738886 8 0 0 0)
           sample_clock_ok stale_store_wf registry2_ids_nodup
           eq_refl eq_refl eq_refl Hsms user1_in_organization
           eq_refl eq_refl eq_refl eq_refl).
Defined.
End DueWitnesses.

Section AtMostOnce.
Context (clock : Clock).

Import World UserAlertStateManager.

(** The recipients of one alert: at most one delivery each, all for that
    alert and for users gone through. *)
Lemma remind_each_once alert (users : list string) w :
  NoDup users →
  store_wf (state_manager w) →
  ∃ w' new,
    for_each (ReminderScheduler.remind clock alert) users w = (Ok tt, w') ∧
    store_wf (state_manager w') ∧
    deliveries w' = new ++ deliveries w ∧
    NoDup (delivery_pair <$> new) ∧
    ∀ d, d ∈ new →
      (delivery_pair d).1 = Alert.id alert ∧ (delivery_pair d).2 ∈ users.
Proof.
  intros Hnd Hwf.
  destruct (for_each_prefix (ReminderScheduler.remind clock alert)
    (λ done v,
       store_wf (state_manager v) ∧
       ∃ new, deliveries v = new ++ deliveries w ∧
              NoDup (delivery_pair <$> new) ∧
              ∀ d, d ∈ new →
                (delivery_pair d).1 = Alert.id alert ∧
                (delivery_pair d).2 ∈ done) users) with (w := w)
    as (w' & Hrun & Hwf' & new & Hd & Hnew & Hall).
  - intros done u rest v Hxs (Hwfv & new & Hd & Hnew & Hall).
    assert (Hu : u ∉ done).
    { rewrite Hxs in Hnd. apply NoDup_app in Hnd as (_ & Hdisj & _).
      intros Hin. apply (Hdisj u Hin). left. }
    destruct (remind_pair_frame clock alert u v Hwfv)
      as (v' & Hrunv & (Hwfv' & _) & [Hsame|[r Hone]]).
    + exists v'. split; [done|]. split; [done|]. exists new.
      split; [congruence | split; [done|]].
      intros d Hin. destruct (Hall d Hin) as [? ?].
      split; [done|]. apply elem_of_app. by left.
    + exists v'. split; [done|]. split; [done|].
      exists ((Alert.id alert, u, r) :: new).
      split; [by rewrite Hone, Hd | split].
      * cbn. apply NoDup_cons. split; [|done].
        intros (d & Heq & Hin)%list_elem_of_fmap.
        destruct (Hall d Hin) as [_ Hdone]. rewrite <- Heq in Hdone.
        by apply Hu.
      * intros d [->|Hin]%elem_of_cons.
        -- split; [done|]. apply elem_of_app. right. left.
        -- destruct (Hall d Hin) as [? ?].
           split; [done|]. apply elem_of_app. by left.
  - split; [done|]. exists []. split; [done | split; [constructor|]].
    by intros d ?%elem_of_nil.
  - by exists w', new.
Qed.

(** The sweep of a list of alerts with distinct ids. *)
Lemma remind_audiences_once user_repository (alerts : list Alert.t) w :
  NoDup (Alert.id <$> alerts) →
  store_wf (state_manager w) →
  ∃ w' new,
    for_each (ReminderScheduler.remind_audience clock user_repository)
      alerts w = (Ok tt, w') ∧
    deliveries w' = new ++ deliveries w ∧
    NoDup (delivery_pair <$> new) ∧
    ∀ d, d ∈ new →
      ∃ alert,
        alert ∈ alerts ∧ Alert.reminders_enabled alert = true ∧
        Alert.id alert = (delivery_pair d).1 ∧
        (delivery_pair d).2 ∈
          VisibilityConfig.get_target_users (Alert.visibility_config alert)
            user_repository.
Proof.
  intros Hnd Hwf.
  destruct (for_each_prefix
    (ReminderScheduler.remind_audience clock user_repository)
    (λ done v,
       store_wf (state_manager v) ∧
       ∃ new, deliveries v = new ++ deliveries w ∧
              NoDup (delivery_pair <$> new) ∧
              ∀ d, d ∈ new →
                ∃ alert,
                  alert ∈ done ∧ Alert.reminders_enabled alert = true ∧
                  Alert.id alert = (delivery_pair d).1 ∧
                  (delivery_pair d).2 ∈
                    VisibilityConfig.get_target_users
                      (Alert.visibility_config alert) user_repository)
    alerts) with (w := w) as (w' & Hrun & _ & new & Hd & Hnew & Hall).
  - intros done x rest v Hxs (Hwfv & new & Hd & Hnew & Hall).
    assert (Hx : Alert.id x ∉ Alert.id <$> done).
    { rewrite Hxs, fmap_app in Hnd.
      apply NoDup_app in Hnd as (_ & Hdisj & _).
      intros Hin. apply (Hdisj _ Hin). left. }
    assert (Hkeep : ∀ d, d ∈ new →
      ∃ alert,
        alert ∈ done ++ [x] ∧ Alert.reminders_enabled alert = true ∧
        Alert.id alert = (delivery_pair d).1 ∧
        (delivery_pair d).2 ∈
          VisibilityConfig.get_target_users
            (Alert.visibility_config alert) user_repository).
    { intros d Hin. destruct (Hall d Hin) as (b & Hb & ?).
      exists b. split; [|done]. apply elem_of_app. by left. }
    unfold ReminderScheduler.remind_audience.
    destruct (Alert.reminders_enabled x) eqn:Hen; cbn [negb].
    + destruct (remind_each_once x
                  (elements (VisibilityConfig.get_target_users
                               (Alert.visibility_config x) user_repository))
                  v (NoDup_elements _) Hwfv)
        as (v' & newx & Hrunx & Hwfv' & Hdx & Hndx & Hallx).
      exists v'. split; [done|]. split; [done|].
      exists (newx ++ new).
      split; [by rewrite Hdx, Hd, (assoc (++)) | split].
      * rewrite fmap_app. apply NoDup_app. split; [done | split; [|done]].
        intros p (d1 & -> & Hin1)%list_elem_of_fmap
                 (d2 & Heq & Hin2)%list_elem_of_fmap.
        destruct (Hallx d1 Hin1) as [Hid1 _].
        destruct (Hall d2 Hin2) as (b & Hb & _ & Hidb & _).
        apply Hx. apply list_elem_of_fmap. exists b.
        split; [congruence | done].
      * intros d [Hin|Hin]%elem_of_app; [|by apply Hkeep].
        destruct (Hallx d Hin) as [Hid Hu].
        exists x. split; [apply elem_of_app; right; left |].
        split; [done | split; [done |]]. by apply elem_of_elements.
    + exists v. split; [done|]. split; [done|]. by exists new.
  - split; [done|]. exists []. split; [done | split; [constructor|]].
    by intros d ?%elem_of_nil.
  - by exists w', new.
Qed.
End AtMostOnce.

Section AtMostOnceExtras.
Import World UserAlertStateManager.

(** X11 (no double delivery).  A sweep over a registry with distinct
    alert ids runs to its end, and the deliveries it records are at most
    one for each (alert, recipient) pair, each for an alert of the registry
    with reminders enabled and a recipient in the resolved audience of
    that alert. *)
Theorem sweep_delivers_at_most_once (clock : Clock) (w : World.t) :
  store_wf (state_manager w) →
  NoDup (Alert.id <$> AlertManager.alerts (alert_manager w)) →
  ∃ w' new,
    ReminderScheduler.process_reminders clock w = (Ok tt, w') ∧
    deliveries w' = new ++ deliveries w ∧
    NoDup (delivery_pair <$> new) ∧
    ∀ d, d ∈ new →
      ∃ alert,
        alert ∈ AlertManager.alerts (alert_manager w) ∧
        Alert.reminders_enabled alert = true ∧
        Alert.id alert = (delivery_pair d).1 ∧
        (delivery_pair d).2 ∈
          VisibilityConfig.get_target_users (Alert.visibility_config alert)
            (AlertManager.user_repository (alert_manager w)).
Proof.
  intros Hwf Hnd.
  unfold ReminderScheduler.process_reminders. run_m.
  unfold get_alert_manager, on_clock, AlertManager.get_active_alerts.
  rewrite get_active_alerts_live.
  destruct (remind_audiences_once clock
              (AlertManager.user_repository (alert_manager w))
              (live_alerts clock (ticks w)
                 (AlertManager.alerts (alert_manager w)))
              (with_ticks
                 (ticks w + length (AlertManager.alerts (alert_manager w))) w))
    as (w' & new & Hrun & Hd & Hnew & Hall); [|done|].
  - refine (sublist_NoDup _ _ Hnd _).
    apply (fmap_sublist Alert.id), live_alerts_sublist.
  - exists w', new. split; [done | split; [done | split; [done|]]].
    intros d Hin. destruct (Hall d Hin) as (alert & Ha & ?).
    exists alert. split; [|done].
    eapply elem_of_sublist; [done | apply live_alerts_sublist].
Qed.

Lemma sweep_delivers_at_most_once_witness :
  store_wf Scenario.stale_store ∧
  NoDup (Alert.id <$>
         AlertManager.alerts (AlertRegistry.manager Scenario.registry2)) ∧
  ∃ w' new,
    ReminderScheduler.process_reminders Sample.clock
      (Scenario.world Scenario.registry2 Scenario.stale_store) = (Ok tt, w') ∧
    deliveries w' = new ++ [] ∧
    NoDup (delivery_pair <$> new).
Proof.
  split; [exact stale_store_wf | split; [exact registry2_ids_nodup |]].
  destruct (sweep_delivers_at_most_once Sample.clock
              (Scenario.world Scenario.registry2 Scenario.stale_store)
              stale_store_wf registry2_ids_nodup)
    as (w' & new & Hrun & Hd & Hnew & _).
  exists w', new. split; [exact Hrun | split; [exact Hd | exact Hnew]].
Defined.
End AtMostOnceExtras.

(** * An invariant of the stored states *)

Section StoredStates.
Context (clock : Clock).

Import World UserAlertStateManager.

Lemma states_ok_store (P : UserAlertState.t → Prop) m user_id alert_id state :
  P state → states_ok P m → states_ok P (store user_id alert_id state m).
Proof.
  intros HP Hok u a s.
  destruct (decide ((user_id, alert_id) = (u, a))) as [[= <- <-]|Hne].
  - rewrite lookup_store_eq. by intros [= <-].
  - rewrite lookup_store_ne by done. apply Hok.
Qed.

Lemma states_ok_with_user (P : UserAlertState.t → Prop) m user_id :
  states_ok P m → states_ok P (with_user user_id m).
Proof. intros Hok u a s. rewrite lookup_with_user. apply Hok. Qed.

Lemma states_ok_get_state (P : UserAlertState.t → Prop) m user_id alert_id
    state m' :
  P (UserAlertState.fresh user_id alert_id) →
  states_ok P m →
  get_state user_id alert_id m = (Ok state, m') →
  P state ∧ states_ok P m'.
Proof.
  intros Hfresh Hok.
  destruct (lookup m user_id alert_id) as [s|] eqn:Hl.
  - rewrite (get_state_existing _ _ _ _ Hl). intros [= <- <-].
    split; [by eapply Hok | done].
  - rewrite (get_state_new _ _ _ Hl). intros [= <- <-].
    split; [done|]. by apply states_ok_store, states_ok_with_user.
Qed.

(** [remind] keeps a property of states that fresh states have and that
    the check and the stamp keep. *)
Lemma remind_states_ok (P : UserAlertState.t → Prop) alert user_id w :
  (∀ u a, P (UserAlertState.fresh u a)) →
  (∀ s n d s' n',
     P s →
     UserAlertState.should_receive_reminder clock s alert n =
       (Ok (d, s'), n') →
     P s') →
  (∀ s t, P s → P (UserAlertState.set_last_reminder_sent s t)) →
  store_wf (state_manager w) ∧ states_ok P (state_manager w) →
  ∃ w',
    ReminderScheduler.remind clock alert user_id w = (Ok tt, w') ∧
    store_wf (state_manager w') ∧ states_ok P (state_manager w').
Proof.
  intros Hfresh Hcheck Hstamp [Hwf Hok].
  destruct (get_state_total (state_manager w) user_id (Alert.id alert))
    as (state0 & m1 & Hget & _ & _).
  destruct (states_ok_get_state P _ _ _ _ _ (Hfresh _ _) Hok Hget)
    as [HP0 Hok1].
  destruct (should_receive_reminder_total clock state0 alert (ticks w))
    as (due & state1 & n1 & Hrun & _).
  assert (HP1 : P state1) by (by eapply Hcheck).
  destruct (remind_pair_frame clock alert user_id w Hwf)
    as (w' & Hremind & (Hwf' & _) & _).
  exists w'. split; [done | split; [done|]].
  rewrite (remind_run clock w alert user_id _ _ _ _ _ Hget Hrun) in Hremind.
  injection Hremind as <-.
  destruct due; [destruct (NotificationDelivery.deliver_result _ _)|];
    cbn [state_manager];
    repeat (apply states_ok_store || apply states_ok_with_user); auto.
Qed.

Lemma process_reminders_states_ok (P : UserAlertState.t → Prop) w :
  (∀ u a, P (UserAlertState.fresh u a)) →
  (∀ alert s n d s' n',
     P s →
     UserAlertState.should_receive_reminder clock s alert n =
       (Ok (d, s'), n') →
     P s') →
  (∀ s t, P s → P (UserAlertState.set_last_reminder_sent s t)) →
  store_wf (state_manager w) → states_ok P (state_manager w) →
  ∃ w',
    ReminderScheduler.process_reminders clock w = (Ok tt, w') ∧
    states_ok P (state_manager w').
Proof.
  intros Hfresh Hcheck Hstamp Hwf Hok.
  destruct (process_reminders_inv clock
              (λ v, store_wf (state_manager v) ∧
                    states_ok P (state_manager v)) w)
    as (w' & Hrun & _ & Hok'); [done | | done |].
  - intros alert u v _ Hv. apply remind_states_ok; eauto.
  - by exists w'.
Qed.

(** A recipient action keeps a property that fresh states have and that
    the method establishes or keeps. *)
Lemma action_states_ok (P : UserAlertState.t → Prop)
    (method : UserAlertState.t → M nat UserAlertState.t)
    user_id alert_id w :
  P (UserAlertState.fresh user_id alert_id) →
  (∀ self n self' n', P self → method self n = (Ok self', n') → P self') →
  states_ok P (state_manager w) →
  states_ok P (state_manager (snd (
    (state ← on_states (get_state user_id alert_id);
     state ← on_clock (method state);
     mutate user_id alert_id state;;
     on_states (update_state state)) w))).
Proof.
  intros Hfresh Hmethod Hok. run_m.
  destruct (get_state_total (state_manager w) user_id alert_id)
    as (state0 & m1 & Hget & _ & _).
  destruct (states_ok_get_state P _ _ _ _ _ Hfresh Hok Hget) as [HP0 Hok1].
  unfold on_states at 1. rewrite Hget.
  unfold on_clock. cbn [ticks with_state_manager].
  destruct (method state0 (ticks w)) as [[state1|e] n1] eqn:Hm; [|done].
  unfold mutate, on_states. cbn -[store with_user].
  assert (P state1) by (by eapply Hmethod).
  repeat (apply states_ok_store || apply states_ok_with_user); auto.
Qed.
End StoredStates.

Section StoredStatesExtras.
Import World UserAlertStateManager.

(** X12 (snoozed states have a deadline).  In every state that the
    system can reach from an empty store by recipient actions, sweeps and
    changes of the registry, each stored notification state whose status
    is snoozed has snoozed-until set. *)
Theorem reachable_snoozed_has_until (clock : Clock) (w : World.t) :
  reachable clock w → states_ok snoozed_has_until (state_manager w).
Proof.
  induction 1 as [manager n| w u a Hr IH | w u a Hr IH | w Hr IH
                  | w manager Hr IH].
  - intros u a s. cbn [state_manager]. unfold lookup, init.
    by rewrite lookup_empty.
  - apply (action_states_ok snoozed_has_until
             (UserAlertState.snooze_until_tomorrow clock)); [done | | done].
    intros self n self' n' _. apply snooze_snoozed_has_until.
  - apply (action_states_ok snoozed_has_until
             (UserAlertState.mark_read clock)); [done | | done].
    intros self n self' n' _. apply mark_read_snoozed_has_until.
  - destruct (process_reminders_states_ok clock snoozed_has_until w)
      as (w' & Hrun & Hok); try done.
    + intros alert s n d s' n'. apply check_snoozed_has_until.
    + by apply (reachable_store_wf clock).
    + unfold AlertingSystem.process_reminders. by rewrite Hrun.
  - done.
Qed.

Lemma reachable_snoozed_has_until_witness :
  reachable Sample.clock
    (snd (AlertingSystem.snooze_alert Sample.clock "user1" "1"
            (Scenario.world Scenario.registry2 UserAlertStateManager.init))) ∧
  states_ok snoozed_has_until Scenario.snoozed_store.
Proof.
  assert (Hr : reachable Sample.clock
    (snd (AlertingSystem.snooze_alert Sample.clock "user1" "1"
            (Scenario.world Scenario.registry2 UserAlertStateManager.init))))
    by apply reachable_snooze, reachable_init.
  split; [exact Hr |].
  exact (reachable_snoozed_has_until Sample.clock _ Hr).
Defined.
End StoredStatesExtras.

(** * The recipient actions on the system *)

Section Actions.
Context (clock : Clock).

Import World UserAlertStateManager.

(** A recipient action whose method returns: the store after it. *)
Lemma action_run (method : UserAlertState.t → M nat UserAlertState.t)
    user_id alert_id w state0 m1 state1 n1 :
  store_wf (state_manager w) →
  get_state user_id alert_id (state_manager w) = (Ok state0, m1) →
  method state0 (ticks w) = (Ok state1, n1) →
  UserAlertState.user_id state1 = UserAlertState.user_id state0 →
  UserAlertState.alert_id state1 = UserAlertState.alert_id state0 →
  (state ← on_states (get_state user_id alert_id);
   state ← on_clock (method state);
   mutate user_id alert_id state;;
   on_states (update_state state)) w =
  (Ok tt,
   {| alert_manager := alert_manager w;
      state_manager := store user_id alert_id state1 m1;
      ticks := n1;
      deliveries := deliveries w |}).
Proof.
  intros Hwf Hget Hm Hu1 Ha1. run_m.
  destruct (get_state_wf _ _ _ _ _ Hwf Hget) as (Hwf1 & Hu0 & Ha0).
  unfold on_states at 1. rewrite Hget.
  unfold on_clock. cbn [ticks with_state_manager]. rewrite Hm.
  unfold mutate, on_states. cbn -[store with_user].
  by rewrite Hu1, Ha1, Hu0, Ha0, with_user_store, store_store.
Qed.

(** A recipient action whose method raises: only the fetch shows. *)
Lemma action_raise (method : UserAlertState.t → M nat UserAlertState.t)
    user_id alert_id w state0 m1 e n1 :
  get_state user_id alert_id (state_manager w) = (Ok state0, m1) →
  method state0 (ticks w) = (Raise e, n1) →
  (state ← on_states (get_state user_id alert_id);
   state ← on_clock (method state);
   mutate user_id alert_id state;;
   on_states (update_state state)) w =
  (Raise e,
   {| alert_manager := alert_manager w;
      state_manager := m1;
      ticks := n1;
      deliveries := deliveries w |}).
Proof.
  intros Hget Hm. run_m.
  unfold on_states at 1. rewrite Hget.
  unfold on_clock. cbn [ticks with_state_manager]. by rewrite Hm.
Qed.

(** The state that an action works on: the one stored for the pair, or a
    new unread one. *)
Lemma get_state_found m user_id alert_id :
  ∃ state0 m1,
    get_state user_id alert_id m = (Ok state0, m1) ∧
    (lookup m user_id alert_id = Some state0 ∨
     lookup m user_id alert_id = None ∧
     state0 = UserAlertState.fresh user_id alert_id) ∧
    lookup m1 user_id alert_id = Some state0 ∧
    ∀ u a, (u, a) ≠ (user_id, alert_id) → lookup m1 u a = lookup m u a.
Proof.
  destruct (get_state_total m user_id alert_id)
    as (state0 & m1 & Hget & Hl1 & Hother).
  exists state0, m1. split; [done | split; [|split; [done|]]].
  - destruct (lookup m user_id alert_id) as [s|] eqn:Hl.
    + left. rewrite (get_state_existing _ _ _ _ Hl) in Hget. congruence.
    + right. rewrite (get_state_new _ _ _ Hl) in Hget.
      split; [done | congruence].
  - intros u a Hne. apply Hother. congruence.
Qed.
End Actions.

Section ActionExtras.
Import World UserAlertStateManager UserAlertState.

(** X13 (marking read).  [mark_alert_read] always succeeds.  It works on
    the state stored for the pair, or on a new unread one when there is
    none, and files it with status read and read-at set to the clock
    reading, snoozed-until and last-reminder-sent as they were; it reads
    the clock once and touches no other pair, no delivery and no alert. *)
Theorem mark_alert_read_outcome (clock : Clock) (w : World.t)
    (user_id alert_id : string) :
  store_wf (state_manager w) →
  ∃ state0 w',
    (lookup (state_manager w) user_id alert_id = Some state0 ∨
     lookup (state_manager w) user_id alert_id = None ∧
     state0 = fresh user_id alert_id) ∧
    AlertingSystem.mark_alert_read clock user_id alert_id w = (Ok tt, w') ∧
    lookup (state_manager w') user_id alert_id =
      Some (mk user_id alert_id READ (last_reminder_sent state0)
              (snoozed_until state0) (Some (clock (ticks w)))) ∧
    ticks w' = S (ticks w) ∧
    deliveries w' = deliveries w ∧
    alert_manager w' = alert_manager w ∧
    store_wf (state_manager w') ∧
    ∀ u a, (u, a) ≠ (user_id, alert_id) →
      lookup (state_manager w') u a = lookup (state_manager w) u a.
Proof.
  intros Hwf.
  destruct (get_state_found (state_manager w) user_id alert_id)
    as (state0 & m1 & Hget & Hcase & Hl1 & Hother).
  destruct (get_state_wf _ _ _ _ _ Hwf Hget) as (Hwf1 & Hu0 & Ha0).
  exists state0. eexists. split; [done|].
  unfold AlertingSystem.mark_alert_read.
  rewrite (action_run (mark_read clock) user_id alert_id w state0 m1
             (mk (UserAlertState.user_id state0)
                 (UserAlertState.alert_id state0) READ
                 (last_reminder_sent state0) (snoozed_until state0)
                 (Some (clock (ticks w)))) (S (ticks w))); try done.
  split; [reflexivity |]. cbn [state_manager ticks deliveries alert_manager].
  rewrite Hu0, Ha0.
  split; [apply lookup_store_eq |].
  split; [done | split; [done | split; [done | split]]].
  - by apply store_wf_store.
  - intros u a Hne. rewrite lookup_store_ne by congruence. by apply Hother.
Qed.

Lemma mark_alert_read_outcome_witness :
  store_wf Scenario.snoozed_store ∧
  ∃ state0 w',
    (lookup Scenario.snoozed_store "user1" "1" = Some state0 ∨
     lookup Scenario.snoozed_store "user1" "1" = None ∧
     state0 = fresh "user1" "1") ∧
    AlertingSystem.mark_alert_read Sample.clock "user1" "1"
      (Scenario.world Scenario.registry2 Scenario.snoozed_store) =
      (Ok tt, w') ∧
    lookup (state_manager w') "user1" "1" =
      Some (mk "user1" "1" READ (last_reminder_sent state0)
              (snoozed_until state0) (Some (Sample.clock 0))).
Proof.
  split; [exact snoozed_store_wf |].
  destruct (mark_alert_read_outcome Sample.clock
              (Scenario.world Scenario.registry2 Scenario.snoozed_store)
              "user1" "1" snoozed_store_wf)
    as (state0 & w' & Hcase & Hrun & Hl & _).
  exists state0, w'.
  split; [exact Hcase | split; [exact Hrun | exact Hl]].
Defined.

(** X14 (snoozing).  On a valid clock reading that is not on the last day
    of the calendar, [snooze_alert] succeeds.  It works on the state
    stored for the pair, or on a new unread one, and files it with status
    snoozed and a deadline on the next day at 00:00:00 that lies after the
    reading and at most 24 hours after it; read-at and last-reminder-sent
    stay as they were, and no other pair, no delivery and no alert is
    touched. *)
Theorem snooze_alert_outcome (clock : Clock) (w : World.t)
    (user_id alert_id : string) :
  store_wf (state_manager w) →
  datetime.wf (clock (ticks w)) →
  (datetime.ordinal (clock (ticks w)) < datetime.MAXORDINAL)%Z →
  ∃ state0 until w',
    (lookup (state_manager w) user_id alert_id = Some state0 ∨
     lookup (state_manager w) user_id alert_id = None ∧
     state0 = fresh user_id alert_id) ∧
    AlertingSystem.snooze_alert clock user_id alert_id w = (Ok tt, w') ∧
    lookup (state_manager w') user_id alert_id =
      Some (mk user_id alert_id SNOOZED (last_reminder_sent state0)
              (Some until) (read_at state0)) ∧
    datetime.ordinal until = (datetime.ordinal (clock (ticks w)) + 1)%Z ∧
    datetime.hour until = 0%Z ∧ datetime.minute until = 0%Z ∧
    datetime.second until = 0%Z ∧
    (0 < datetime.to_us until - datetime.to_us (clock (ticks w))
       <= 86400 * 1000000)%Z ∧
    ticks w' = S (ticks w) ∧
    deliveries w' = deliveries w ∧
    alert_manager w' = alert_manager w ∧
    store_wf (state_manager w') ∧
    ∀ u a, (u, a) ≠ (user_id, alert_id) →
      lookup (state_manager w') u a = lookup (state_manager w) u a.
Proof.
  intros Hwf Hnow Hlast.
  destruct (get_state_found (state_manager w) user_id alert_id)
    as (state0 & m1 & Hget & Hcase & Hl1 & Hother).
  destruct (get_state_wf _ _ _ _ _ Hwf Hget) as (Hwf1 & Hu0 & Ha0).
  exists state0. do 2 eexists. split; [done|].
  unfold AlertingSystem.snooze_alert.
  rewrite (action_run (snooze_until_tomorrow clock) user_id alert_id w
             state0 m1 _ _ Hwf Hget
             (snooze_until_tomorrow_result clock state0 (ticks w) Hnow Hlast)
             eq_refl eq_refl).
  split; [reflexivity |]. cbn [state_manager ticks deliveries alert_manager].
  rewrite Hu0, Ha0.
  split; [apply lookup_store_eq |].
  cbn [datetime.ordinal datetime.hour datetime.minute datetime.second].
  do 4 (split; [done |]).
  split.
  { destruct Hnow as (Ho & Hh & Hm & Hs & Hus).
    unfold datetime.to_us. cbn. lia. }
  split; [done | split; [done | split; [done | split]]].
  - by apply store_wf_store.
  - intros u a Hne. rewrite lookup_store_ne by congruence. by apply Hother.
Qed.

Lemma snooze_alert_outcome_witness :
  store_wf UserAlertStateManager.init ∧
  datetime.wf (Sample.clock 0) ∧
  ∃ w',
    AlertingSystem.snooze_alert Sample.clock "user1" "1"
      (Scenario.world Scenario.registry2 UserAlertStateManager.init) =
      (Ok tt, w') ∧
    lookup (state_manager w') "user1" "1" = Some Scenario.snoozed_state.
Proof.
  assert (Hwf : datetime.wf (Sample.clock 0))
    by (unfold datetime.wf, datetime.MAXORDINAL; cbn; lia).
  assert (Hlt : (datetime.ordinal (Sample.clock 0%nat)
                 < datetime.MAXORDINAL)%Z) by reflexivity.
  split; [exact store_wf_empty | split; [exact Hwf |]].
  destruct (snooze_alert_outcome Sample.clock
              (Scenario.world Scenario.registry2 UserAlertStateManager.init)
              "user1" "1" store_wf_empty Hwf Hlt)
    as (state0 & until & w' & _ & Hrun & _).
  exists w'. split; [exact Hrun |].
  injection Hrun as <-. reflexivity.
Defined.

(** X15 (snoozing on the last day).  When the clock reads a valid time on
    the last day that a timestamp can hold, [snooze_alert] raises
    [OverflowError]: nothing is snoozed, the state of the pair is the one
    stored before, or a new unread one where there was none, and no other
    pair, no delivery and no alert is touched. *)
Theorem snooze_alert_overflow (clock : Clock) (w : World.t)
    (user_id alert_id : string) :
  datetime.wf (clock (ticks w)) →
  datetime.ordinal (clock (ticks w)) = datetime.MAXORDINAL →
  ∃ state0 w',
    (lookup (state_manager w) user_id alert_id = Some state0 ∨
     lookup (state_manager w) user_id alert_id = None ∧
     state0 = fresh user_id alert_id) ∧
    AlertingSystem.snooze_alert clock user_id alert_id w =
      (Raise OverflowError, w') ∧
    lookup (state_manager w') user_id alert_id = Some state0 ∧
    ticks w' = S (ticks w) ∧
    deliveries w' = deliveries w ∧
    alert_manager w' = alert_manager w ∧
    ∀ u a, (u, a) ≠ (user_id, alert_id) →
      lookup (state_manager w') u a = lookup (state_manager w) u a.
Proof.
  intros Hnow Hlast.
  destruct (get_state_found (state_manager w) user_id alert_id)
    as (state0 & m1 & Hget & Hcase & Hl1 & Hother).
  exists state0. eexists. split; [done|].
  unfold AlertingSystem.snooze_alert.
  rewrite (action_raise (snooze_until_tomorrow clock) user_id alert_id w
             state0 m1 _ _ Hget
             (snooze_until_tomorrow_overflow clock state0 (ticks w)
                Hnow Hlast)).
  by split.
Qed.

Lemma snooze_alert_overflow_witness :
  datetime.wf (Scenario.last_day 0) ∧
  datetime.ordinal (Scenario.last_day 0) = datetime.MAXORDINAL ∧
  ∃ w',
    AlertingSystem.snooze_alert Scenario.last_day "user1" "1"
      (Scenario.world Scenario.registry2 UserAlertStateManager.init) =
      (Raise OverflowError, w') ∧
    lookup (state_manager w') "user1" "1" = Some Sample.unread.
Proof.
  assert (Hwf : datetime.wf (Scenario.last_day 0))
    by (unfold datetime.wf, Scenario.last_day, datetime.MAXORDINAL; cbn; lia).
  split; [exact Hwf | split; [reflexivity |]].
  destruct (snooze_alert_overflow Scenario.last_day
              (Scenario.world Scenario.registry2 UserAlertStateManager.init)
              "user1" "1" Hwf eq_refl)
    as (state0 & w' & _ & Hrun & _).
  exists w'. split; [exact Hrun |].
  injection Hrun as <-. reflexivity.
Defined.
End ActionExtras.

(** * Analytics and listing *)

Section Analytics.
Import AnalyticsEngine.




(** Every stored state is met by the nested loops, and nothing else. *)
Lemma elem_of_all_states (m : gmap string (gmap string UserAlertState.t))
    state :
  state ∈ all_states m ↔
  ∃ user_id alert_id,
    UserAlertStateManager.lookup m user_id alert_id = Some state.
Proof.
  unfold all_states, UserAlertStateManager.lookup.
  rewrite list_elem_of_bind. split.
  - intros (inner & Hs & Hinner).
    apply list_elem_of_fmap in Hinner as ([u inner'] & -> & Hu).
    apply list_elem_of_fmap in Hs as ([a s] & -> & Ha).
    apply elem_of_map_to_list in Hu, Ha. cbn in *.
    exists u, a. by rewrite Hu.
  - intros (u & a & Hl).
    destruct (m !! u) as [inner|] eqn:Hu; [|done]. cbn in Hl.
    exists inner. split.
    + apply list_elem_of_fmap. exists (a, state). split; [done|].
      by apply elem_of_map_to_list.
    + apply list_elem_of_fmap. exists (u, inner). split; [done|].
      by apply elem_of_map_to_list.
Qed.

End Analytics.

Section Listing.
Import AlertingSystemAdmin.

Lemma status_value_inj s1 s2 :
  AlertStatus_value s1 = AlertStatus_value s2 → s1 = s2.
Proof. by destruct s1, s2. Qed.

(** X17 (listing alerts).  [list_alerts] returns alerts of the registry
    in their order: all of them without filters or with a filter
    dictionary that has neither key, otherwise exactly those whose
    severity is the one asked for and whose status has the value asked
    for; a status string that is the value of no status gives the empty
    list. *)
Theorem list_alerts_spec (filters : option Filters)
    (registry : AlertRegistry.t) :
  list_alerts filters registry `sublist_of` AlertRegistry.values registry ∧
  (∀ alert,
     alert ∈ list_alerts filters registry ↔
     alert ∈ AlertRegistry.values registry ∧
     ∀ f, filters = Some f →
       (∀ severity, filter_severity f = Some severity →
          Alert.severity alert = severity) ∧
       (∀ status, filter_status f = Some status →
          AlertStatus_value (Alert.status alert) = status)) ∧
  (∀ f status,
     filters = Some f → filter_status f = Some status →
     status ∉ ["active"; "expired"; "archived"] →
     list_alerts filters registry = []).
Proof.
  assert (Hmatch : ∀ f alert,
    matches f alert = true ↔
    (∀ severity, filter_severity f = Some severity →
       Alert.severity alert = severity) ∧
    (∀ status, filter_status f = Some status →
       AlertStatus_value (Alert.status alert) = status)).
  { intros [sev st] alert. unfold matches. cbn.
    destruct sev as [sev|], st as [st|]; repeat case_bool_decide;
      split; try done; try (intros [H1 H2]);
      try (split; intros ? [= <-]; tauto);
      try (split; intros ? [=]; tauto);
      try (exfalso; naive_solver). }
  assert (Hfilter : ∀ f,
    (∀ alert,
       alert ∈ filter (λ a, matches f a = true)
                 (AlertRegistry.values registry) ↔
       alert ∈ AlertRegistry.values registry ∧
       (∀ severity, filter_severity f = Some severity →
          Alert.severity alert = severity) ∧
       (∀ status, filter_status f = Some status →
          AlertStatus_value (Alert.status alert) = status))).
  { intros f alert. rewrite list_elem_of_filter, Hmatch. tauto. }
  split; [|split].
  - destruct filters as [[[sev|] [st|]]|]; cbn [list_alerts];
      first [apply sublist_filter | reflexivity].
  - intros alert.
    destruct filters as [[[sev|] [st|]]|]; cbn [list_alerts];
      rewrite ?Hfilter; (split; [|intros [Hin Hall]]);
      first
        [ intros [Hin Hall]; split; [exact Hin|]; by intros f [= <-]
        | split; [exact Hin|]; by apply Hall
        | intros Hin; split; [exact Hin|]; intros f [= <-];
          split; by intros ? [=]
        | intros Hin; split; [exact Hin|]; by intros f [=]
        | exact Hin ].
  - intros f status -> Hst Hno.
    assert (Hnone : ∀ alert, matches f alert = false).
    { intros alert. destruct (matches f alert) eqn:Hm; [|done].
      apply Hmatch in Hm as [_ Hm]. specialize (Hm _ Hst).
      destruct Hno. rewrite <- Hm.
      destruct (Alert.status alert); cbn; set_solver. }
    assert (Hempty : ∀ l : list Alert.t,
      filter (λ a, matches f a = true) l = []).
    { induction l as [|a rest IH]; [done|].
      rewrite filter_cons. case_decide as Hd; [|exact IH].
      by rewrite Hnone in Hd. }
    destruct f as [[sev|] st]; cbn in Hst; subst st; cbn [list_alerts];
      apply Hempty.
Qed.
End Listing.

(** * More on audiences and on alerts without a channel *)

Section AudienceExtras.
Import VisibilityConfig.

Lemma elem_of_team_targets (directory : UserRepository.t)
    (team_ids : gset string) (user_id : string) :
  user_id ∈ get_target_users (TeamVisibility team_ids) directory ↔
  ∃ team_id team,
    team_id ∈ team_ids ∧
    UserRepository.teams directory !! team_id = Some team ∧
    user_id ∈ Team.member_ids team.
Proof.
  cbn [get_target_users]. rewrite foldl_add_team.
  rewrite elem_of_union, elem_of_union_list. split.
  - intros [?%not_elem_of_empty|(members & Hin & Hu)]; [done|].
    apply list_elem_of_fmap in Hin as (team_id & -> & Hid).
    apply elem_of_elements in Hid. unfold spec_team_members in Hu.
    destruct (UserRepository.teams directory !! team_id) as [team|] eqn:Ht;
      [|by apply not_elem_of_empty in Hu].
    by exists team_id, team.
  - intros (team_id & team & Hid & Hteam & Hu). right.
    exists (Team.member_ids team). split; [|done].
    apply list_elem_of_fmap. exists team_id. split.
    + unfold spec_team_members. by rewrite Hteam.
    + by apply elem_of_elements.
Qed.

(** X18 (teams come and go).  Resolving a team rule against a directory
    from which a team was removed gives what resolving the rule without
    that team gives against the directory as it was; and naming more teams
    never makes the audience smaller. *)
Theorem team_audience_without_team (directory : UserRepository.t)
    (team_ids : gset string) (team_id : string) :
  get_target_users (TeamVisibility team_ids)
    (UserRepository.mk (UserRepository.users directory)
       (delete team_id (UserRepository.teams directory))) =
  get_target_users (TeamVisibility (team_ids ∖ {[team_id]})) directory ∧
  ∀ more : gset string,
    get_target_users (TeamVisibility team_ids) directory ⊆
    get_target_users (TeamVisibility (team_ids ∪ more)) directory.
Proof.
  split.
  - apply set_eq. intros user_id. rewrite !elem_of_team_targets.
    cbn [UserRepository.teams]. split.
    + intros (t & team & Hin & Hteam & Hu).
      apply lookup_delete_Some in Hteam as [Hne Hteam].
      exists t, team. split; [set_solver | done].
    + intros (t & team & Hin & Hteam & Hu).
      apply elem_of_difference in Hin as [Hin Hne].
      exists t, team. split; [done | split; [|done]].
      apply lookup_delete_Some. split; [set_solver | done].
  - intros more user_id. rewrite !elem_of_team_targets.
    intros (t & team & Hin & Hteam & Hu).
    exists t, team. split; [set_solver | done].
Qed.
End AudienceExtras.

Section NoChannel.
Import World UserAlertStateManager.

(** X19 (alerts without a channel).  For an alert whose delivery type has
    no channel, in a registry with distinct ids, a sweep records only
    failed deliveries and leaves last-reminder-sent of every recipient's
    state for the alert as it was, unset where the state is new: such an
    alert is never throttled. *)
Theorem sweep_never_stamps_without_channel (clock : Clock) (w : World.t)
    (alert : Alert.t) :
  store_wf (state_manager w) →
  NoDup (Alert.id <$> AlertManager.alerts (alert_manager w)) →
  alert ∈ AlertManager.alerts (alert_manager w) →
  Alert.delivery_type alert = SMS →
  ∃ w' new,
    ReminderScheduler.process_reminders clock w = (Ok tt, w') ∧
    deliveries w' = new ++ deliveries w ∧
    (∀ user_id r, (Alert.id alert, user_id, r) ∈ new → r = false) ∧
    ∀ user_id,
      lookup (state_manager w') user_id (Alert.id alert)
        ≫= UserAlertState.last_reminder_sent =
      lookup (state_manager w) user_id (Alert.id alert)
        ≫= UserAlertState.last_reminder_sent.
Proof.
  intros Hwf Hnd Hin Hsms.
  destruct (process_reminders_inv clock
    (λ v,
       store_wf (state_manager v) ∧
       (∃ new, deliveries v = new ++ deliveries w ∧
               ∀ user_id r, (Alert.id alert, user_id, r) ∈ new → r = false) ∧
       ∀ user_id,
         lookup (state_manager v) user_id (Alert.id alert)
           ≫= UserAlertState.last_reminder_sent =
         lookup (state_manager w) user_id (Alert.id alert)
           ≫= UserAlertState.last_reminder_sent) w)
    as (w' & Hrun & _ & (new & Hd & Hnew) & Hlast).
  - intros v n (H1 & H2 & H3) _. by split.
  - intros b u v Hb (Hwfv & (new & Hd & Hnew) & Hlast).
    destruct (decide (Alert.id b = Alert.id alert)) as [Hid|Hne].
    + assert (b = alert) as ->.
      { apply list_elem_of_lookup in Hb as [i Hi], Hin as [j Hj].
        assert (i = j) as ->; [|congruence].
        eapply NoDup_lookup; [exact Hnd | |];
          rewrite list_lookup_fmap; [by rewrite Hi | by rewrite Hj, Hid]. }
      destruct (get_state_found (state_manager v) u (Alert.id alert))
        as (state0 & m1 & Hget & Hcase & Hl1 & Hother).
      destruct (should_receive_reminder_total clock state0 alert (ticks v))
        as (due & state1 & n1 & Hcheck & _ & _ & _ & Hl & _).
      destruct (remind_pair_frame clock alert u v Hwfv)
        as (v' & Hremind & (Hwfv' & _) & _).
      exists v'. split; [done | split; [done|]].
      rewrite (remind_run clock v alert u _ _ _ _ _ Hget Hcheck) in Hremind.
      assert (Hdel : NotificationDelivery.deliver_result alert u = false).
      { unfold NotificationDelivery.deliver_result. by rewrite Hsms. }
      rewrite Hdel in Hremind.
      assert (Hstore : ∀ user_id,
        lookup (store u (Alert.id alert) state1 m1) user_id (Alert.id alert)
          ≫= UserAlertState.last_reminder_sent =
        lookup (state_manager w) user_id (Alert.id alert)
          ≫= UserAlertState.last_reminder_sent).
      { intros u'. rewrite <- Hlast.
        destruct (decide (u' = u)) as [->|Hu].
        - rewrite lookup_store_eq. cbn. rewrite Hl.
          destruct Hcase as [->|[-> ->]]; done.
        - rewrite lookup_store_ne by congruence.
          rewrite Hother by congruence. done. }
      destruct due; injection Hremind as <-; cbn [deliveries state_manager].
      * split; [|done]. exists ((Alert.id alert, u, false) :: new).
        split; [by rewrite Hd|].
        intros u' r [[= _ <-]|Hin']%elem_of_cons; [done | by eapply Hnew].
      * split; [|done]. by exists new.
    + destruct (remind_pair_frame clock b u v Hwfv)
        as (v' & Hremind & (Hwfv' & _ & _ & (new' & Hd' & Hnew') & Hl') & _).
      exists v'. split; [done | split; [done | split]].
      * exists (new' ++ new). split; [by rewrite Hd', Hd, (assoc (++)) |].
        intros u' r [Hin'|Hin']%elem_of_app; [|by eapply Hnew].
        apply Hnew' in Hin'. cbn in Hin'. destruct Hin' as [Heq _].
        by destruct Hne.
      * intros u'. rewrite Hl'; [done|]. intros [Heq _]. by destruct Hne.
  - split; [done | split; [|done]]. exists []. split; [done|].
    by intros u r ?%elem_of_nil.
  - by exists w', new.
Qed.

Lemma sweep_never_stamps_without_channel_witness :
  store_wf (state_manager (Sample.world [Sample.sms_alert])) ∧
  NoDup (Alert.id <$> [Sample.sms_alert]) ∧
  Alert.delivery_type Sample.sms_alert = SMS ∧
  ∃ w' new,
    ReminderScheduler.process_reminders Sample.clock
      (Sample.world [Sample.sms_alert]) = (Ok tt, w') ∧
    deliveries w' = new ++ [] ∧
    (∀ user_id r, ("1", user_id, r) ∈ new → r = false) ∧
    ∀ user_id,
      lookup (state_manager w') user_id "1"
        ≫= UserAlertState.last_reminder_sent = None.
Proof.
  assert (Hnd : NoDup (Alert.id <$> [Sample.sms_alert]))
    by apply NoDup_singleton.
  assert (Hin : Sample.sms_alert ∈ [Sample.sms_alert])
    by apply list_elem_of_singleton, eq_refl.
  split; [exact store_wf_empty | split; [exact Hnd | split; [reflexivity |]]].
  exact (sweep_never_stamps_without_channel Sample.clock
           (Sample.world [Sample.sms_alert]) Sample.sms_alert
           store_wf_empty Hnd Hin eq_refl).
Defined.
End NoChannel.
